(** * ModelPulse: model-usage tracking for ComfyUI workflows

    A shallow embedding of [py/model_types.py], [py/tracking.py],
    [py/storage.py] and two handlers of [py/routes.py], and the properties
    of extraction, recording, querying, retention and storage that the
    design document states about them or that the code shows.

    Conventions.
    - A Python value that comes from outside (a workflow graph, the JSON
      text of the data file) is a [pyval]; operations that Python checks at
      run time return a [result] and raise the exception Python raises.
    - A Python dict is an association list in insertion order ([dict]);
      [dict_set] updates a key in place or appends it, as Python does.
    - The document the tracker holds in memory has the shape the code
      gives it and is a record ([UsageDatabase]); [doc_json] is its JSON.
    - Text is a [string]; [String.leb] is Python's [<=] on [str].  [lower]
      is [str.lower] on ASCII text, and the theorems about lowered text
      (the pattern path, the order by name) are stated for ASCII text
      ([is_ascii]).
    - A date is a [datetime.date] with the library's calendar arithmetic
      and range; the dates of a log are the ISO texts the code stores.
    - The tracker's operations take the readings of the clock as
      arguments; the storage layer runs in a [world] of files, clock
      readings and printed lines. *)

From Stdlib Require Import ZArith List String Ascii Bool Lia.
From Stdlib Require Import Permutation Sorted.
Import ListNotations.

Local Open Scope string_scope.
Local Open Scope list_scope.
Local Open Scope Z_scope.

Set Warnings "-register-all".

(* ================================================================== *)
(** * Python values, exceptions and dictionaries *)
(* ================================================================== *)

Module Py.

(** The exceptions the modelled code can raise. *)
Inductive exn : Type :=
| AttributeError
| TypeError
| KeyError
| OverflowError
| JSONDecodeError
| UnicodeDecodeError
| FileNotFoundError
| TimeoutError.

Inductive result (A : Type) : Type :=
| Ok (a : A)
| Raise (e : exn).

Arguments Ok {A} a.
Arguments Raise {A} e.

Definition bind {A B : Type} (r : result A) (k : A -> result B) : result B :=
  match r with
  | Ok a => k a
  | Raise e => Raise e
  end.

(** A dict with [str] keys, in insertion order. *)
Definition dict (A : Type) : Type := list (string * A).

(** A value as [json.load] or the host hands it over.  A float is kept as a
    dyadic [m * 2^e]; the code only ever tests it for truth. *)
Inductive pyval : Type :=
| VNone
| VBool (b : bool)
| VInt (z : Z)
| VFloat (m e : Z)
| VStr (s : string)
| VList (l : list pyval)
| VDict (d : list (string * pyval)).

Section Dict.
Context {A : Type}.

(** [d.get(k)] / [d[k]] on the entries: the first binding of [k]. *)
Fixpoint dict_get (k : string) (d : dict A) : option A :=
  match d with
  | [] => None
  | (k', v) :: rest => if String.eqb k k' then Some v else dict_get k rest
  end.

(** [k in d]. *)
Definition dict_mem (k : string) (d : dict A) : bool :=
  match dict_get k d with
  | Some _ => true
  | None => false
  end.

(** [d[k] = v]: an existing key keeps its position, a new one goes last. *)
Fixpoint dict_set (k : string) (v : A) (d : dict A) : dict A :=
  match d with
  | [] => [(k, v)]
  | (k', v') :: rest =>
      if String.eqb k k' then (k', v) :: rest
      else (k', v') :: dict_set k v rest
  end.

Definition dict_keys (d : dict A) : list string := map fst d.
Definition dict_values (d : dict A) : list A := map snd d.
End Dict.

(** [bool(v)]. *)
Definition truthy (v : pyval) : bool :=
  match v with
  | VNone => false
  | VBool b => b
  | VInt z => negb (z =? 0)
  | VFloat m _ => negb (m =? 0)
  | VStr s => negb (String.eqb s "")
  | VList l => match l with [] => false | _ => true end
  | VDict d => match d with [] => false | _ => true end
  end.

Definition isinstance_str (v : pyval) : bool :=
  match v with
  | VStr _ => true
  | _ => false
  end.

(** [obj.get(key, default)]: only a dict has the method. *)
Definition py_get (obj : pyval) (key : string) (default : pyval) : result pyval :=
  match obj with
  | VDict d =>
      Ok (match dict_get key d with
          | Some v => v
          | None => default
          end)
  | _ => Raise AttributeError
  end.

(** [str.lower] on one ASCII character. *)
Definition lower_ascii (c : ascii) : ascii :=
  let n := N_of_ascii c in
  if ((65 <=? n) && (n <=? 90))%N then ascii_of_N (n + 32) else c.

(** [str.lower] on ASCII text.  Characters outside ASCII are left as they
    are, which Python does not do for all of them; the theorems that
    depend on lowering are stated for ASCII text. *)
Fixpoint lower (s : string) : string :=
  match s with
  | EmptyString => EmptyString
  | String c rest => String (lower_ascii c) (lower rest)
  end.

(** [needle in hay] for two [str]: [needle] occurs as a substring. *)
Fixpoint contains (needle hay : string) : bool :=
  String.prefix needle hay
  || match hay with
     | EmptyString => false
     | String _ rest => contains needle rest
     end.

(** [x.lower()] on a value: only [str] has the method. *)
Definition py_lower (v : pyval) : result string :=
  match v with
  | VStr s => Ok (lower s)
  | _ => Raise AttributeError
  end.

(** [v == VStr s]. *)
Definition eq_str (s : string) (v : pyval) : bool :=
  match v with
  | VStr s' => String.eqb s s'
  | _ => false
  end.

(** [needle in container] for a [str] needle: substring test on a [str],
    element test on a list, key test on a dict, [TypeError] on a value that
    is not iterable. *)
Definition py_str_in (needle : string) (container : pyval) : result bool :=
  match container with
  | VStr s => Ok (contains needle s)
  | VList l => Ok (existsb (eq_str needle) l)
  | VDict d => Ok (dict_mem needle d)
  | VNone | VBool _ | VInt _ | VFloat _ _ => Raise TypeError
  end.

End Py.

Import Py.

Notation "x <- c1 ;; c2" := (Py.bind c1 (fun x => c2))
  (at level 61, c1 at next level, right associativity).

(* ================================================================== *)
(** * [py/model_types.py] *)
(* ================================================================== *)

Module ModelTypes.

(** The second component of a [MODEL_LOADERS] entry: one key or a list. *)
Inductive input_keys : Type :=
| OneKey (key : string)
| ManyKeys (keys : list string).

Definition MODEL_LOADERS : dict (string * input_keys) :=
  [ ("CheckpointLoaderSimple", ("checkpoint", OneKey "ckpt_name"));
    ("CheckpointLoader", ("checkpoint", OneKey "ckpt_name"));
    ("LoraLoader", ("lora", OneKey "lora_name"));
    ("LoraLoaderModelOnly", ("lora", OneKey "lora_name"));
    ("VAELoader", ("vae", OneKey "vae_name"));
    ("ControlNetLoader", ("controlnet", OneKey "control_net_name"));
    ("CLIPLoader", ("clip", OneKey "clip_name"));
    ("DualCLIPLoader", ("clip", ManyKeys ["clip_name1"; "clip_name2"]));
    ("UNETLoader", ("unet", OneKey "unet_name"));
    ("UpscaleModelLoader", ("upscaler", OneKey "model_name"));
    ("StyleModelLoader", ("style_model", OneKey "style_model_name"));
    ("GLIGENLoader", ("gligen", OneKey "gligen_name"));
    ("UnetLoaderGGUF", ("gguf", OneKey "unet_name"));
    ("UnetLoaderGGUFAdvanced", ("gguf", OneKey "unet_name"));
    ("CLIPLoaderGGUF", ("gguf", OneKey "clip_name"));
    ("DualCLIPLoaderGGUF", ("gguf", ManyKeys ["clip_name1"; "clip_name2"]));
    ("TripleCLIPLoaderGGUF",
      ("gguf", ManyKeys ["clip_name1"; "clip_name2"; "clip_name3"]));
    ("QuadrupleCLIPLoaderGGUF",
      ("gguf", ManyKeys ["clip_name1"; "clip_name2"; "clip_name3"; "clip_name4"]))
  ].

(** (pattern in class name, category, possible input keys), in order. *)
Definition LOADER_PATTERNS : list (string * string * list string) :=
  [ ("Checkpoint", "checkpoint", ["ckpt_name"; "checkpoint"; "model_name"]);
    ("Lora", "lora", ["lora_name"; "lora"]);
    ("VAE", "vae", ["vae_name"; "vae"]);
    ("ControlNet", "controlnet", ["control_net_name"; "controlnet"; "control_net"]);
    ("CLIP", "clip", ["clip_name"; "clip"]);
    ("UNET", "unet", ["unet_name"; "unet"]);
    ("Upscale", "upscaler", ["model_name"; "upscale_model"])
  ].

End ModelTypes.

Import ModelTypes.

(* ================================================================== *)
(** * [py/tracking.py]: extraction *)
(* ================================================================== *)

(** A model reference: the dict with keys [category], [name], [model_id]. *)
Record model : Type := Model {
  category : string;
  name : string;
  model_id : string
}.

(** [value and isinstance(value, str)], with the text when it holds. *)
Definition nonempty_str (value : pyval) : option string :=
  if truthy value && isinstance_str value then
    match value with
    | VStr s => Some s
    | _ => None
    end
  else None.

(** The reference built at lines 80-85 and 100-105. *)
Definition reference (category value : string) : model :=
  {| category := category; name := value; model_id := category ++ "/" ++ value |}.

(** The [for key in input_keys] loop of [_extract_from_inputs]. *)
Fixpoint inputs_loop (category : string) (keys : list string) (inputs : pyval)
    (models : list model) : result (list model) :=
  match keys with
  | [] => Ok models
  | key :: rest =>
      value <- py_get inputs key VNone ;;
      match nonempty_str value with
      | Some v => inputs_loop category rest inputs (models ++ [reference category v])
      | None => inputs_loop category rest inputs models
      end
  end.

Definition _extract_from_inputs (category : string) (keys : input_keys)
    (inputs : pyval) : result (list model) :=
  let keys :=
    match keys with
    | OneKey key => [key]
    | ManyKeys keys => keys
    end in
  inputs_loop category keys inputs [].

(** The [for key in possible_keys] loop of [_extract_from_patterns]; it
    leaves at the first append. *)
Fixpoint keys_loop (category : string) (possible_keys : list string)
    (inputs : pyval) (models : list model) : result (list model) :=
  match possible_keys with
  | [] => Ok models
  | key :: rest =>
      value <- py_get inputs key VNone ;;
      match nonempty_str value with
      | Some v => Ok (models ++ [reference category v])
      | None => keys_loop category rest inputs models
      end
  end.

(** The [for pattern, category, possible_keys in LOADER_PATTERNS] loop; it
    leaves after the first pattern that matches. *)
Fixpoint patterns_loop (patterns : list (string * string * list string))
    (class_type : pyval) (inputs : pyval) (models : list model)
    : result (list model) :=
  match patterns with
  | [] => Ok models
  | (pattern, category, possible_keys) :: rest =>
      lowered <- py_lower class_type ;;
      if contains (lower pattern) lowered
      then keys_loop category possible_keys inputs models
      else patterns_loop rest class_type inputs models
  end.

Definition _extract_from_patterns (class_type : pyval) (inputs : pyval)
    : result (list model) :=
  patterns_loop LOADER_PATTERNS class_type inputs [].

(** [class_type in MODEL_LOADERS], with the entry: a list or a dict is not
    hashable, any other value that is not a [str] is not a key. *)
Definition MODEL_LOADERS_find (class_type : pyval)
    : result (option (string * input_keys)) :=
  match class_type with
  | VStr s => Ok (dict_get s MODEL_LOADERS)
  | VList _ | VDict _ => Raise TypeError
  | VNone | VBool _ | VInt _ | VFloat _ _ => Ok None
  end.

(** The [for model in extracted] loop (lines 53-56 and 61-64). *)
Fixpoint keep_unseen (extracted : list model)
    (models : list model) (seen : list string) : list model * list string :=
  match extracted with
  | [] => (models, seen)
  | m :: rest =>
      if existsb (String.eqb (model_id m)) seen
      then keep_unseen rest models seen
      else keep_unseen rest (models ++ [m]) (model_id m :: seen)
  end.

(** What one node contributes before deduplication (lines 46-60). *)
Definition node_extracted (node_data : pyval) : result (list model) :=
  class_type <- py_get node_data "class_type" (VStr "") ;;
  inputs <- py_get node_data "inputs" (VDict []) ;;
  entry <- MODEL_LOADERS_find class_type ;;
  match entry with
  | Some (category, input_keys) =>
      _extract_from_inputs category input_keys inputs
  | None =>
      is_loader <- py_str_in "Loader" class_type ;;
      if is_loader then _extract_from_patterns class_type inputs
      else Ok []
  end.

(** The [for node_id, node_data in prompt.items()] loop. *)
Fixpoint prompt_loop (items : dict pyval)
    (models : list model) (seen : list string) : result (list model) :=
  match items with
  | [] => Ok models
  | (node_id, node_data) :: rest =>
      extracted <- node_extracted node_data ;;
      let '(models', seen') := keep_unseen extracted models seen in
      prompt_loop rest models' seen'
  end.

Definition extract_models_from_prompt (prompt : dict pyval) : result (list model) :=
  prompt_loop prompt [] [].

(* ================================================================== *)
(** * The [datetime] module, as far as the code uses it *)
(* ================================================================== *)

Module Datetime.

(** [datetime.date]: a day of the proleptic Gregorian calendar. *)
Record date : Type := Date {
  year : Z;
  month : Z;
  day : Z
}.

(** [datetime.datetime] (naive, as [utcnow] returns it). *)
Record datetime : Type := DateTime {
  date_of : date;
  hour : Z;
  minute : Z;
  second : Z;
  microsecond : Z
}.

Definition MAXORDINAL : Z := 3652059.

Definition is_leap (y : Z) : bool :=
  (y mod 4 =? 0) && (negb (y mod 100 =? 0) || (y mod 400 =? 0)).

Definition days_before_year (y : Z) : Z :=
  let y := y - 1 in
  y * 365 + y / 4 - y / 100 + y / 400.

Definition DAYS_IN_MONTH : list Z :=
  [31; 28; 31; 30; 31; 30; 31; 31; 30; 31; 30; 31].

Definition DAYS_BEFORE_MONTH : list Z :=
  [0; 31; 59; 90; 120; 151; 181; 212; 243; 273; 304; 334].

Definition at_month (table : list Z) (m : Z) : Z :=
  nth (Z.to_nat (m - 1)) table 0.

Definition days_in_month (y m : Z) : Z :=
  if (m =? 2) && is_leap y then 29 else at_month DAYS_IN_MONTH m.

Definition days_before_month (y m : Z) : Z :=
  at_month DAYS_BEFORE_MONTH m + (if (m >? 2) && is_leap y then 1 else 0).

(** [date.toordinal()]: 0001-01-01 is day 1. *)
Definition toordinal (d : date) : Z :=
  days_before_year (year d) + days_before_month (year d) (month d) + day d.

(** The month and the day of day [n], counted from 0, of a year (the end
    of the library's [_ord2ymd]). *)
Definition month_day (leapyear : bool) (n : Z) : Z * Z :=
  let m := (n + 50) / 32 in
  let preceding :=
    at_month DAYS_BEFORE_MONTH m + (if (m >? 2) && leapyear then 1 else 0) in
  if preceding >? n then
    let m := m - 1 in
    let preceding :=
      preceding
      - (at_month DAYS_IN_MONTH m + (if (m =? 2) && leapyear then 1 else 0)) in
    (m, n - preceding + 1)
  else (m, n - preceding + 1).

(** [date.fromordinal(n)] (the library's [_ord2ymd]). *)
Definition fromordinal (n : Z) : date :=
  let n := n - 1 in
  let n400 := n / 146097 in
  let n := n mod 146097 in
  let n100 := n / 36524 in
  let n := n mod 36524 in
  let n4 := n / 1461 in
  let n := n mod 1461 in
  let n1 := n / 365 in
  let n := n mod 365 in
  let y := n400 * 400 + 1 + n100 * 100 + n4 * 4 + n1 in
  if (n1 =? 4) || (n100 =? 4) then Date (y - 1) 12 31
  else
    let leapyear := (n1 =? 3) && (negb (n4 =? 24) || (n100 =? 3)) in
    let (m, d) := month_day leapyear n in
    Date y m d.

(** A date the library can hold: year 1 to 9999, a day of its month. *)
Definition valid_date (d : date) : bool :=
  (1 <=? year d) && (year d <=? 9999)
  && (1 <=? month d) && (month d <=? 12)
  && (1 <=? day d) && (day d <=? days_in_month (year d) (month d)).

Definition valid_datetime (t : datetime) : bool :=
  valid_date (date_of t)
  && (0 <=? hour t) && (hour t <? 24)
  && (0 <=? minute t) && (minute t <? 60)
  && (0 <=? second t) && (second t <? 60)
  && (0 <=? microsecond t) && (microsecond t <? 1000000).

(** [timedelta(days=n)], as its number of days. *)
Definition timedelta (days : Z) : result Z :=
  if Z.abs days >? 999999999 then Raise OverflowError else Ok days.

(** [d - timedelta(days=n)] on a date. *)
Definition date_sub (d : date) (days : Z) : result date :=
  let o := toordinal d - days in
  if (0 <? o) && (o <=? MAXORDINAL) then Ok (fromordinal o)
  else Raise OverflowError.

(** [t - timedelta(days=n)] on a datetime: the time of day is kept. *)
Definition datetime_sub (t : datetime) (days : Z) : result datetime :=
  d <- date_sub (date_of t) days ;;
  Ok (DateTime d (hour t) (minute t) (second t) (microsecond t)).

Definition digit (n : Z) : ascii :=
  ascii_of_N (48 + Z.to_N (n mod 10)).

(** The [width] low decimal digits of [n], most significant first: what
    ["%0<width>d" % n] prints for [0 <= n < 10 ^ width]. *)
Fixpoint fixed_dec (width : nat) (n : Z) : string :=
  match width with
  | O => ""
  | S w => fixed_dec w (n / 10) ++ String (digit n) ""
  end.

(** [date.isoformat()]: [YYYY-MM-DD]. *)
Definition date_isoformat (d : date) : string :=
  fixed_dec 4 (year d) ++ "-" ++ fixed_dec 2 (month d) ++ "-" ++ fixed_dec 2 (day d).

(** [datetime.isoformat()]: [YYYY-MM-DDTHH:MM:SS], and [.ffffff] when the
    microsecond is not zero. *)
Definition isoformat (t : datetime) : string :=
  date_isoformat (date_of t) ++ "T"
  ++ fixed_dec 2 (hour t) ++ ":" ++ fixed_dec 2 (minute t) ++ ":"
  ++ fixed_dec 2 (second t)
  ++ (if microsecond t =? 0 then "" else "." ++ fixed_dec 6 (microsecond t)).

(** [strftime("%Y%m%d_%H%M%S")]. *)
Definition strftime_compact (t : datetime) : string :=
  fixed_dec 4 (year (date_of t)) ++ fixed_dec 2 (month (date_of t))
  ++ fixed_dec 2 (day (date_of t)) ++ "_"
  ++ fixed_dec 2 (hour t) ++ fixed_dec 2 (minute t) ++ fixed_dec 2 (second t).

End Datetime.

Import Datetime.

(* ================================================================== *)
(** * The usage database *)
(* ================================================================== *)

(** One element of a [usage_log]: [{"date": ..., "count": ...}]. *)
Record DailyUsageEntry : Type := Entry {
  date : string;
  count : Z
}.

(** One value of the [models] mapping.  [r_category] and [r_name] are its
    [category] and [name] keys. *)
Record ModelRecord : Type := Record_ {
  r_category : string;
  r_name : string;
  path : string;
  first_used : string;
  last_used : string;
  usage_count : Z;
  usage_log : list DailyUsageEntry
}.

Record Metadata : Type := Meta {
  tracking_started : string;
  last_updated : string
}.

(** The root document; [db_models] is its [models] key and so on. *)
Record UsageDatabase : Type := Database {
  db_version : Z;
  db_models : dict ModelRecord;
  db_metadata : Metadata
}.

Definition SCHEMA_VERSION : Z := 1.

(** [datetime.utcnow().isoformat() + "Z"]. *)
Definition iso_z (now : datetime) : string := isoformat now ++ "Z".

(** [create_empty_data()], [now] being what [utcnow] reads. *)
Definition create_empty_data (now : datetime) : UsageDatabase :=
  {| db_version := SCHEMA_VERSION;
     db_models := [];
     db_metadata := {| tracking_started := iso_z now; last_updated := iso_z now |} |}.

(** The in-memory effect of [save_data]: it stamps [last_updated] before it
    writes. *)
Definition stamp_last_updated (now : datetime) (data : UsageDatabase) : UsageDatabase :=
  {| db_version := db_version data;
     db_models := db_models data;
     db_metadata := {| tracking_started := tracking_started (db_metadata data);
                       last_updated := iso_z now |} |}.

(* ================================================================== *)
(** * [py/tracking.py]: recording *)
(* ================================================================== *)

(** [usage_log[-1]], when the list is not empty. *)
Definition last_entry (usage_log : list DailyUsageEntry) : option DailyUsageEntry :=
  match rev usage_log with
  | [] => None
  | e :: _ => Some e
  end.

(** Lines 146-151: count on today's entry when it is the last one, append
    a new entry otherwise. *)
Definition log_today (today : string) (usage_log : list DailyUsageEntry)
    : list DailyUsageEntry :=
  match last_entry usage_log with
  | Some e =>
      if String.eqb (date e) today
      then removelast usage_log ++ [ {| date := date e; count := count e + 1 |} ]
      else usage_log ++ [ {| date := today; count := 1 |} ]
  | None => usage_log ++ [ {| date := today; count := 1 |} ]
  end.

(** Lines 142-151 on one record. *)
Definition touch (now_iso today : string) (model_data : ModelRecord) : ModelRecord :=
  {| r_category := r_category model_data;
     r_name := r_name model_data;
     path := path model_data;
     first_used := first_used model_data;
     last_used := now_iso;
     usage_count := usage_count model_data + 1;
     usage_log := log_today today (usage_log model_data) |}.

(** Lines 130-138: the entry of a model met for the first time. *)
Definition new_record (now_iso : string) (m : model) : ModelRecord :=
  {| r_category := category m;
     r_name := name m;
     path := model_id m;
     first_used := now_iso;
     last_used := now_iso;
     usage_count := 0;
     usage_log := [] |}.

(** The body of [for model in models] (lines 126-151) on the [models]
    mapping of the document. *)
Definition record_model (now_iso today : string) (data_models : dict ModelRecord)
    (m : model) : dict ModelRecord :=
  let data_models :=
    if negb (dict_mem (model_id m) data_models) then
      dict_set (model_id m) (new_record now_iso m) data_models
    else data_models in
  match dict_get (model_id m) data_models with
  | Some model_data =>
      dict_set (model_id m) (touch now_iso today model_data) data_models
  | None => data_models
  end.

(** [record_usage(models)] on the tracker's document.  [now] is the clock
    at line 121, [saved_at] the clock when [_save] stamps the document. *)
Definition record_usage (now saved_at : datetime) (models : list model)
    (data : UsageDatabase) : UsageDatabase :=
  match models with
  | [] => data
  | _ :: _ =>
      let now_iso := iso_z now in
      let today := date_isoformat (date_of now) in
      stamp_last_updated saved_at
        {| db_version := db_version data;
           db_models := fold_left (record_model now_iso today) models (db_models data);
           db_metadata := db_metadata data |}
  end.

(* ================================================================== *)
(** * [py/tracking.py]: queries *)
(* ================================================================== *)

(** One element of the [models] list that [get_usage_data] returns. *)
Record Summary : Type := Summary_ {
  s_model_id : string;
  s_category : string;
  s_name : string;
  s_first_used : string;
  s_last_used : string;
  s_usage_count : Z;
  timeframe_count : Z
}.

Record UsageData : Type := UsageData_ {
  u_models : list Summary;
  u_metadata : Metadata;
  u_timeframe : string;
  u_sort_by : string
}.

(** [list.sort]: a stable sort.  [before x y] says that [x] may stand before
    [y]; elements that may stand either way keep their order. *)
Fixpoint insert_sorted {A : Type} (before : A -> A -> bool) (x : A) (l : list A)
    : list A :=
  match l with
  | [] => [x]
  | y :: rest =>
      if before x y then x :: y :: rest
      else y :: insert_sorted before x rest
  end.

Definition stable_sort {A : Type} (before : A -> A -> bool) (l : list A) : list A :=
  fold_right (insert_sorted before) [] l.

(** [sum(...)] of a list of integers. *)
Definition py_sum (l : list Z) : Z := fold_left Z.add l 0.

(** Lines 200-207. *)
Definition timeframe_count_of (cutoff_date : option string) (model_data : ModelRecord)
    : Z :=
  match cutoff_date with
  | Some cutoff =>
      if negb (String.eqb cutoff "") then
        py_sum (map count
                  (filter (fun entry => String.leb cutoff (date entry))
                     (usage_log model_data)))
      else usage_count model_data
  | None => usage_count model_data
  end.

(** [category and model_data["category"] != category]. *)
Definition filtered_out (category : option string) (model_data : ModelRecord) : bool :=
  match category with
  | Some c => negb (String.eqb c "") && negb (String.eqb (r_category model_data) c)
  | None => false
  end.

(** The [for model_id, model_data in self.data["models"].items()] loop. *)
Fixpoint summaries (category : option string) (cutoff_date : option string)
    (items : dict ModelRecord) (models_list : list Summary) : list Summary :=
  match items with
  | [] => models_list
  | (model_id, model_data) :: rest =>
      if filtered_out category model_data
      then summaries category cutoff_date rest models_list
      else
        summaries category cutoff_date rest
          (models_list ++
             [ {| s_model_id := model_id;
                  s_category := r_category model_data;
                  s_name := r_name model_data;
                  s_first_used := first_used model_data;
                  s_last_used := last_used model_data;
                  s_usage_count := usage_count model_data;
                  timeframe_count := timeframe_count_of cutoff_date model_data |} ])
  end.

(** Lines 185-192: the cutoff date of a timeframe. *)
Definition cutoff_date_of (now : datetime) (timeframe : string) : result (option string) :=
  cutoff <-
    (if String.eqb timeframe "week" then
       days <- timedelta 7 ;; c <- datetime_sub now days ;; Ok (Some c)
     else if String.eqb timeframe "month" then
       days <- timedelta 30 ;; c <- datetime_sub now days ;; Ok (Some c)
     else Ok None) ;;
  Ok (match cutoff with
      | Some c => Some (date_isoformat (date_of c))
      | None => None
      end).

Definition get_usage_data (now : datetime) (timeframe sort_by : string)
    (category : option string) (data : UsageDatabase) : result UsageData :=
  cutoff_date <- cutoff_date_of now timeframe ;;
  let models_list := summaries category cutoff_date (db_models data) [] in
  let models_list :=
    if String.eqb sort_by "usage_count" then
      stable_sort (fun x y => timeframe_count y <=? timeframe_count x) models_list
    else if String.eqb sort_by "name" then
      stable_sort (fun x y => String.leb (lower (s_name x)) (lower (s_name y)))
        models_list
    else
      stable_sort (fun x y => String.leb (s_last_used y) (s_last_used x)) models_list in
  Ok {| u_models := models_list;
        u_metadata := db_metadata data;
        u_timeframe := timeframe;
        u_sort_by := sort_by |}.

(* ================================================================== *)
(** * [py/storage.py]: retention *)
(* ================================================================== *)

(** The list comprehension of line 254. *)
Definition keep_recent (cutoff_str : string) (model_data : ModelRecord) : ModelRecord :=
  {| r_category := r_category model_data;
     r_name := r_name model_data;
     path := path model_data;
     first_used := first_used model_data;
     last_used := last_used model_data;
     usage_count := usage_count model_data;
     usage_log :=
       filter (fun entry => String.leb cutoff_str (date entry)) (usage_log model_data) |}.

(** [cleanup_old_usage_logs(data, max_days)], [now] being what [utcnow]
    reads. *)
Definition cleanup_old_usage_logs (now : datetime) (data : UsageDatabase)
    (max_days : Z) : result UsageDatabase :=
  let cutoff_date := date_of now in
  days <- timedelta max_days ;;
  cutoff <- date_sub cutoff_date days ;;
  let cutoff_str := date_isoformat cutoff in
  Ok {| db_version := db_version data;
        db_models :=
          map (fun item => (fst item, keep_recent cutoff_str (snd item))) (db_models data);
        db_metadata := db_metadata data |}.

(* ================================================================== *)
(** * [py/storage.py]: the data file *)
(* ================================================================== *)

(** ** The document as JSON *)

Definition entry_json (e : DailyUsageEntry) : pyval :=
  VDict [("date", VStr (date e)); ("count", VInt (count e))].

Definition record_json (r : ModelRecord) : pyval :=
  VDict [("category", VStr (r_category r));
         ("name", VStr (r_name r));
         ("path", VStr (path r));
         ("first_used", VStr (first_used r));
         ("last_used", VStr (last_used r));
         ("usage_count", VInt (usage_count r));
         ("usage_log", VList (map entry_json (usage_log r)))].

Definition metadata_json (m : Metadata) : pyval :=
  VDict [("tracking_started", VStr (tracking_started m));
         ("last_updated", VStr (last_updated m))].

Definition doc_json (data : UsageDatabase) : pyval :=
  VDict [("version", VInt (db_version data));
         ("models",
           VDict (map (fun item => (fst item, record_json (snd item))) (db_models data)));
         ("metadata", metadata_json (db_metadata data))].

(** ** Numbers and item assignment on values read from the file *)

(** How a number compares with the integer [k]; [None] for a value that is
    not a number. *)
Definition num_compare (v : pyval) (k : Z) : option comparison :=
  match v with
  | VInt z => Some (z ?= k)
  | VBool b => Some ((if b then 1 else 0) ?= k)
  | VFloat m e =>
      Some (if 0 <=? e then (m * 2 ^ e ?= k) else (m ?= k * 2 ^ (- e)))
  | VNone | VStr _ | VList _ | VDict _ => None
  end.

(** [v == k]. *)
Definition py_eq_int (v : pyval) (k : Z) : bool :=
  match num_compare v k with
  | Some Eq => true
  | _ => false
  end.

(** [v < k]: [TypeError] when [v] is not a number. *)
Definition py_lt_int (v : pyval) (k : Z) : result bool :=
  match num_compare v k with
  | Some Lt => Ok true
  | Some _ => Ok false
  | None => Raise TypeError
  end.

(** [obj[key] = v] with a [str] key: only a dict takes it. *)
Definition py_setitem (obj : pyval) (key : string) (v : pyval) : result pyval :=
  match obj with
  | VDict d => Ok (VDict (dict_set key v d))
  | _ => Raise TypeError
  end.

(** [obj.items()]. *)
Definition py_items (obj : pyval) : result (dict pyval) :=
  match obj with
  | VDict d => Ok d
  | _ => Raise AttributeError
  end.

(** ** The file system and the clocks *)

(** What a file holds, by what [json.load] makes of it: the JSON text of a
    value, text that is not JSON, or bytes that are not UTF-8. *)
Inductive content : Type :=
| JsonText (v : pyval)
| Malformed (raw : string)
| Undecodable (raw : string).

Record file : Type := File {
  body : content;
  mtime : Z
}.

Inductive event : Type :=
| WarnCorrupted (e : exn)
| BackedUpCorrupted (backup_path : string)
| CreatedMigrationBackup (backup_path : string).

(** The world of the storage layer: the files of the storage directory,
    the readings [utcnow] will give and how many were taken, [time.time()]
    in tenths of a second, and the lines printed. *)
Record world : Type := World {
  files : string -> option file;
  utc : nat -> datetime;
  reads : nat;
  time : Z;
  printed : list event
}.

Definition M (A : Type) : Type := world -> result A * world.

Definition ret {A : Type} (a : A) : M A := fun w => (Ok a, w).

Definition raise {A : Type} (e : exn) : M A := fun w => (Raise e, w).

Definition bindM {A B : Type} (m : M A) (k : A -> M B) : M B :=
  fun w =>
    match m w with
    | (Ok a, w') => k a w'
    | (Raise e, w') => (Raise e, w')
    end.

(** [try: m except ... as e: handler e]. *)
Definition try_except {A : Type} (m : M A) (handler : exn -> M A) : M A :=
  fun w =>
    match m w with
    | (Ok a, w') => (Ok a, w')
    | (Raise e, w') => handler e w'
    end.

Definition lift {A : Type} (r : result A) : M A := fun w => (r, w).

Notation "x <~ c1 ;; c2" := (bindM c1 (fun x => c2))
  (at level 61, c1 at next level, right associativity).

Definition with_files (f : string -> option file) (w : world) : world :=
  {| files := f; utc := utc w; reads := reads w; time := time w; printed := printed w |}.

Definition utcnow : M datetime :=
  fun w =>
    (Ok (utc w (reads w)),
     {| files := files w; utc := utc w; reads := S (reads w); time := time w;
        printed := printed w |}).

Definition print (e : event) : M unit :=
  fun w =>
    (Ok tt,
     {| files := files w; utc := utc w; reads := reads w; time := time w;
        printed := printed w ++ [e] |}).

Definition sleep_tenth : M unit :=
  fun w =>
    (Ok tt,
     {| files := files w; utc := utc w; reads := reads w; time := time w + 1;
        printed := printed w |}).

Definition exists_ (p : string) : M bool :=
  fun w => (Ok (match files w p with Some _ => true | None => false end), w).

Definition write_file (p : string) (c : content) : M unit :=
  fun w =>
    (Ok tt,
     with_files (fun q => if String.eqb q p then Some (File c (time w)) else files w q) w).

Definition unlink (p : string) : M unit :=
  fun w =>
    (Ok tt, with_files (fun q => if String.eqb q p then None else files w q) w).

(** [src.rename(dst)] / [src.replace(dst)]: [dst] takes the file of [src],
    which has to be there. *)
Definition rename (src dst : string) : M unit :=
  fun w =>
    match files w src with
    | Some f =>
        (Ok tt,
         with_files
           (fun q =>
              if String.eqb q dst then Some f
              else if String.eqb q src then None
              else files w q) w)
    | None => (Raise FileNotFoundError, w)
    end.

(** [json.load] of an open file. *)
Definition json_load (p : string) : M pyval :=
  fun w =>
    match files w p with
    | Some (File (JsonText v) _) => (Ok v, w)
    | Some (File (Malformed _) _) => (Raise JSONDecodeError, w)
    | Some (File (Undecodable _) _) => (Raise UnicodeDecodeError, w)
    | None => (Raise FileNotFoundError, w)
    end.

(** ** Paths ([get_storage_path] and what [with_suffix] makes of it) *)

Definition storage_path : string := "usage_data.json".
Definition temp_path : string := "usage_data.tmp".
Definition lock_path : string := "usage_data.json.lock".
Definition get_backup_path : string := "usage_data.backup.json".
Definition corrupted_path (timestamp : string) : string :=
  "usage_data.corrupted_" ++ timestamp ++ ".json".

(** ** [FileLock] *)

(** [timeout = 10.0] seconds, in tenths. *)
Definition LOCK_TIMEOUT : Z := 100.

(** The [while True] loop of [__enter__]; [None] when [fuel] runs out. *)
Fixpoint enter_loop (fuel : nat) (start : Z) (w : world)
    : option (result unit * world) :=
  match fuel with
  | O => None
  | S fuel' =>
      match files w lock_path with
      | None => Some (write_file lock_path (Malformed "") w)
      | Some marker =>
          if time w - mtime marker >? LOCK_TIMEOUT then
            enter_loop fuel' start (snd (unlink lock_path w))
          else if time w - start >? LOCK_TIMEOUT then
            Some (Raise TimeoutError, w)
          else enter_loop fuel' start (snd (sleep_tenth w))
      end
  end.

(** [__enter__]: 104 rounds are enough (see [enter_loop_fuel]). *)
Definition FileLock_enter : M unit :=
  fun w =>
    match enter_loop 104 (time w) w with
    | Some r => r
    | None => (Raise TimeoutError, w)
    end.

Definition FileLock_exit : M unit := unlink lock_path.

(** [with FileLock(storage_path): body]. *)
Definition with_FileLock {A : Type} (body : M A) : M A :=
  fun w =>
    match FileLock_enter w with
    | (Ok _, w1) =>
        let (r, w2) := body w1 in
        (r, snd (FileLock_exit w2))
    | (Raise e, w1) => (Raise e, w1)
    end.

(** ** [save_data], [backup_corrupted_file], migration, [load_data] *)

Definition save_data (data : UsageDatabase) : M UsageDatabase :=
  now <~ utcnow ;;
  let data := stamp_last_updated now data in
  try_except
    (_ <~ with_FileLock
            (_ <~ write_file temp_path (JsonText (doc_json data)) ;;
             rename temp_path storage_path) ;;
     ret data)
    (fun e =>
       leftover <~ exists_ temp_path ;;
       _ <~ (if leftover then unlink temp_path else ret tt) ;;
       raise e).

Definition backup_corrupted_file : M unit :=
  present <~ exists_ storage_path ;;
  if present then
    now <~ utcnow ;;
    let backup_path := corrupted_path (strftime_compact now) in
    _ <~ rename storage_path backup_path ;;
    print (BackedUpCorrupted backup_path)
  else ret tt.

(** The body of the loop of [migrate_to_v1] on one record. *)
Definition migrate_record (model_data : pyval) : M pyval :=
  has_log <~ lift (py_str_in "usage_log" model_data) ;;
  model_data <~
    (if negb has_log then lift (py_setitem model_data "usage_log" (VList []))
     else ret model_data) ;;
  has_first <~ lift (py_str_in "first_used" model_data) ;;
  if negb has_first then
    now <~ utcnow ;;
    v <~ lift (py_get model_data "last_used" (VStr (iso_z now))) ;;
    lift (py_setitem model_data "first_used" v)
  else ret model_data.

Fixpoint migrate_records (items : dict pyval) : M (dict pyval) :=
  match items with
  | [] => ret []
  | (model_id, model_data) :: rest =>
      model_data' <~ migrate_record model_data ;;
      rest' <~ migrate_records rest ;;
      ret ((model_id, model_data') :: rest')
  end.

Definition migrate_to_v1 (data : pyval) : M pyval :=
  has_models <~ lift (py_str_in "models" data) ;;
  data <~
    (if negb has_models then lift (py_setitem data "models" (VDict []))
     else ret data) ;;
  has_metadata <~ lift (py_str_in "metadata" data) ;;
  data <~
    (if negb has_metadata then
       now <~ utcnow ;;
       lift (py_setitem data "metadata"
               (VDict [("tracking_started", VStr (iso_z now));
                       ("last_updated", VStr (iso_z now))]))
     else ret data) ;;
  models <~ lift (py_get data "models" (VDict [])) ;;
  items <~ lift (py_items models) ;;
  items' <~ migrate_records items ;;
  lift (py_setitem data "models" (VDict items')).

Definition migrate_schema (data : pyval) : M pyval :=
  current_version <~ lift (py_get data "version" (VInt 0)) ;;
  if py_eq_int current_version SCHEMA_VERSION then ret data
  else
    _ <~ write_file get_backup_path (JsonText data) ;;
    _ <~ print (CreatedMigrationBackup get_backup_path) ;;
    below_1 <~ lift (py_lt_int current_version 1) ;;
    data <~ (if below_1 then migrate_to_v1 data else ret data) ;;
    lift (py_setitem data "version" (VInt SCHEMA_VERSION)).

(** The [except (json.JSONDecodeError, KeyError)] clause of [load_data]. *)
Definition caught_as_corrupted (e : exn) : bool :=
  match e with
  | JSONDecodeError | KeyError => true
  | _ => false
  end.

Definition load_data : M pyval :=
  present <~ exists_ storage_path ;;
  if negb present then
    now <~ utcnow ;;
    data <~ save_data (create_empty_data now) ;;
    ret (doc_json data)
  else
    try_except
      (data <~ with_FileLock (json_load storage_path) ;;
       migrate_schema data)
      (fun e =>
         if caught_as_corrupted e then
           _ <~ print (WarnCorrupted e) ;;
           _ <~ backup_corrupted_file ;;
           now <~ utcnow ;;
           data <~ save_data (create_empty_data now) ;;
           ret (doc_json data)
         else raise e).

(* ================================================================== *)
(** * Definitions used to state the properties *)
(* ================================================================== *)

(** ** Extraction *)

(** The references of all nodes in visiting order, before deduplication. *)
Fixpoint candidates (items : dict pyval) : result (list model) :=
  match items with
  | [] => Ok []
  | (_, node_data) :: rest =>
      extracted <- node_extracted node_data ;;
      later <- candidates rest ;;
      Ok (extracted ++ later)
  end.

(** Deduplication as the design document words it: a reference is dropped
    when its identifier occurred [earlier] in the same graph. *)
Fixpoint drop_seen (earlier : list string) (refs : list model) : list model :=
  match refs with
  | [] => []
  | m :: rest =>
      if existsb (String.eqb (model_id m)) earlier
      then drop_seen (model_id m :: earlier) rest
      else m :: drop_seen (model_id m :: earlier) rest
  end.

(** [l1] is [l2] with some elements left out, the order kept. *)
Inductive subsequence {A : Type} : list A -> list A -> Prop :=
| subseq_nil : subsequence [] []
| subseq_skip : forall x l1 l2, subsequence l1 l2 -> subsequence l1 (x :: l2)
| subseq_keep : forall x l1 l2, subsequence l1 l2 -> subsequence (x :: l1) (x :: l2).

(** [inputs.get(key)] on the entries of a dict. *)
Definition input_value (inputs : dict pyval) (key : string) : pyval :=
  match dict_get key inputs with
  | Some v => v
  | None => VNone
  end.

(** Text of ASCII characters only.  On such text [lower] is Python's
    [str.lower]; what is proved about lowered text is proved for it. *)
Definition is_ascii_char (c : ascii) : bool := (N_of_ascii c <? 128)%N.

Fixpoint is_ascii (s : string) : bool :=
  match s with
  | EmptyString => true
  | String c rest => is_ascii_char c && is_ascii rest
  end.

(** Two characters that are the same letter in either case, and two texts
    that differ at most in the case of their letters: said without
    [lower], by the places of the letters in the ASCII table ([A] to [Z]
    are 65 to 90, the small letters 32 higher). *)
Definition is_capital (c : ascii) : bool :=
  ((65 <=? N_of_ascii c) && (N_of_ascii c <=? 90))%N.

Definition same_letter (a b : ascii) : bool :=
  Ascii.eqb a b
  || (is_capital a && (N_of_ascii b =? N_of_ascii a + 32)%N)
  || (is_capital b && (N_of_ascii a =? N_of_ascii b + 32)%N).

Fixpoint same_ignoring_case (s t : string) : bool :=
  match s, t with
  | EmptyString, EmptyString => true
  | String a s', String b t' => same_letter a b && same_ignoring_case s' t'
  | _, _ => false
  end.

(** The first pattern of [patterns] that occurs in [class_type], both
    lowered. *)
Definition first_pattern (patterns : list (string * string * list string))
    (class_type : string) : option (string * string * list string) :=
  find (fun p => contains (lower (fst (fst p))) (lower class_type)) patterns.

(** The first of [keys] whose input is a non-empty string. *)
Definition first_key (inputs : dict pyval) (keys : list string) : option string :=
  find (fun key =>
          match nonempty_str (input_value inputs key) with
          | Some _ => true
          | None => false
          end) keys.

(** What the pattern path yields for a node, in the document's words. *)
Definition pattern_reference (class_type : string) (inputs : dict pyval) : list model :=
  match first_pattern LOADER_PATTERNS class_type with
  | Some (_, category, possible_keys) =>
      match first_key inputs possible_keys with
      | Some key =>
          match nonempty_str (input_value inputs key) with
          | Some v => [reference category v]
          | None => []
          end
      | None => []
      end
  | None => []
  end.

(** The references the table path yields: one for each listed key whose
    input is a non-empty string. *)
Definition table_references (category : string) (keys : list string)
    (inputs : dict pyval) : list model :=
  flat_map (fun key =>
              match nonempty_str (input_value inputs key) with
              | Some v => [reference category v]
              | None => []
              end) keys.

Definition keys_of (k : input_keys) : list string :=
  match k with
  | OneKey key => [key]
  | ManyKeys keys => keys
  end.

(** The [class_type] and [inputs] a node dict is read with. *)
Definition class_type_of (node : dict pyval) : pyval :=
  match dict_get "class_type" node with
  | Some v => v
  | None => VStr ""
  end.

Definition inputs_of (node : dict pyval) : pyval :=
  match dict_get "inputs" node with
  | Some v => v
  | None => VDict []
  end.

(** A node of the shape the host promises, keys possibly missing: a dict
    whose [class_type], when present, is a [str] and whose [inputs], when
    present, is a dict. *)
Definition well_shaped (node_data : pyval) : bool :=
  match node_data with
  | VDict node =>
      match class_type_of node, inputs_of node with
      | VStr _, VDict _ => true
      | _, _ => false
      end
  | _ => false
  end.

(** What a well-shaped node contributes. *)
Definition node_references (node_data : pyval) : list model :=
  match node_data with
  | VDict node =>
      match class_type_of node, inputs_of node with
      | VStr class_type, VDict inputs =>
          match dict_get class_type MODEL_LOADERS with
          | Some (category, keys) => table_references category (keys_of keys) inputs
          | None =>
              if contains "Loader" class_type
              then pattern_reference class_type inputs
              else []
          end
      | _, _ => []
      end
  | _ => []
  end.

(** ** Recording *)

(** One call of [record_usage]: the two clock readings and the list. *)
Record call : Type := Call {
  at_time : datetime;
  saved_at : datetime;
  refs : list model
}.

Definition record_call (data : UsageDatabase) (c : call) : UsageDatabase :=
  record_usage (at_time c) (saved_at c) (refs c) data.

(** The document after a sequence of calls, oldest first. *)
Definition record_calls (calls : list call) (data : UsageDatabase) : UsageDatabase :=
  fold_left record_call calls data.

(** How often [id] occurs in one list of references. *)
Definition occurrences_in (id : string) (refs : list model) : Z :=
  Z.of_nat (List.length (filter (fun m => String.eqb (model_id m) id) refs)).

(** How often [id] occurs in the lists of all [calls]. *)
Fixpoint occurrences (id : string) (calls : list call) : Z :=
  match calls with
  | [] => 0
  | c :: rest => occurrences_in id (refs c) + occurrences id rest
  end.

Definition mentions (id : string) (c : call) : bool :=
  existsb (fun m => String.eqb (model_id m) id) (refs c).

(** The most recent of [calls] whose list holds [id]. *)
Definition last_mention (id : string) (calls : list call) : option call :=
  find (mentions id) (rev calls).

(** The calendar date of a call, as [record_usage] writes it. *)
Definition today_of (c : call) : string := date_isoformat (date_of (at_time c)).

(** Dates are compared as the code compares them, as [str]. *)
Definition date_le (a b : string) : Prop := String.leb a b = true.
Definition date_lt (a b : string) : Prop := String.ltb a b = true.

(** The record of [id] in a document. *)
Definition record_of (id : string) (data : UsageDatabase) : option ModelRecord :=
  dict_get id (db_models data).

(** A list of dates in strictly ascending order. *)
Definition ascending (dates : list string) : Prop := StronglySorted date_lt dates.

(** The dates of the calls never go back. *)
Definition dates_nondecreasing (calls : list call) : Prop :=
  Sorted (fun a b => date_le (today_of a) (today_of b)) calls.

(** The latest of a sequence of calls. *)
Definition latest_call (calls : list call) : option call :=
  match rev calls with
  | [] => None
  | c :: _ => Some c
  end.

(** The [usage_count] under a key, 0 without a record. *)
Definition count_under (id : string) (ms : dict ModelRecord) : Z :=
  match dict_get id ms with
  | Some r => usage_count r
  | None => 0
  end.

(** What holds of every log after a sequence of calls whose dates never go
    back: strictly ascending dates, each the date of one of the calls, and
    positive counts. *)
Definition log_invariant (calls : list call) (log : list DailyUsageEntry) : Prop :=
  ascending (map date log)
  /\ Forall (fun d => exists c, In c calls /\ d = today_of c) (map date log)
  /\ Forall (fun e => 0 < count e) log.

(** ** Queries and retention *)

(** The days a timeframe looks back; ["all"] and every other word look
    back without limit. *)
Definition window_days (timeframe : string) : option Z :=
  if String.eqb timeframe "week" then Some 7
  else if String.eqb timeframe "month" then Some 30
  else None.

(** The date [days] days before the date of [now], as it is compared with
    the dates of a log. *)
Definition cutoff_day (now : datetime) (days : Z) : string :=
  date_isoformat (fromordinal (toordinal (date_of now) - days)).

(** The entries of a log that are on or after [cutoff]. *)
Definition on_or_after (cutoff : string) (log : list DailyUsageEntry)
    : list DailyUsageEntry :=
  filter (fun e => String.leb cutoff (date e)) log.

(** The sum of the counts of a list of entries. *)
Fixpoint total_count (log : list DailyUsageEntry) : Z :=
  match log with
  | [] => 0
  | e :: rest => count e + total_count rest
  end.

(** The [timeframe_count] the design document asks for. *)
Definition expected_timeframe_count (now : datetime) (timeframe : string)
    (r : ModelRecord) : Z :=
  match window_days timeframe with
  | Some days => total_count (on_or_after (cutoff_day now days) (usage_log r))
  | None => usage_count r
  end.

(** The summary of one record under a timeframe. *)
Definition summary_of (now : datetime) (timeframe : string)
    (item : string * ModelRecord) : Summary :=
  {| s_model_id := fst item;
     s_category := r_category (snd item);
     s_name := r_name (snd item);
     s_first_used := first_used (snd item);
     s_last_used := last_used (snd item);
     s_usage_count := usage_count (snd item);
     timeframe_count := expected_timeframe_count now timeframe (snd item) |}.

(** The records a category filter lets through. *)
Definition selected (category : option string) (items : dict ModelRecord)
    : dict ModelRecord :=
  filter (fun item => negb (filtered_out category (snd item))) items.

(** A record with its log cut at [cutoff], every other field as it was. *)
Definition with_log (r : ModelRecord) (log : list DailyUsageEntry) : ModelRecord :=
  {| r_category := r_category r;
     r_name := r_name r;
     path := path r;
     first_used := first_used r;
     last_used := last_used r;
     usage_count := usage_count r;
     usage_log := log |}.

(** ** Storage *)

(** The version of a document read from the file, when it is an integer;
    a document without the key counts as version 0. *)
Definition integer_version (d : dict pyval) : option Z :=
  match dict_get "version" d with
  | Some (VInt z) => Some z
  | Some _ => None
  | None => Some 0
  end.

Definition is_dict (v : pyval) : bool :=
  match v with
  | VDict _ => true
  | _ => false
  end.



(** The [n]-th reading of the clock from now on. *)
Definition reading (w : world) (n : nat) : datetime := utc w (n + reads w)%nat.

(** Two worlds that differ at most in how often the clock was read. *)
Definition same_files (w w' : world) : Prop :=
  files w' = files w /\ printed w' = printed w /\ time w' = time w /\ utc w' = utc w.

(** The world after [save_data data] with the lock marker free. *)
Definition saved (data : UsageDatabase) (w : world) : world :=
  let w1 := snd (utcnow w) in
  let w2 := snd (write_file lock_path (Malformed "") w1) in
  let w3 := snd (write_file temp_path (JsonText (doc_json data)) w2) in
  let w4 := snd (rename temp_path storage_path w3) in
  snd (unlink lock_path w4).

(** The world after [backup_corrupted_file] moved the data file aside. *)
Definition quarantined (w : world) : world :=
  let w1 := snd (utcnow w) in
  let backup_path := corrupted_path (strftime_compact (reading w 0)) in
  let w2 := snd (rename storage_path backup_path w1) in
  snd (print (BackedUpCorrupted backup_path) w2).

(** The world after a read of the data file under the lock. *)
Definition read_failed (w : world) : world :=
  snd (unlink lock_path (snd (write_file lock_path (Malformed "") w))).

(** The document [load_data] makes after a file that is not JSON, and the
    world it leaves. *)
Definition recovered (w : world) : UsageDatabase :=
  let w1 := snd (print (WarnCorrupted JSONDecodeError) (read_failed w)) in
  let w2 := quarantined w1 in
  stamp_last_updated (reading w2 1) (create_empty_data (reading w2 0)).

Definition after_recovery (w : world) : world :=
  let w1 := snd (print (WarnCorrupted JSONDecodeError) (read_failed w)) in
  let w2 := quarantined w1 in
  saved (recovered w) (snd (utcnow w2)).

(** A world whose only file is the data file, with the clock standing at
    noon of 2026-11-03. *)
Definition only_data_file (c : content) : world :=
  {| files := fun p => if String.eqb p storage_path then Some (File c 0) else None;
     utc := fun _ => DateTime (Date 2026 11 3) 12 0 0 0;
     reads := 0;
     time := 0;
     printed := [] |}.

(** ** A sample document *)

(** One model, used three times forty days and five times two days before
    2026-11-03. *)
Definition sample_record : ModelRecord :=
  {| r_category := "checkpoint"; r_name := "sd15.safetensors";
     path := "checkpoint/sd15.safetensors";
     first_used := "2026-09-24T10:00:00Z";
     last_used := "2026-11-01T10:00:00Z";
     usage_count := 8;
     usage_log := [ {| date := "2026-09-24"; count := 3 |};
                    {| date := "2026-11-01"; count := 5 |} ] |}.

Definition sample_data : UsageDatabase :=
  {| db_version := 1;
     db_models := [("checkpoint/sd15.safetensors", sample_record)];
     db_metadata := {| tracking_started := "2026-09-24T10:00:00Z";
                       last_updated := "2026-11-01T10:00:00Z" |} |}.

Definition sample_now : datetime := DateTime (Date 2026 11 3) 12 0 0 0.

(** ** Calendar dates *)

(** Year, month and day compared in this order. *)
Definition lex_compare (d1 d2 : Datetime.date) : comparison :=
  match year d1 ?= year d2 with
  | Eq =>
      match month d1 ?= month d2 with
      | Eq => day d1 ?= day d2
      | c => c
      end
  | c => c
  end.

(** One round of a check over the numbers from 0 on. *)
Definition check_step (f : Z -> bool) (st : Z * bool) : Z * bool :=
  (fst st + 1, snd st && f (fst st)).

(** [f] holds of every number from 0 below [n]. *)
Definition all_below (f : Z -> bool) (n : positive) : bool :=
  snd (Pos.iter (check_step f) (0, true) n).

(** What [month_day] has to give for day [n] of a year: a month and a day
    of that month which lie [n] days after the first of January. *)
Definition month_day_ok (leapyear : bool) (n : Z) : bool :=
  let (m, d) := month_day leapyear n in
  (1 <=? m) && (m <=? 12) && (1 <=? d)
  && (d <=? (if (m =? 2) && leapyear then 29 else at_month DAYS_IN_MONTH m))
  && (at_month DAYS_BEFORE_MONTH m + (if (m >? 2) && leapyear then 1 else 0) + d
      =? n + 1).

(** ** Tactics *)

(** Evaluates the month tables at the literal months of a goal. *)
Ltac month_values :=
  repeat match goal with
         | |- context [at_month ?t ?k] =>
             let v := eval vm_compute in (at_month t k) in
             change (at_month t k) with v
         | |- context [Z.eqb ?a ?b] =>
             let v := eval vm_compute in (Z.eqb a b) in
             change (Z.eqb a b) with v
         | |- context [Z.gtb ?a ?b] =>
             let v := eval vm_compute in (Z.gtb a b) in
             change (Z.gtb a b) with v
         end;
  cbn [andb].

(* ================================================================== *)
(** * Further definitions *)
(* ================================================================== *)

(** ** Sorting *)

(** The order [get_usage_data] sorts by (lines 220-225): [sort_before x y]
    says that [x] may stand before [y]. *)
Definition sort_before (sort_by : string) (x y : Summary) : bool :=
  if String.eqb sort_by "usage_count" then timeframe_count y <=? timeframe_count x
  else if String.eqb sort_by "name" then String.leb (lower (s_name x)) (lower (s_name y))
  else String.leb (s_last_used y) (s_last_used x).

(** [x] and [y] have the same sort key. *)
Definition same_key (sort_by : string) (x y : Summary) : bool :=
  sort_before sort_by x y && sort_before sort_by y x.

(** Three models: two used twice, one used five times. *)
Definition sample_shelf : UsageDatabase :=
  {| db_version := 1;
     db_models :=
       [ ("lora/b.safetensors",
          {| r_category := "lora"; r_name := "b.safetensors";
             path := "lora/b.safetensors";
             first_used := "2026-10-30T10:00:00Z"; last_used := "2026-11-02T10:00:00Z";
             usage_count := 2;
             usage_log := [ {| date := "2026-10-30"; count := 1 |};
                            {| date := "2026-11-02"; count := 1 |} ] |});
         ("checkpoint/sd15.safetensors", sample_record);
         ("vae/A.pt",
          {| r_category := "vae"; r_name := "A.pt"; path := "vae/A.pt";
             first_used := "2026-09-01T10:00:00Z"; last_used := "2026-09-02T10:00:00Z";
             usage_count := 2;
             usage_log := [ {| date := "2026-09-01"; count := 1 |};
                            {| date := "2026-09-02"; count := 1 |} ] |}) ];
     db_metadata := {| tracking_started := "2026-09-01T10:00:00Z";
                       last_updated := "2026-11-02T10:00:00Z" |} |}.

(** Three models whose names differ in the case of their first letter. *)
Definition sample_names : UsageDatabase :=
  {| db_version := 1;
     db_models :=
       [ ("lora/B.pt",
          {| r_category := "lora"; r_name := "B.pt"; path := "lora/B.pt";
             first_used := "2026-10-30T10:00:00Z"; last_used := "2026-11-02T10:00:00Z";
             usage_count := 1;
             usage_log := [ {| date := "2026-11-02"; count := 1 |} ] |});
         ("vae/a.pt",
          {| r_category := "vae"; r_name := "a.pt"; path := "vae/a.pt";
             first_used := "2026-09-01T10:00:00Z"; last_used := "2026-09-02T10:00:00Z";
             usage_count := 1;
             usage_log := [ {| date := "2026-09-02"; count := 1 |} ] |});
         ("lora/b.pt",
          {| r_category := "lora"; r_name := "b.pt"; path := "lora/b.pt";
             first_used := "2026-10-01T10:00:00Z"; last_used := "2026-10-01T10:00:00Z";
             usage_count := 1;
             usage_log := [ {| date := "2026-10-01"; count := 1 |} ] |}) ];
     db_metadata := {| tracking_started := "2026-09-01T10:00:00Z";
                       last_updated := "2026-11-02T10:00:00Z" |} |}.

(** Three calls of [record_usage], forty, fourteen and two days before
    2026-11-03. *)
Definition sample_start : datetime := DateTime (Date 2026 9 24) 9 0 0 0.

Definition sample_calls : list call :=
  [ {| at_time := DateTime (Date 2026 9 24) 10 0 0 0;
       saved_at := DateTime (Date 2026 9 24) 10 0 0 5;
       refs := [reference "checkpoint" "sd15.safetensors";
                reference "lora" "detail.safetensors"] |};
    {| at_time := DateTime (Date 2026 10 20) 10 0 0 0;
       saved_at := DateTime (Date 2026 10 20) 10 0 0 5;
       refs := [reference "checkpoint" "sd15.safetensors"] |};
    {| at_time := DateTime (Date 2026 11 1) 10 0 0 0;
       saved_at := DateTime (Date 2026 11 1) 10 0 0 5;
       refs := [reference "checkpoint" "sd15.safetensors";
                reference "vae" "kl-f8.pt"] |} ].

(** ** [py/tracking.py]: the tracker as a sequence of method calls *)

(** [ModelTracker.reset] (lines 253-258): a fresh document, stamped by
    [_save]. *)
Definition reset (now saved_at : datetime) : UsageDatabase :=
  stamp_last_updated saved_at (create_empty_data now).

(** [ModelTracker.cleanup] (lines 260-263): [self._data] takes what
    [cleanup_old_usage_logs] returns and [_save] stamps it; the cutoff is
    computed before the first log is touched, so when it raises the
    document is as it was and nothing is saved.  [now] is the clock of
    the cutoff, [saved_at] the clock when [_save] stamps the document. *)
Definition cleanup (now saved_at : datetime) (max_days : Z) (data : UsageDatabase)
    : result UsageDatabase :=
  data' <- cleanup_old_usage_logs now data max_days ;;
  Ok (stamp_last_updated saved_at data').

(** A call of one of the methods that write [self._data]. *)
Inductive method_call : Type :=
| RecordUsage (c : call)
| Cleanup (now saved_at : datetime) (max_days : Z)
| Reset (now saved_at : datetime).

(** [self._data] after the call returned or raised. *)
Definition after_call (data : UsageDatabase) (q : method_call) : UsageDatabase :=
  match q with
  | RecordUsage c => record_call data c
  | Cleanup now saved_at max_days =>
      match cleanup now saved_at max_days data with
      | Ok data' => data'
      | Raise _ => data
      end
  | Reset now saved_at => reset now saved_at
  end.

Definition after_calls (qs : list method_call) (data : UsageDatabase) : UsageDatabase :=
  fold_left after_call qs data.

(** The [record_usage] calls among [qs], in their order. *)
Fixpoint recordings (qs : list method_call) : list call :=
  match qs with
  | [] => []
  | RecordUsage c :: rest => c :: recordings rest
  | _ :: rest => recordings rest
  end.

(** ** [py/model_types.py]: the categories *)

(** [MODEL_CATEGORIES] (lines 63-104): category to display name and icon. *)
Record CategoryInfo : Type := Info {
  info_name : string;
  info_icon : string
}.

Definition MODEL_CATEGORIES : dict CategoryInfo :=
  [ ("checkpoint", {| info_name := "Checkpoints"; info_icon := "pi-box" |});
    ("lora", {| info_name := "LoRAs"; info_icon := "pi-sparkles" |});
    ("vae", {| info_name := "VAEs"; info_icon := "pi-cog" |});
    ("controlnet", {| info_name := "ControlNets"; info_icon := "pi-sitemap" |});
    ("clip", {| info_name := "CLIP Models"; info_icon := "pi-comments" |});
    ("unet", {| info_name := "UNETs"; info_icon := "pi-server" |});
    ("upscaler", {| info_name := "Upscalers"; info_icon := "pi-expand" |});
    ("style_model", {| info_name := "Style Models"; info_icon := "pi-palette" |});
    ("gligen", {| info_name := "GLIGEN"; info_icon := "pi-th-large" |});
    ("gguf", {| info_name := "GGUF"; info_icon := "pi-database" |}) ].

(** ** [py/tracking.py]: [extract_and_record_models] *)

(** Lines 155-162: the entry point of the hook. *)
Definition extract_and_record_models (now saved_at : datetime) (prompt : dict pyval)
    (data : UsageDatabase) : result UsageDatabase :=
  models <- extract_models_from_prompt prompt ;;
  Ok (record_usage now saved_at models data).

(** ** Identifiers *)

(** A reference as the extraction builds it: a non-empty name, a category
    that [MODEL_CATEGORIES] lists, and the identifier made of the two. *)
Definition well_formed (m : model) : Prop :=
  name m <> ""
  /\ In (category m) (dict_keys MODEL_CATEGORIES)
  /\ model_id m = (category m ++ "/" ++ name m)%string.

(** The part of a text before its first slash, and the part after it. *)
Fixpoint before_slash (s : string) : string :=
  match s with
  | EmptyString => EmptyString
  | String c rest => if Ascii.eqb c "/" then EmptyString else String c (before_slash rest)
  end.

Fixpoint after_slash (s : string) : string :=
  match s with
  | EmptyString => EmptyString
  | String c rest => if Ascii.eqb c "/" then rest else after_slash rest
  end.

(** ** [py/routes.py] *)

(** One element of the [categories] list of [get_categories]. *)
Record CategoryCount : Type := CategoryCount_ {
  c_id : string;
  c_name : string;
  c_icon : string;
  c_count : Z
}.

(** [category_counts.get(cat, 0)]. *)
Definition count_of (category_counts : dict Z) (cat : string) : Z :=
  match dict_get cat category_counts with
  | Some n => n
  | None => 0
  end.

(** Lines 75-77: the body of [for model in usage_data["models"]]. *)
Definition count_category (category_counts : dict Z) (m : Summary) : dict Z :=
  let cat := s_category m in
  dict_set cat (count_of category_counts cat + 1) category_counts.

(** The handler of [/modelpulse/categories] (lines 68-91), up to the JSON
    response: [tracker.get_usage_data()] takes its defaults. *)
Definition get_categories (now : datetime) (data : UsageDatabase)
    : result (list CategoryCount) :=
  usage_data <- get_usage_data now "all" "last_used" None data ;;
  let category_counts := fold_left count_category (u_models usage_data) [] in
  let categories :=
    map (fun item =>
           {| c_id := fst item;
              c_name := info_name (snd item);
              c_icon := info_icon (snd item);
              c_count := count_of category_counts (fst item) |})
      MODEL_CATEGORIES in
  Ok (stable_sort (fun x y => c_count y <=? c_count x) categories).

(** The handler of [/modelpulse/cleanup] (lines 118-139).  [body] is what
    [request.json()] returned, [None] when it raised; a body without the
    method [get] raises inside the [try] as well. *)
Definition requested_max_days (body : option pyval) : pyval :=
  match body with
  | Some b =>
      match py_get b "max_days" (VInt 365) with
      | Ok v => v
      | Raise _ => VInt 365
      end
  | None => VInt 365
  end.

(** Lines 131-132: [not isinstance(max_days, int) or max_days < 1] falls
    back to 365; a [bool] is an [int], and [True] counts as one day. *)
Definition effective_max_days (max_days : pyval) : Z :=
  match max_days with
  | VInt z => if z <? 1 then 365 else z
  | VBool b => if (if b then 1 else 0) <? 1 then 365 else 1
  | _ => 365
  end.

Definition cleanup_old_data (now saved_at : datetime) (body : option pyval)
    (data : UsageDatabase) : result UsageDatabase :=
  cleanup now saved_at (effective_max_days (requested_max_days body)) data.

(* ================================================================== *)
(** * Properties of extraction *)
(* ================================================================== *)

Lemma existsb_eqb_In (x : string) (l : list string) :
  existsb (String.eqb x) l = true <-> In x l.
Proof.
  rewrite existsb_exists. split.
  - intros [y [Hin Heq]]. apply String.eqb_eq in Heq. now subst.
  - intros Hin. exists x. split; [assumption | apply String.eqb_refl].
Qed.

Lemma existsb_eqb_ext (x : string) (l1 l2 : list string) :
  (forall y, In y l1 <-> In y l2) ->
  existsb (String.eqb x) l1 = existsb (String.eqb x) l2.
Proof.
  intros H. apply eq_true_iff_eq. rewrite !existsb_eqb_In. apply H.
Qed.

Lemma drop_seen_ext (refs : list model) :
  forall e1 e2, (forall y, In y e1 <-> In y e2) ->
  drop_seen e1 refs = drop_seen e2 refs.
Proof.
  induction refs as [| m rest IH]; intros e1 e2 H; simpl; [reflexivity|].
  rewrite (existsb_eqb_ext _ e1 e2 H).
  assert (H' : forall y, In y (model_id m :: e1) <-> In y (model_id m :: e2)).
  { intros y. simpl. rewrite H. reflexivity. }
  rewrite (IH _ _ H'). reflexivity.
Qed.

Lemma drop_seen_app (l1 : list model) :
  forall earlier l2,
  drop_seen earlier (l1 ++ l2)
  = drop_seen earlier l1 ++ drop_seen (rev (map model_id l1) ++ earlier) l2.
Proof.
  induction l1 as [| m rest IH]; intros earlier l2; simpl; [reflexivity|].
  rewrite IH, <- app_assoc. simpl.
  destruct (existsb (String.eqb (model_id m)) earlier); reflexivity.
Qed.

(** The [seen] set of the code holds the identifiers kept so far; it has
    the members of the identifiers met so far. *)
Lemma keep_unseen_drop_seen (extracted : list model) :
  forall models seen earlier,
  (forall y, In y seen <-> In y earlier) ->
  fst (keep_unseen extracted models seen) = models ++ drop_seen earlier extracted
  /\ (forall y, In y (snd (keep_unseen extracted models seen))
                <-> In y (rev (map model_id extracted) ++ earlier)).
Proof.
  induction extracted as [| m rest IH]; intros models seen earlier H; simpl.
  - rewrite app_nil_r. split; [reflexivity | exact H].
  - rewrite (existsb_eqb_ext _ seen earlier H).
    destruct (existsb (String.eqb (model_id m)) earlier) eqn:E.
    + assert (H' : forall y, In y seen <-> In y (model_id m :: earlier)).
      { intros y. rewrite H. simpl. split; [tauto|].
        intros [<- | Hy]; [now apply existsb_eqb_In | assumption]. }
      destruct (IH models seen _ H') as [IH1 IH2]. split.
      * exact IH1.
      * intros y. rewrite IH2, <- app_assoc. reflexivity.
    + assert (H' : forall y, In y (model_id m :: seen) <-> In y (model_id m :: earlier)).
      { intros y. simpl. rewrite H. reflexivity. }
      destruct (IH (models ++ [m]) _ _ H') as [IH1 IH2]. split.
      * rewrite IH1, <- app_assoc. reflexivity.
      * intros y. rewrite IH2, <- app_assoc. reflexivity.
Qed.

Lemma prompt_loop_candidates (items : dict pyval) :
  forall models seen earlier,
  (forall y, In y seen <-> In y earlier) ->
  prompt_loop items models seen
  = (cs <- candidates items ;; Ok (models ++ drop_seen earlier cs)).
Proof.
  induction items as [| [node_id node_data] rest IH]; intros models seen earlier H; simpl.
  - now rewrite app_nil_r.
  - destruct (node_extracted node_data) as [extracted | e]; simpl; [| reflexivity].
    destruct (keep_unseen_drop_seen extracted models seen earlier H) as [H1 H2].
    destruct (keep_unseen extracted models seen) as [models' seen'] eqn:K.
    simpl in H1, H2. subst models'.
    rewrite (IH _ _ _ H2).
    destruct (candidates rest) as [later | e]; simpl; [| reflexivity].
    now rewrite drop_seen_app, app_assoc.
Qed.

Lemma drop_seen_subsequence (refs : list model) :
  forall earlier, subsequence (drop_seen earlier refs) refs.
Proof.
  induction refs as [| m rest IH]; intros earlier; simpl.
  - constructor.
  - destruct (existsb (String.eqb (model_id m)) earlier); constructor; apply IH.
Qed.

Lemma drop_seen_ids (refs : list model) :
  forall earlier y,
  In y (map model_id (drop_seen earlier refs))
  <-> In y (map model_id refs) /\ ~ In y earlier.
Proof.
  induction refs as [| m rest IH]; intros earlier y; simpl; [tauto|].
  destruct (existsb (String.eqb (model_id m)) earlier) eqn:E.
  - apply existsb_eqb_In in E. rewrite IH. simpl. split.
    + intros [H1 H2]. split; [tauto | tauto].
    + intros [[<- | H1] H2]; [contradiction|]. split; [assumption|].
      intros [<- | H3]; contradiction.
  - assert (E' : ~ In (model_id m) earlier).
    { intros Hin. apply existsb_eqb_In in Hin. congruence. }
    simpl. rewrite IH. simpl. split.
    + intros [<- | [H1 H2]]; [tauto | tauto].
    + intros [[<- | H1] H2]; [tauto|].
      destruct (string_dec (model_id m) y) as [-> | Hne]; [tauto|].
      right. split; [assumption|]. intros [Heq | H3]; [congruence | contradiction].
Qed.

Lemma drop_seen_NoDup (refs : list model) :
  forall earlier, NoDup (map model_id (drop_seen earlier refs)).
Proof.
  induction refs as [| m rest IH]; intros earlier; simpl; [constructor|].
  destruct (existsb (String.eqb (model_id m)) earlier); [apply IH|].
  simpl. constructor; [| apply IH].
  rewrite drop_seen_ids. simpl. tauto.
Qed.

(** The first occurrence of an identifier is the one that is kept. *)
Lemma drop_seen_first (pre post : list model) (m : model) :
  ~ In (model_id m) (map model_id pre) ->
  In m (drop_seen [] (pre ++ m :: post)).
Proof.
  intros Hfirst. rewrite drop_seen_app. apply in_or_app. right. simpl.
  destruct (existsb (String.eqb (model_id m)) (rev (map model_id pre) ++ [])) eqn:E.
  - apply existsb_eqb_In in E. rewrite app_nil_r, <- in_rev in E. contradiction.
  - now left.
Qed.

Lemma extract_candidates (prompt : dict pyval) :
  extract_models_from_prompt prompt
  = (cs <- candidates prompt ;; Ok (drop_seen [] cs)).
Proof.
  unfold extract_models_from_prompt.
  rewrite (prompt_loop_candidates prompt [] [] []); [reflexivity | tauto].
Qed.

(** C3.  [extract_models_from_prompt] returns the references of the nodes
    in visiting order with every later occurrence of an identifier already
    met in the graph dropped, and raises where reading a node raises.  A
    returned list has no identifier twice, is a subsequence of the
    candidates, keeps the first occurrence of every identifier, and is the
    list any other call on the same graph returns. *)
Theorem extract_dedup_in_visit_order (prompt : dict pyval) :
  extract_models_from_prompt prompt
  = (cs <- candidates prompt ;; Ok (drop_seen [] cs))
  /\ forall models, extract_models_from_prompt prompt = Ok models ->
     exists cs,
       candidates prompt = Ok cs
       /\ models = drop_seen [] cs
       /\ NoDup (map model_id models)
       /\ subsequence models cs
       /\ (forall m, In m cs -> In (model_id m) (map model_id models))
       /\ (forall pre m post, cs = pre ++ m :: post ->
             ~ In (model_id m) (map model_id pre) -> In m models)
       /\ (forall again, extract_models_from_prompt prompt = Ok again ->
             again = models).
Proof.
  pose proof (extract_candidates prompt) as E.
  split; [exact E|].
  intros models Hm. rewrite E in Hm.
  destruct (candidates prompt) as [cs | e] eqn:C; simpl in Hm; [| discriminate].
  injection Hm as <-. exists cs.
  split; [reflexivity|]. split; [reflexivity|].
  split; [apply drop_seen_NoDup|].
  split; [apply drop_seen_subsequence|].
  split.
  - intros m Hin. rewrite drop_seen_ids. split; [now apply in_map | tauto].
  - split.
    + intros pre m post -> Hfirst. now apply drop_seen_first.
    + intros again Ha. rewrite E in Ha. simpl in Ha. congruence.
Qed.

Lemma extract_dedup_in_visit_order_witness :
  let ckpt := VDict [("class_type", VStr "CheckpointLoaderSimple");
                     ("inputs", VDict [("ckpt_name", VStr "sd15.safetensors")])] in
  let lora := VDict [("class_type", VStr "LoraLoader");
                     ("inputs", VDict [("lora_name", VStr "detail.safetensors")])] in
  let prompt := [("1", ckpt); ("2", lora); ("3", ckpt)] in
  let models := [reference "checkpoint" "sd15.safetensors";
                 reference "lora" "detail.safetensors"] in
  extract_models_from_prompt prompt = Ok models
  /\ exists cs,
       candidates prompt = Ok cs
       /\ models = drop_seen [] cs
       /\ NoDup (map model_id models)
       /\ subsequence models cs
       /\ (forall m, In m cs -> In (model_id m) (map model_id models))
       /\ (forall pre m post, cs = pre ++ m :: post ->
             ~ In (model_id m) (map model_id pre) -> In m models)
       /\ (forall again, extract_models_from_prompt prompt = Ok again ->
             again = models).
Proof.
  intros ckpt lora prompt models.
  split; [reflexivity|].
  apply (proj2 (extract_dedup_in_visit_order prompt) models). reflexivity.
Defined.

(** ** The two ways a node is resolved *)

Lemma nonempty_str_Some (v : pyval) (s : string) :
  nonempty_str v = Some s <-> v = VStr s /\ s <> "".
Proof.
  unfold nonempty_str. destruct v; simpl; try (rewrite andb_false_r);
    try (split; [discriminate | intros [H _]; discriminate]).
  rewrite andb_true_r. destruct (String.eqb_spec s0 ""); simpl.
  - split; [discriminate|]. intros [H Hne]. injection H as ->. contradiction.
  - split.
    + intros H. injection H as ->. split; [reflexivity | assumption].
    + intros [H _]. injection H as ->. reflexivity.
Qed.

Lemma py_get_VDict (d : dict pyval) (key : string) :
  py_get (VDict d) key VNone = Ok (input_value d key).
Proof. reflexivity. Qed.

Lemma inputs_loop_table (category : string) (inputs : dict pyval) (keys : list string) :
  forall models,
  inputs_loop category keys (VDict inputs) models
  = Ok (models ++ table_references category keys inputs).
Proof.
  induction keys as [| key rest IH]; intros models; simpl.
  - now rewrite app_nil_r.
  - fold (input_value inputs key).
    destruct (nonempty_str (input_value inputs key)) as [v |].
    + rewrite IH, <- app_assoc. reflexivity.
    + rewrite IH. reflexivity.
Qed.

Lemma extract_from_inputs_table (category : string) (keys : input_keys)
    (inputs : dict pyval) :
  _extract_from_inputs category keys (VDict inputs)
  = Ok (table_references category (keys_of keys) inputs).
Proof.
  unfold _extract_from_inputs. fold (keys_of keys).
  now rewrite inputs_loop_table.
Qed.

Lemma keys_loop_first (category : string) (inputs : dict pyval) (keys : list string) :
  forall models,
  keys_loop category keys (VDict inputs) models
  = Ok (models ++
          match first_key inputs keys with
          | Some key =>
              match nonempty_str (input_value inputs key) with
              | Some v => [reference category v]
              | None => []
              end
          | None => []
          end).
Proof.
  induction keys as [| key rest IH]; intros models; simpl.
  - now rewrite app_nil_r.
  - fold (input_value inputs key).
    destruct (nonempty_str (input_value inputs key)) as [v |] eqn:E.
    + rewrite E. reflexivity.
    + apply IH.
Qed.

Lemma patterns_loop_first (class_type : string) (inputs : dict pyval)
    (patterns : list (string * string * list string)) :
  patterns_loop patterns (VStr class_type) (VDict inputs) []
  = Ok match first_pattern patterns class_type with
       | Some (_, category, possible_keys) =>
           match first_key inputs possible_keys with
           | Some key =>
               match nonempty_str (input_value inputs key) with
               | Some v => [reference category v]
               | None => []
               end
           | None => []
           end
       | None => []
       end.
Proof.
  induction patterns as [| [[pattern category] possible_keys] rest IH]; simpl.
  - reflexivity.
  - destruct (contains (lower pattern) (lower class_type)).
    + now rewrite keys_loop_first.
    + apply IH.
Qed.

Lemma extract_from_patterns_first (class_type : string) (inputs : dict pyval) :
  _extract_from_patterns (VStr class_type) (VDict inputs)
  = Ok (pattern_reference class_type inputs).
Proof. apply patterns_loop_first. Qed.


Lemma node_extracted_dict (node : dict pyval) :
  node_extracted (VDict node)
  = (entry <- MODEL_LOADERS_find (class_type_of node) ;;
     match entry with
     | Some (category, input_keys) =>
         _extract_from_inputs category input_keys (inputs_of node)
     | None =>
         is_loader <- py_str_in "Loader" (class_type_of node) ;;
         if is_loader then _extract_from_patterns (class_type_of node) (inputs_of node)
         else Ok []
     end).
Proof. reflexivity. Qed.

(** Every name of the loader table contains ["Loader"]. *)
Lemma table_names_contain_Loader (class_type : string) (entry : string * input_keys) :
  dict_get class_type MODEL_LOADERS = Some entry ->
  contains "Loader" class_type = true.
Proof.
  unfold MODEL_LOADERS. simpl.
  repeat match goal with
         | |- context [String.eqb class_type ?k] =>
             destruct (String.eqb_spec class_type k) as [-> | _];
             [intros _; reflexivity |]
         end.
  discriminate.
Qed.

(** C4.  A node whose type name is a key of [MODEL_LOADERS] yields what
    [_extract_from_inputs] yields for the category and keys of that entry,
    whatever the patterns would make of the name; and the name does
    contain ["Loader"], so that only the order of the two tests keeps the
    node off the pattern path. *)
Theorem table_entry_precedes_patterns (node : dict pyval) (class_type : string)
    (category : string) (keys : input_keys) :
  dict_get "class_type" node = Some (VStr class_type) ->
  dict_get class_type MODEL_LOADERS = Some (category, keys) ->
  node_extracted (VDict node)
  = _extract_from_inputs category keys (inputs_of node)
  /\ py_str_in "Loader" (VStr class_type) = Ok true.
Proof.
  intros Hct Hentry. split.
  - rewrite node_extracted_dict. unfold class_type_of. rewrite Hct.
    unfold MODEL_LOADERS_find. rewrite Hentry. reflexivity.
  - simpl. f_equal. exact (table_names_contain_Loader _ _ Hentry).
Qed.

Lemma table_entry_precedes_patterns_witness :
  let inputs := VDict [("upscale_model", VStr "x4.pth")] in
  let node := [("class_type", VStr "UpscaleModelLoader"); ("inputs", inputs)] in
  (node_extracted (VDict node) = _extract_from_inputs "upscaler" (OneKey "model_name") inputs
   /\ py_str_in "Loader" (VStr "UpscaleModelLoader") = Ok true)
  /\ node_extracted (VDict node) = Ok []
  /\ _extract_from_patterns (VStr "UpscaleModelLoader") inputs
     = Ok [reference "upscaler" "x4.pth"].
Proof.
  intros inputs node. split.
  - apply (table_entry_precedes_patterns node "UpscaleModelLoader"); reflexivity.
  - split; reflexivity.
Defined.

(** Lowering forgets the case of letters. *)
Lemma lower_ascii_same_letter (a b : ascii) :
  same_letter a b = true -> lower_ascii a = lower_ascii b.
Proof.
  unfold same_letter, is_capital, lower_ascii.
  intros H. apply orb_true_iff in H as [H | H]; [apply orb_true_iff in H as [H | H]|].
  - apply Ascii.eqb_eq in H. now subst.
  - apply andb_true_iff in H as [U E]. apply N.eqb_eq in E. rewrite U, E.
    apply andb_true_iff in U as [U1 U2]. apply N.leb_le in U1, U2.
    replace ((65 <=? N_of_ascii a + 32) && (N_of_ascii a + 32 <=? 90))%N with false
      by (symmetry; apply andb_false_iff; right; apply N.leb_gt; lia).
    rewrite <- E. now rewrite ascii_N_embedding.
  - apply andb_true_iff in H as [U E]. apply N.eqb_eq in E. rewrite U, E.
    apply andb_true_iff in U as [U1 U2]. apply N.leb_le in U1, U2.
    replace ((65 <=? N_of_ascii b + 32) && (N_of_ascii b + 32 <=? 90))%N with false
      by (symmetry; apply andb_false_iff; right; apply N.leb_gt; lia).
    rewrite <- E. now rewrite ascii_N_embedding.
Qed.

Lemma lower_same_ignoring_case (s : string) :
  forall t, same_ignoring_case s t = true -> lower s = lower t.
Proof.
  induction s as [| a s IH]; intros [| b t]; cbn [same_ignoring_case lower];
    try discriminate; [reflexivity|].
  intros H. apply andb_true_iff in H as [L R].
  now rewrite (lower_ascii_same_letter a b L), (IH t R).
Qed.




(** The case of the letters of the pattern and of the name is ignored:
    no pattern occurs in these names as it is written. *)
Example pattern_path_ignores_case :
  node_extracted (VDict [("class_type", VStr "my_lora_Loader");
                         ("inputs", VDict [("lora_name", VStr "a.safetensors")])])
  = Ok [reference "lora" "a.safetensors"]
  /\ node_extracted (VDict [("class_type", VStr "UPSCALE_Loader");
                            ("inputs", VDict [("upscale_model", VStr "x4.pth")])])
     = Ok [reference "upscaler" "x4.pth"]
  /\ contains "Lora" "my_lora_Loader" = false
  /\ contains "Upscale" "UPSCALE_Loader" = false.
Proof. repeat split. Qed.

(** ** Graphs of any shape *)

Lemma node_extracted_well_shaped (node_data : pyval) :
  well_shaped node_data = true ->
  node_extracted node_data = Ok (node_references node_data).
Proof.
  destruct node_data as [| | | | | | node]; try discriminate.
  unfold well_shaped, node_references. rewrite node_extracted_dict.
  destruct (class_type_of node) as [| | | | class_type | |]; try discriminate.
  destruct (inputs_of node) as [| | | | | | inputs]; try discriminate.
  intros _. unfold MODEL_LOADERS_find, py_str_in, Py.bind.
  destruct (dict_get class_type MODEL_LOADERS) as [[category keys] |].
  - apply extract_from_inputs_table.
  - destruct (contains "Loader" class_type); [| reflexivity].
    apply extract_from_patterns_first.
Qed.

Lemma candidates_well_shaped (prompt : dict pyval) :
  forallb (fun item => well_shaped (snd item)) prompt = true ->
  candidates prompt = Ok (flat_map (fun item => node_references (snd item)) prompt).
Proof.
  induction prompt as [| [node_id node_data] rest IH]; simpl; [reflexivity|].
  intros H. apply andb_true_iff in H. destruct H as [H1 H2].
  rewrite (node_extracted_well_shaped _ H1), (IH H2). reflexivity.
Qed.

(** C9, as the code has it.  On a graph all of whose node values are dicts
    with a [str] (or no) [class_type] and a dict (or no) [inputs],
    extraction returns: nodes with a missing key or a type that is no
    loader contribute nothing, an input that is missing, not a [str] or
    empty contributes nothing, and every other reference is extracted. *)
Theorem extract_total_on_well_shaped (prompt : dict pyval) :
  forallb (fun item => well_shaped (snd item)) prompt = true ->
  extract_models_from_prompt prompt
  = Ok (drop_seen [] (flat_map (fun item => node_references (snd item)) prompt))
  /\ (forall node, dict_get "class_type" node = None ->
        well_shaped (VDict node) = true -> node_references (VDict node) = [])
  /\ (forall node class_type, dict_get "class_type" node = Some (VStr class_type) ->
        dict_get "inputs" node = None -> node_references (VDict node) = [])
  /\ (forall v, (forall s, v = VStr s -> s = "") -> nonempty_str v = None).
Proof.
  intros H. split; [| split; [| split]].
  - rewrite extract_candidates, (candidates_well_shaped prompt H). reflexivity.
  - intros node Hct _. unfold node_references, class_type_of. rewrite Hct.
    destruct (inputs_of node); reflexivity.
  - intros node class_type Hct Hin.
    unfold node_references, class_type_of, inputs_of. rewrite Hct, Hin.
    destruct (dict_get class_type MODEL_LOADERS) as [[category keys] |].
    + unfold table_references. induction (keys_of keys) as [| k ks IH]; [reflexivity|].
      simpl. exact IH.
    + destruct (contains "Loader" class_type); [| reflexivity].
      unfold pattern_reference.
      destruct (first_pattern LOADER_PATTERNS class_type) as [[[p c] ks] |];
        [| reflexivity].
      assert (F : first_key [] ks = None).
      { unfold first_key. induction ks as [| k ks' IH]; [reflexivity | exact IH]. }
      rewrite F. reflexivity.
  - intros v Hv. destruct (nonempty_str v) as [s |] eqn:E; [| reflexivity].
    apply nonempty_str_Some in E. destruct E as [-> Hne].
    elim Hne. now apply Hv.
Qed.

Lemma extract_total_on_well_shaped_witness :
  let prompt :=
    [("1", VDict [("inputs", VDict [("ckpt_name", VStr "a.safetensors")])]);
     ("2", VDict [("class_type", VStr "KSampler"); ("inputs", VDict [("seed", VInt 7)])]);
     ("3", VDict [("class_type", VStr "DualCLIPLoader");
                  ("inputs", VDict [("clip_name1", VStr "");
                                    ("clip_name2", VStr "t5.safetensors")])]);
     ("4", VDict [("class_type", VStr "VAELoader")])] in
  extract_models_from_prompt prompt = Ok [reference "clip" "t5.safetensors"].
Proof.
  intros prompt.
  exact (proj1 (extract_total_on_well_shaped prompt eq_refl)).
Defined.

(** C9, as it is worded, fails: a node value that is not a dict is not
    skipped; reading it raises and nothing is extracted from the graph. *)
Lemma extract_raises_on_non_mapping_node :
  extract_models_from_prompt
    [("1", VInt 7);
     ("2", VDict [("class_type", VStr "CheckpointLoaderSimple");
                  ("inputs", VDict [("ckpt_name", VStr "sd15.safetensors")])])]
  = Raise AttributeError
  /\ extract_models_from_prompt
       [("2", VDict [("class_type", VStr "CheckpointLoaderSimple");
                     ("inputs", VDict [("ckpt_name", VStr "sd15.safetensors")])])]
     = Ok [reference "checkpoint" "sd15.safetensors"].
Proof. split; reflexivity. Qed.

(** The other shapes that raise: a [class_type] that is not a [str], and
    the [inputs] of a recognised loader that are not a dict. *)
Example extract_raises_on_class_type_number :
  extract_models_from_prompt [("1", VDict [("class_type", VInt 3)])] = Raise TypeError.
Proof. reflexivity. Qed.

Example extract_raises_on_class_type_list :
  extract_models_from_prompt [("1", VDict [("class_type", VList [VStr "VAELoader"])])]
  = Raise TypeError.
Proof. reflexivity. Qed.

Example extract_raises_on_inputs_list :
  extract_models_from_prompt
    [("1", VDict [("class_type", VStr "VAELoader"); ("inputs", VList [])])]
  = Raise AttributeError.
Proof. reflexivity. Qed.

Example extract_ignores_inputs_of_other_nodes :
  extract_models_from_prompt
    [("1", VDict [("class_type", VStr "KSampler"); ("inputs", VList [])])]
  = Ok [].
Proof. reflexivity. Qed.

Example extract_checkpoint :
  extract_models_from_prompt
    [("1", VDict [("class_type", VStr "CheckpointLoaderSimple");
                  ("inputs", VDict [("ckpt_name", VStr "sd15.safetensors")])])]
  = Ok [ {| category := "checkpoint"; name := "sd15.safetensors";
            model_id := "checkpoint/sd15.safetensors" |} ].
Proof. reflexivity. Qed.

(* ================================================================== *)
(** * The order of [str] *)
(* ================================================================== *)

Lemma ascii_compare_refl (a : ascii) : Ascii.compare a a = Eq.
Proof. unfold Ascii.compare. apply N.compare_refl. Qed.

Lemma ascii_compare_lt_trans (a b c : ascii) :
  Ascii.compare a b = Lt -> Ascii.compare b c = Lt -> Ascii.compare a c = Lt.
Proof.
  unfold Ascii.compare. rewrite !N.compare_lt_iff. apply N.lt_trans.
Qed.

Lemma string_compare_refl (s : string) : String.compare s s = Eq.
Proof.
  induction s as [| a s IH]; simpl; [reflexivity|].
  now rewrite ascii_compare_refl.
Qed.

Lemma string_compare_lt_trans (s1 : string) :
  forall s2 s3,
  String.compare s1 s2 = Lt -> String.compare s2 s3 = Lt -> String.compare s1 s3 = Lt.
Proof.
  induction s1 as [| a s1 IH]; intros [| b s2] [| c s3]; simpl;
    try discriminate; try reflexivity.
  destruct (Ascii.compare a b) eqn:E1; try discriminate;
    destruct (Ascii.compare b c) eqn:E2; try discriminate; intros H1 H2.
  - apply Ascii.compare_eq_iff in E1, E2. subst.
    rewrite ascii_compare_refl. now apply (IH s2).
  - apply Ascii.compare_eq_iff in E1. subst. now rewrite E2.
  - apply Ascii.compare_eq_iff in E2. subst. now rewrite E1.
  - now rewrite (ascii_compare_lt_trans a b c).
Qed.

Lemma date_lt_compare (a b : string) : date_lt a b <-> String.compare a b = Lt.
Proof.
  unfold date_lt, String.ltb. destruct (String.compare a b); split; congruence.
Qed.

Lemma date_le_cases (a b : string) : date_le a b <-> a = b \/ date_lt a b.
Proof.
  unfold date_le, String.leb. rewrite date_lt_compare.
  destruct (String.compare a b) eqn:E.
  - apply String.compare_eq_iff in E. tauto.
  - tauto.
  - split; [discriminate|]. intros [-> | H]; [| discriminate].
    rewrite string_compare_refl in E. discriminate.
Qed.

Lemma date_le_refl (a : string) : date_le a a.
Proof. apply date_le_cases. now left. Qed.

Lemma date_lt_irrefl (a : string) : ~ date_lt a a.
Proof. rewrite date_lt_compare, string_compare_refl. discriminate. Qed.

Lemma date_lt_trans (a b c : string) : date_lt a b -> date_lt b c -> date_lt a c.
Proof. rewrite !date_lt_compare. apply string_compare_lt_trans. Qed.

Lemma date_lt_le_trans (a b c : string) : date_lt a b -> date_le b c -> date_lt a c.
Proof.
  intros H1 H2. apply date_le_cases in H2. destruct H2 as [<- | H2]; [assumption|].
  now apply (date_lt_trans a b c).
Qed.

Lemma date_le_trans (a b c : string) : date_le a b -> date_le b c -> date_le a c.
Proof.
  intros H1 H2. apply date_le_cases in H1. destruct H1 as [<- | H1]; [assumption|].
  apply date_le_cases. right. now apply (date_lt_le_trans a b c).
Qed.

Lemma date_le_neq_lt (a b : string) : date_le a b -> a <> b -> date_lt a b.
Proof. intros H N. apply date_le_cases in H. tauto. Qed.

(* ================================================================== *)
(** * ISO dates: the order of the text is the order of the days *)
(* ================================================================== *)

(** ** Fixed-width decimals *)

Lemma string_length_app (s1 s2 : string) :
  String.length (s1 ++ s2) = (String.length s1 + String.length s2)%nat.
Proof. induction s1 as [| c s1 IH]; simpl; [reflexivity | now rewrite IH]. Qed.

Lemma fixed_dec_length (w : nat) : forall n, String.length (fixed_dec w n) = w.
Proof.
  induction w as [| w IH]; intros n; simpl; [reflexivity|].
  rewrite string_length_app, IH. simpl. lia.
Qed.

(** Two texts that start with parts of one length compare by those parts
    first. *)
Lemma string_compare_app (p1 : string) :
  forall p2 s1 s2,
  String.length p1 = String.length p2 ->
  String.compare (p1 ++ s1) (p2 ++ s2)
  = match String.compare p1 p2 with
    | Eq => String.compare s1 s2
    | c => c
    end.
Proof.
  induction p1 as [| a p1 IH]; intros [| b p2] s1 s2 L; simpl in *; try discriminate.
  - reflexivity.
  - destruct (Ascii.compare a b); try reflexivity.
    apply IH. now injection L.
Qed.

Lemma digit_compare (a b : Z) :
  Ascii.compare (digit a) (digit b) = (a mod 10 ?= b mod 10).
Proof.
  unfold Ascii.compare, digit.
  pose proof (Z.mod_pos_bound a 10 ltac:(lia)) as Ha.
  pose proof (Z.mod_pos_bound b 10 ltac:(lia)) as Hb.
  rewrite !N_ascii_embedding by lia.
  rewrite <- N2Z.inj_compare, !N2Z.inj_add, !Z2N.id by lia.
  apply Z.add_compare_mono_l.
Qed.

Lemma compare_by_digits (a b : Z) :
  (a ?= b)
  = match a / 10 ?= b / 10 with
    | Eq => a mod 10 ?= b mod 10
    | c => c
    end.
Proof.
  pose proof (Z.div_mod a 10 ltac:(lia)) as Da.
  pose proof (Z.div_mod b 10 ltac:(lia)) as Db.
  pose proof (Z.mod_pos_bound a 10 ltac:(lia)) as Ha.
  pose proof (Z.mod_pos_bound b 10 ltac:(lia)) as Hb.
  destruct (Z.compare_spec (a / 10) (b / 10)) as [E | L | G].
  - destruct (Z.compare_spec (a mod 10) (b mod 10)) as [E' | L' | G'].
    + apply Z.compare_eq_iff. lia.
    + apply Z.compare_lt_iff. lia.
    + apply Z.compare_gt_iff. lia.
  - apply Z.compare_lt_iff. lia.
  - apply Z.compare_gt_iff. lia.
Qed.

(** Numbers of at most [w] digits compare as their [w]-digit texts. *)
Lemma fixed_dec_compare (w : nat) :
  forall a b, 0 <= a < 10 ^ Z.of_nat w -> 0 <= b < 10 ^ Z.of_nat w ->
  String.compare (fixed_dec w a) (fixed_dec w b) = (a ?= b).
Proof.
  induction w as [| w IH]; intros a b Ha Hb.
  - simpl in *. symmetry. apply Z.compare_eq_iff. lia.
  - cbn [fixed_dec].
    rewrite string_compare_app by now rewrite !fixed_dec_length.
    rewrite Nat2Z.inj_succ, Z.pow_succ_r in Ha, Hb by lia.
    rewrite IH.
    + rewrite (compare_by_digits a b). destruct (a / 10 ?= b / 10); try reflexivity.
      simpl. rewrite digit_compare. now destruct (a mod 10 ?= b mod 10).
    + split; [apply Z.div_pos; lia | apply Z.div_lt_upper_bound; lia].
    + split; [apply Z.div_pos; lia | apply Z.div_lt_upper_bound; lia].
Qed.

(** ** ISO dates *)

Lemma valid_date_fields (d : Datetime.date) :
  valid_date d = true ->
  1 <= year d <= 9999 /\ 1 <= month d <= 12
  /\ 1 <= day d <= days_in_month (year d) (month d).
Proof.
  unfold valid_date. rewrite !andb_true_iff, !Z.leb_le. tauto.
Qed.

Lemma days_in_month_bound (y m : Z) : 1 <= m <= 12 -> 28 <= days_in_month y m <= 31.
Proof.
  intros H. unfold days_in_month.
  assert (C : m = 1 \/ m = 2 \/ m = 3 \/ m = 4 \/ m = 5 \/ m = 6 \/ m = 7 \/ m = 8
              \/ m = 9 \/ m = 10 \/ m = 11 \/ m = 12) by lia.
  destruct (is_leap y);
    repeat (destruct C as [-> | C]; [month_values; lia|]); subst; month_values; lia.
Qed.

(** The text of an ISO date compares as year, month and day do. *)
Lemma date_isoformat_compare (d1 d2 : Datetime.date) :
  0 <= year d1 < 10000 -> 0 <= month d1 < 100 -> 0 <= day d1 < 100 ->
  0 <= year d2 < 10000 -> 0 <= month d2 < 100 -> 0 <= day d2 < 100 ->
  String.compare (date_isoformat d1) (date_isoformat d2) = lex_compare d1 d2.
Proof.
  intros Y1 M1 D1 Y2 M2 D2. unfold date_isoformat, lex_compare.
  rewrite string_compare_app by now rewrite !fixed_dec_length.
  rewrite (fixed_dec_compare 4) by (simpl; lia).
  destruct (year d1 ?= year d2); try reflexivity.
  change ("-" ++ ?s)%string with (String "-" s).
  cbn [String.compare]. rewrite ascii_compare_refl.
  rewrite string_compare_app by now rewrite !fixed_dec_length.
  rewrite (fixed_dec_compare 2) by (simpl; lia).
  destruct (month d1 ?= month d2); try reflexivity.
  cbn [String.append String.compare]. rewrite ascii_compare_refl.
  apply (fixed_dec_compare 2); simpl; lia.
Qed.

(** ** The days of the calendar *)

Lemma days_before_year_succ (y : Z) :
  days_before_year (y + 1)
  = days_before_year y + 365 + (if is_leap y then 1 else 0).
Proof.
  unfold days_before_year, is_leap.
  replace (y + 1 - 1) with y by lia.
  destruct (Z.eqb_spec (y mod 4) 0) as [E4 | N4];
    destruct (Z.eqb_spec (y mod 100) 0) as [E100 | N100];
    destruct (Z.eqb_spec (y mod 400) 0) as [E400 | N400]; cbn [negb andb orb];
    Z.div_mod_to_equations; lia.
Qed.

Lemma days_before_year_mono (y1 y2 : Z) :
  y1 <= y2 -> days_before_year y1 <= days_before_year y2.
Proof.
  intros H. unfold days_before_year. Z.div_mod_to_equations. lia.
Qed.

(** The day of the year of a valid date. *)
Lemma day_of_year_bound (y m d : Z) :
  1 <= m <= 12 -> 1 <= d <= days_in_month y m ->
  1 <= days_before_month y m + d <= 365 + (if is_leap y then 1 else 0).
Proof.
  intros Hm. unfold days_before_month, days_in_month.
  assert (C : m = 1 \/ m = 2 \/ m = 3 \/ m = 4 \/ m = 5 \/ m = 6 \/ m = 7 \/ m = 8
              \/ m = 9 \/ m = 10 \/ m = 11 \/ m = 12) by lia.
  destruct (is_leap y);
    repeat (destruct C as [-> | C]; [month_values; lia|]); subst; month_values; lia.
Qed.

(** A later month of one year starts after the earlier month ends. *)
Lemma months_in_order (y m1 m2 : Z) :
  1 <= m1 -> m1 < m2 -> m2 <= 12 ->
  days_before_month y m1 + days_in_month y m1 <= days_before_month y m2.
Proof.
  intros H1 H12 H2. unfold days_before_month, days_in_month.
  assert (C1 : m1 = 1 \/ m1 = 2 \/ m1 = 3 \/ m1 = 4 \/ m1 = 5 \/ m1 = 6 \/ m1 = 7
               \/ m1 = 8 \/ m1 = 9 \/ m1 = 10 \/ m1 = 11) by lia.
  assert (C2 : m2 = 2 \/ m2 = 3 \/ m2 = 4 \/ m2 = 5 \/ m2 = 6 \/ m2 = 7 \/ m2 = 8
               \/ m2 = 9 \/ m2 = 10 \/ m2 = 11 \/ m2 = 12) by lia.
  destruct (is_leap y);
    repeat (destruct C1 as [-> | C1]; [repeat (destruct C2 as [-> | C2]; [month_values; lia|]);
                                       subst; month_values; lia|]);
    subst; repeat (destruct C2 as [-> | C2]; [month_values; lia|]); subst; month_values; lia.
Qed.

(** Valid dates compare as their ordinals do. *)
Lemma lex_compare_toordinal (d1 d2 : Datetime.date) :
  valid_date d1 = true -> valid_date d2 = true ->
  lex_compare d1 d2 = (toordinal d1 ?= toordinal d2).
Proof.
  intros V1 V2.
  apply valid_date_fields in V1 as [Y1 [M1 D1]].
  apply valid_date_fields in V2 as [Y2 [M2 D2]].
  pose proof (day_of_year_bound (year d1) (month d1) (day d1) M1 D1) as B1.
  pose proof (day_of_year_bound (year d2) (month d2) (day d2) M2 D2) as B2.
  unfold lex_compare, toordinal. symmetry.
  destruct (Z.compare_spec (year d1) (year d2)) as [Ey | Ly | Gy].
  - rewrite Ey in *.
    destruct (Z.compare_spec (month d1) (month d2)) as [Em | Lm | Gm].
    + rewrite Em. rewrite !Z.add_compare_mono_l. reflexivity.
    + apply Z.compare_lt_iff.
      pose proof (months_in_order (year d2) (month d1) (month d2)
                    ltac:(lia) Lm ltac:(lia)). lia.
    + apply Z.compare_gt_iff.
      pose proof (months_in_order (year d2) (month d2) (month d1)
                    ltac:(lia) Gm ltac:(lia)). lia.
  - apply Z.compare_lt_iff.
    pose proof (days_before_year_succ (year d1)).
    pose proof (days_before_year_mono (year d1 + 1) (year d2) ltac:(lia)). lia.
  - apply Z.compare_gt_iff.
    pose proof (days_before_year_succ (year d2)).
    pose proof (days_before_year_mono (year d2 + 1) (year d1) ltac:(lia)). lia.
Qed.

(** The text of two valid dates compares as their days do. *)
Lemma iso_compare_toordinal (d1 d2 : Datetime.date) :
  valid_date d1 = true -> valid_date d2 = true ->
  String.compare (date_isoformat d1) (date_isoformat d2)
  = (toordinal d1 ?= toordinal d2).
Proof.
  intros V1 V2. rewrite <- (lex_compare_toordinal d1 d2 V1 V2).
  pose proof (valid_date_fields d1 V1) as [Y1 [M1 D1]].
  pose proof (valid_date_fields d2 V2) as [Y2 [M2 D2]].
  pose proof (days_in_month_bound (year d1) (month d1) M1).
  pose proof (days_in_month_bound (year d2) (month d2) M2).
  apply date_isoformat_compare; lia.
Qed.

Lemma iso_date_le (d1 d2 : Datetime.date) :
  valid_date d1 = true -> valid_date d2 = true ->
  date_le (date_isoformat d1) (date_isoformat d2) <-> toordinal d1 <= toordinal d2.
Proof.
  intros V1 V2. unfold date_le, String.leb.
  rewrite (iso_compare_toordinal d1 d2 V1 V2).
  destruct (Z.compare_spec (toordinal d1) (toordinal d2)); split; intros; try lia;
    try reflexivity; discriminate.
Qed.

Lemma iso_date_lt (d1 d2 : Datetime.date) :
  valid_date d1 = true -> valid_date d2 = true ->
  date_lt (date_isoformat d1) (date_isoformat d2) <-> toordinal d1 < toordinal d2.
Proof.
  intros V1 V2. unfold date_lt, String.ltb.
  rewrite (iso_compare_toordinal d1 d2 V1 V2).
  destruct (Z.compare_spec (toordinal d1) (toordinal d2)); split; intros; try lia;
    try reflexivity; discriminate.
Qed.

(** ** [fromordinal] and [toordinal] *)

Lemma all_below_spec (f : Z -> bool) (n : positive) :
  all_below f n = true -> forall r, 0 <= r < Z.pos n -> f r = true.
Proof.
  unfold all_below.
  assert (G : fst (Pos.iter (check_step f) (0, true) n) = Z.pos n
              /\ (snd (Pos.iter (check_step f) (0, true) n) = true ->
                  forall r, 0 <= r < Z.pos n -> f r = true)).
  { induction n as [| n [IH1 IH2]] using Pos.peano_ind.
    - simpl. split; [reflexivity|]. intros H r Hr.
      replace r with 0 by lia. exact H.
    - rewrite Pos.iter_succ. unfold check_step at 1 3. cbn [fst snd].
      rewrite IH1. split; [lia|].
      intros H r Hr. apply andb_true_iff in H as [H1 H2].
      destruct (Z.eq_dec r (Z.pos n)) as [-> | Hne]; [exact H2|].
      apply IH2; [exact H1 | lia]. }
  exact (proj2 G).
Qed.

(** Every day of a year, leap or not, checked one by one. *)
Lemma month_days_ok (leapyear : bool) :
  all_below (month_day_ok leapyear) 365 = true.
Proof. destruct leapyear; vm_compute; reflexivity. Qed.

(** The year counted in cycles of 400, 100 and 4 years. *)
Lemma days_before_year_digits (a b c e : Z) :
  0 <= b <= 3 -> 0 <= c <= 24 -> 0 <= e <= 3 ->
  days_before_year (a * 400 + 1 + b * 100 + c * 4 + e)
  = 146097 * a + 36524 * b + 1461 * c + 365 * e.
Proof.
  intros Hb Hc He. unfold days_before_year. Z.div_mod_to_equations. lia.
Qed.

Lemma is_leap_digits (a b c e : Z) :
  0 <= b <= 3 -> 0 <= c <= 24 -> 0 <= e <= 3 ->
  is_leap (a * 400 + 1 + b * 100 + c * 4 + e)
  = (e =? 3) && (negb (c =? 24) || (b =? 3)).
Proof.
  intros Hb Hc He. unfold is_leap.
  destruct (Z.eqb_spec e 3) as [E | E]; destruct (Z.eqb_spec c 24) as [C | C];
    destruct (Z.eqb_spec b 3) as [B | B]; cbn [negb andb orb];
    repeat match goal with
           | |- context [Z.eqb ?x 0] => destruct (Z.eqb_spec x 0)
           end; cbn [negb andb orb]; try reflexivity;
    exfalso; Z.div_mod_to_equations; lia.
Qed.

(** [fromordinal] gives a valid date, and [toordinal] takes it back. *)
Lemma fromordinal_valid (n : Z) :
  1 <= n <= MAXORDINAL ->
  valid_date (fromordinal n) = true /\ toordinal (fromordinal n) = n.
Proof.
  unfold MAXORDINAL. intros Hn. unfold fromordinal. cbv zeta.
  pose proof (Z.div_mod (n - 1) 146097 ltac:(lia)) as D1.
  pose proof (Z.mod_pos_bound (n - 1) 146097 ltac:(lia)) as B1.
  set (a := (n - 1) / 146097) in *. set (r1 := (n - 1) mod 146097) in *.
  pose proof (Z.div_mod r1 36524 ltac:(lia)) as D2.
  pose proof (Z.mod_pos_bound r1 36524 ltac:(lia)) as B2.
  set (b := r1 / 36524) in *. set (r2 := r1 mod 36524) in *.
  pose proof (Z.div_mod r2 1461 ltac:(lia)) as D3.
  pose proof (Z.mod_pos_bound r2 1461 ltac:(lia)) as B3.
  set (c := r2 / 1461) in *. set (r3 := r2 mod 1461) in *.
  pose proof (Z.div_mod r3 365 ltac:(lia)) as D4.
  pose proof (Z.mod_pos_bound r3 365 ltac:(lia)) as B4.
  set (e := r3 / 365) in *. set (r4 := r3 mod 365) in *.
  clearbody a r1 b r2 c r3 e r4.
  assert (Ha : 0 <= a) by lia.
  assert (Hb : 0 <= b <= 4) by lia.
  assert (Hc : 0 <= c <= 24) by lia.
  assert (He : 0 <= e <= 4) by lia.
  assert (Y : forall y, days_before_year y < 3652059 -> y <= 9999).
  { intros y Hy. destruct (Z_le_gt_dec y 9999) as [L | G]; [exact L|].
    pose proof (days_before_year_mono 10000 y ltac:(lia)) as M.
    change (days_before_year 10000) with 3652059 in M. lia. }
  destruct ((e =? 4) || (b =? 4)) eqn:Last.
  - (* the last day of a leap year *)
    apply orb_true_iff in Last. rewrite !Z.eqb_eq in Last.
    set (y := a * 400 + 1 + b * 100 + c * 4 + e - 1).
    assert (Leap : is_leap y = true /\ days_before_year y + 366 = n).
    { destruct Last as [E | B].
      - assert (c <= 23) by lia.
        replace y with (a * 400 + 1 + b * 100 + c * 4 + 3) by (unfold y; lia).
        assert (0 <= b <= 3) by lia.
        rewrite is_leap_digits, days_before_year_digits by lia.
        split; [| lia].
        destruct (Z.eqb_spec c 24); [lia | reflexivity].
      - assert (c = 0 /\ e = 0) as [-> ->] by lia. subst b.
        replace y with (a * 400 + 1 + 3 * 100 + 24 * 4 + 3) by (unfold y; lia).
        rewrite is_leap_digits, days_before_year_digits by lia.
        split; [reflexivity | lia]. }
    destruct Leap as [L T]. split.
    + unfold valid_date, days_in_month. cbn [year month day]. rewrite L.
      month_values.
      assert (1 <= y <= 9999); [| rewrite !andb_true_iff, !Z.leb_le; repeat split; lia].
      split; [unfold y; lia|]. apply Y. lia.
    + unfold toordinal, days_before_month. cbn [year month day]. rewrite L.
      month_values. lia.
  - (* any other day *)
    apply orb_false_iff in Last. rewrite !Z.eqb_neq in Last. destruct Last as [Ne Nb].
    assert (Hb' : 0 <= b <= 3) by lia. assert (He' : 0 <= e <= 3) by lia.
    set (y := a * 400 + 1 + b * 100 + c * 4 + e).
    pose proof (is_leap_digits a b c e Hb' Hc He') as L. fold y in L.
    pose proof (days_before_year_digits a b c e Hb' Hc He') as T. fold y in T.
    rewrite <- L.
    pose proof (all_below_spec _ 365 (month_days_ok (is_leap y)) r4 ltac:(lia)) as C.
    unfold month_day_ok in C.
    destruct (month_day (is_leap y) r4) as [m d].
    rewrite !andb_true_iff, !Z.leb_le, Z.eqb_eq in C.
    destruct C as [[[[M1 M2] D1'] D2'] S]. split.
    + unfold valid_date, days_in_month. cbn [year month day].
      assert (1 <= y <= 9999); [| rewrite !andb_true_iff, !Z.leb_le; repeat split; lia].
      split; [unfold y; lia|]. apply Y. lia.
    + unfold toordinal, days_before_month. cbn [year month day]. lia.
Qed.

(** The ordinal of a valid date is one [fromordinal] accepts. *)
Lemma toordinal_range (d : Datetime.date) :
  valid_date d = true -> 1 <= toordinal d <= MAXORDINAL.
Proof.
  intros V. apply valid_date_fields in V as [Y [M D]].
  pose proof (day_of_year_bound (year d) (month d) (day d) M D) as B.
  pose proof (days_before_year_succ (year d)) as S.
  pose proof (days_before_year_mono (year d + 1) 10000 ltac:(lia)) as U.
  pose proof (days_before_year_mono 1 (year d) ltac:(lia)) as L.
  change (days_before_year 10000) with 3652059 in U.
  change (days_before_year 1) with 0 in L.
  unfold toordinal, MAXORDINAL. lia.
Qed.

(** The date [days] days before a valid date, in days: an entry of a valid
    date is on or after the cutoff exactly when its day is. *)
Lemma cutoff_day_in_days (now : datetime) (days : Z) (d : Datetime.date) :
  0 <= days < toordinal (date_of now) ->
  valid_date (date_of now) = true ->
  valid_date d = true ->
  date_le (cutoff_day now days) (date_isoformat d)
  <-> toordinal (date_of now) - days <= toordinal d.
Proof.
  intros Hd Vn Vd. pose proof (toordinal_range _ Vn) as R.
  destruct (fromordinal_valid (toordinal (date_of now) - days) ltac:(lia)) as [V T].
  unfold cutoff_day. rewrite (iso_date_le _ d V Vd), T. reflexivity.
Qed.

(** Calls on valid dates whose days never go back have dates that never
    go back as the code compares them. *)
Lemma dates_nondecreasing_in_days (calls : list call) :
  Forall (fun c => valid_date (date_of (at_time c)) = true) calls ->
  Sorted (fun a b => toordinal (date_of (at_time a)) <= toordinal (date_of (at_time b)))
    calls ->
  dates_nondecreasing calls.
Proof.
  unfold dates_nondecreasing. intros V S.
  induction S as [| c rest S IH H]; [constructor|].
  inversion V as [| ? ? Vc Vrest]; subst.
  constructor; [now apply IH|].
  destruct H as [| b rest' Hb]; constructor.
  inversion Vrest as [| ? ? Vb _]; subst.
  unfold today_of. now apply iso_date_le.
Qed.

Example calendar_days :
  toordinal (Date 2026 11 3) = 739923
  /\ fromordinal 739923 = Date 2026 11 3
  /\ fromordinal 1 = Date 1 1 1
  /\ fromordinal MAXORDINAL = Date 9999 12 31
  /\ fromordinal (toordinal (Date 2024 3 1) - 1) = Date 2024 2 29
  /\ fromordinal (toordinal (Date 1900 3 1) - 1) = Date 1900 2 28
  /\ fromordinal (toordinal (Date 2000 12 31)) = Date 2000 12 31
  /\ date_sub (Date 2026 11 3) 7 = Ok (Date 2026 10 27)
  /\ date_sub (Date 1 1 5) 7 = Raise OverflowError.
Proof. repeat split. Qed.

Example iso_texts :
  date_isoformat (Date 2026 11 3) = "2026-11-03"
  /\ isoformat (DateTime (Date 2026 11 3) 7 5 9 0) = "2026-11-03T07:05:09"
  /\ isoformat (DateTime (Date 987 1 2) 23 0 0 1500) = "0987-01-02T23:00:00.001500"
  /\ strftime_compact (DateTime (Date 2026 11 3) 7 5 9 120) = "20261103_070509".
Proof. repeat split. Qed.

(* ================================================================== *)
(** * Properties of recording *)
(* ================================================================== *)

(** ** Dictionaries *)

Section DictFacts.
Context {A : Type}.

Lemma dict_get_set_same (k : string) (v : A) (d : dict A) :
  dict_get k (dict_set k v d) = Some v.
Proof.
  induction d as [| [k' v'] rest IH]; simpl.
  - now rewrite String.eqb_refl.
  - destruct (String.eqb_spec k k') as [-> | Hne]; simpl.
    + now rewrite String.eqb_refl.
    + destruct (String.eqb_spec k k'); [contradiction | exact IH].
Qed.

Lemma dict_get_set_other (k k' : string) (v : A) (d : dict A) :
  k' <> k -> dict_get k' (dict_set k v d) = dict_get k' d.
Proof.
  intros Hne. induction d as [| [k0 v0] rest IH]; simpl.
  - destruct (String.eqb_spec k' k); [contradiction | reflexivity].
  - destruct (String.eqb_spec k k0) as [-> | Hk]; simpl.
    + destruct (String.eqb_spec k' k0); [contradiction | reflexivity].
    + destruct (String.eqb_spec k' k0); [reflexivity | exact IH].
Qed.

Lemma dict_keys_set_mem (k : string) (v : A) (d : dict A) :
  dict_mem k d = true -> dict_keys (dict_set k v d) = dict_keys d.
Proof.
  unfold dict_mem, dict_keys. induction d as [| [k0 v0] rest IH]; simpl.
  - discriminate.
  - destruct (String.eqb_spec k k0) as [-> | Hk]; simpl; [reflexivity|].
    intros H. now rewrite IH.
Qed.
End DictFacts.

(** ** One call *)

(** What [record_model] leaves under a key. *)
Lemma record_model_get (now_iso today : string) (ms : dict ModelRecord)
    (m : model) (id : string) :
  dict_get id (record_model now_iso today ms m)
  = if String.eqb id (model_id m)
    then Some (touch now_iso today
                 match dict_get (model_id m) ms with
                 | Some r => r
                 | None => new_record now_iso m
                 end)
    else dict_get id ms.
Proof.
  unfold record_model, dict_mem.
  destruct (dict_get (model_id m) ms) as [r |] eqn:G; simpl.
  - rewrite G.
    destruct (String.eqb_spec id (model_id m)) as [-> | Hne].
    + apply dict_get_set_same.
    + now apply dict_get_set_other.
  - rewrite dict_get_set_same.
    destruct (String.eqb_spec id (model_id m)) as [-> | Hne].
    + apply dict_get_set_same.
    + rewrite !dict_get_set_other by assumption. reflexivity.
Qed.

Lemma occurrences_in_cons (id : string) (m : model) (rest : list model) :
  occurrences_in id (m :: rest)
  = (if String.eqb (model_id m) id then 1 else 0) + occurrences_in id rest.
Proof.
  unfold occurrences_in. simpl.
  destruct (String.eqb (model_id m) id); simpl List.length; lia.
Qed.

Lemma occurrences_in_nonneg (id : string) (l : list model) :
  0 <= occurrences_in id l.
Proof. unfold occurrences_in. lia. Qed.

Lemma occurrences_in_mentions (id : string) (l : list model) :
  existsb (fun m => String.eqb (model_id m) id) l = true <-> 0 < occurrences_in id l.
Proof.
  induction l as [| m rest IH].
  - simpl. unfold occurrences_in. simpl. split; [discriminate | lia].
  - rewrite occurrences_in_cons. cbn [existsb].
    pose proof (occurrences_in_nonneg id rest).
    destruct (String.eqb (model_id m) id); cbn [orb].
    + split; [lia | reflexivity].
    + rewrite IH. split; lia.
Qed.

(** The [for model in models] loop, seen from one key. *)
Lemma record_models_get (now_iso today id : string) (l : list model) :
  forall ms,
  count_under id (fold_left (record_model now_iso today) l ms)
  = count_under id ms + occurrences_in id l
  /\ (existsb (fun m => String.eqb (model_id m) id) l = false ->
      dict_get id (fold_left (record_model now_iso today) l ms) = dict_get id ms)
  /\ (existsb (fun m => String.eqb (model_id m) id) l = true ->
      exists r, dict_get id (fold_left (record_model now_iso today) l ms) = Some r
                /\ last_used r = now_iso).
Proof.
  induction l as [| m rest IH]; intros ms.
  - cbn [fold_left existsb]. unfold occurrences_in. simpl.
    split; [lia|]. split; [reflexivity | discriminate].
  - cbn [fold_left existsb].
    destruct (IH (record_model now_iso today ms m)) as [IH1 [IH2 IH3]].
    rewrite occurrences_in_cons.
    assert (G := record_model_get now_iso today ms m id).
    rewrite String.eqb_sym in G.
    assert (C : count_under id (record_model now_iso today ms m)
                = count_under id ms + (if String.eqb (model_id m) id then 1 else 0)).
    { unfold count_under. rewrite G.
      destruct (String.eqb_spec (model_id m) id) as [E | Hne]; [| lia].
      subst id. destruct (dict_get (model_id m) ms); simpl; lia. }
    split; [lia|].
    destruct (String.eqb (model_id m) id); cbn [orb].
    + split; [discriminate|]. intros _.
      destruct (existsb (fun m0 => String.eqb (model_id m0) id) rest) eqn:X.
      * now apply IH3.
      * rewrite (IH2 eq_refl), G. eexists. split; reflexivity.
    + split.
      * intros X. rewrite (IH2 X). exact G.
      * exact IH3.
Qed.

(** ** A sequence of calls *)

Lemma db_models_record_usage (now saved : datetime) (l : list model)
    (data : UsageDatabase) :
  db_models (record_usage now saved l data)
  = fold_left (record_model (iso_z now) (date_isoformat (date_of now))) l
      (db_models data).
Proof. destruct l; reflexivity. Qed.

Lemma record_calls_snoc (calls : list call) (c : call) (data : UsageDatabase) :
  record_calls (calls ++ [c]) data = record_call (record_calls calls data) c.
Proof. unfold record_calls. now rewrite fold_left_app. Qed.

Lemma occurrences_snoc (id : string) (calls : list call) (c : call) :
  occurrences id (calls ++ [c]) = occurrences id calls + occurrences_in id (refs c).
Proof.
  induction calls as [| c0 rest IH]; simpl; [lia|]. rewrite IH. lia.
Qed.

Lemma occurrences_nonneg (id : string) (calls : list call) :
  0 <= occurrences id calls.
Proof.
  induction calls as [| c rest IH]; simpl; [lia|].
  pose proof (occurrences_in_nonneg id (refs c)). lia.
Qed.

Lemma last_mention_snoc (id : string) (calls : list call) (c : call) :
  last_mention id (calls ++ [c])
  = if mentions id c then Some c else last_mention id calls.
Proof. unfold last_mention. rewrite rev_app_distr. reflexivity. Qed.

(** The state of one key after a sequence of calls on an empty document. *)
Lemma record_calls_key (t0 : datetime) (id : string) (calls : list call) :
  let ms := db_models (record_calls calls (create_empty_data t0)) in
  count_under id ms = occurrences id calls
  /\ match last_mention id calls with
     | Some c =>
         0 < occurrences id calls
         /\ exists r, dict_get id ms = Some r /\ last_used r = iso_z (at_time c)
     | None => dict_get id ms = None /\ occurrences id calls = 0
     end.
Proof.
  induction calls as [| c calls IH] using rev_ind.
  - simpl. split; [reflexivity | split; reflexivity].
  - cbv zeta in IH |- *. destruct IH as [IHc IHl].
    rewrite record_calls_snoc, occurrences_snoc, last_mention_snoc.
    unfold record_call. rewrite db_models_record_usage.
    set (ms := db_models (record_calls calls (create_empty_data t0))) in *.
    destruct (record_models_get (iso_z (at_time c))
                (date_isoformat (date_of (at_time c))) id (refs c) ms)
      as [R1 [R2 R3]].
    pose proof (occurrences_in_mentions id (refs c)) as OM.
    pose proof (occurrences_in_nonneg id (refs c)) as ON.
    pose proof (occurrences_nonneg id calls) as OC.
    split; [lia|].
    unfold mentions. destruct (existsb _ (refs c)) eqn:X.
    + assert (P : 0 < occurrences_in id (refs c)) by now apply OM.
      split; [lia | now apply R3].
    + assert (Z0 : occurrences_in id (refs c) = 0).
      { destruct (Z.eq_dec (occurrences_in id (refs c)) 0) as [E | N]; [exact E|].
        assert (P : 0 < occurrences_in id (refs c)) by lia.
        apply OM in P. discriminate. }
      rewrite (R2 eq_refl).
      destruct (last_mention id calls) as [c0 |].
      * destruct IHl as [P Q]. split; [lia | exact Q].
      * destruct IHl as [P Q]. split; [exact P | lia].
Qed.

(** C1.  After any sequence of [record_usage] calls on an empty document,
    a model that has a record has as [usage_count] the number of times its
    identifier occurred in the lists passed, and as [last_used] the time
    of the most recent call whose list held it; a model without a record
    occurred in no list. *)
Theorem usage_count_and_last_used (t0 : datetime) (calls : list call) (id : string) :
  match record_of id (record_calls calls (create_empty_data t0)) with
  | Some r =>
      usage_count r = occurrences id calls
      /\ 0 < occurrences id calls
      /\ exists c, last_mention id calls = Some c /\ last_used r = iso_z (at_time c)
  | None => occurrences id calls = 0 /\ last_mention id calls = None
  end.
Proof.
  unfold record_of.
  destruct (record_calls_key t0 id calls) as [Hc Hl]. cbv zeta in Hc, Hl.
  unfold count_under in Hc.
  destruct (last_mention id calls) as [c |].
  - destruct Hl as [Hpos [r [Hr Hlast]]]. rewrite Hr in Hc |- *.
    split; [exact Hc|]. split; [exact Hpos|]. exists c. now split.
  - destruct Hl as [Hnone Hzero]. rewrite Hnone. now split.
Qed.

(* ================================================================== *)
(** * Properties of the daily log *)
(* ================================================================== *)

Section Snoc.
Context {A : Type} (R : A -> A -> Prop).

Lemma StronglySorted_snoc (l : list A) (x : A) :
  StronglySorted R l -> Forall (fun y => R y x) l -> StronglySorted R (l ++ [x]).
Proof.
  induction l as [| a l IH]; simpl; intros S F.
  - repeat constructor.
  - inversion S as [| ? ? S' F']; subst. inversion F as [| ? ? Ra Fl]; subst.
    constructor; [now apply IH|].
    apply Forall_app. split; [assumption | now constructor].
Qed.

Lemma StronglySorted_snoc_inv (l : list A) (x : A) :
  StronglySorted R (l ++ [x]) -> StronglySorted R l /\ Forall (fun y => R y x) l.
Proof.
  induction l as [| a l IH]; simpl; intros S.
  - split; constructor.
  - inversion S as [| ? ? S' F']; subst.
    destruct (IH S') as [S1 F1]. apply Forall_app in F' as [Fa Fx].
    split; constructor; try assumption. now inversion Fx.
Qed.
End Snoc.

Lemma last_entry_snoc (l : list DailyUsageEntry) (e : DailyUsageEntry) :
  last_entry (l ++ [e]) = Some e.
Proof. unfold last_entry. now rewrite rev_app_distr. Qed.

Lemma last_entry_cases (log : list DailyUsageEntry) :
  (log = [] /\ last_entry log = None)
  \/ exists l e, log = l ++ [e] /\ last_entry log = Some e.
Proof.
  destruct log as [| a log'] using rev_ind.
  - now left.
  - right. exists log', a. split; [reflexivity | apply last_entry_snoc].
Qed.

(** The dates of a log after [log_today]: the same when the last entry is
    today's, one more otherwise. *)
Lemma log_today_dates (today : string) (log : list DailyUsageEntry) :
  map date (log_today today log)
  = match last_entry log with
    | Some e => if String.eqb (date e) today then map date log
                else map date log ++ [today]
    | None => map date log ++ [today]
    end.
Proof.
  unfold log_today.
  destruct (last_entry_cases log) as [[-> ->] | [l [e [-> ->]]]]; [reflexivity|].
  destruct (String.eqb (date e) today).
  - rewrite removelast_last, !map_app. reflexivity.
  - rewrite !map_app. reflexivity.
Qed.

Lemma log_today_last (today : string) (log : list DailyUsageEntry) :
  exists e, last_entry (log_today today log) = Some e /\ date e = today.
Proof.
  unfold log_today.
  destruct (last_entry_cases log) as [[-> ->] | [l [e [-> ->]]]].
  - eexists. split; reflexivity.
  - destruct (String.eqb_spec (date e) today) as [E | N].
    + rewrite removelast_last, last_entry_snoc. eexists. split; [reflexivity | exact E].
    + rewrite last_entry_snoc. eexists. split; reflexivity.
Qed.

Lemma log_today_positive (today : string) (log : list DailyUsageEntry) :
  Forall (fun e => 0 < count e) log ->
  Forall (fun e => 0 < count e) (log_today today log).
Proof.
  intros F. unfold log_today.
  destruct (last_entry_cases log) as [[-> ->] | [l [e [-> ->]]]].
  - repeat constructor.
  - apply Forall_app in F as [Fl Fe]. inversion Fe as [| ? ? Pe _]; subst.
    destruct (String.eqb (date e) today).
    + rewrite removelast_last. apply Forall_app. split; [assumption|].
      constructor; [simpl; lia | constructor].
    + apply Forall_app. split.
      * apply Forall_app. now split.
      * constructor; [simpl; lia | constructor].
Qed.

(** On a log in ascending order whose dates do not pass [today],
    [log_today] keeps the order. *)
Lemma log_today_ascending (today : string) (log : list DailyUsageEntry) :
  ascending (map date log) ->
  Forall (fun d => date_le d today) (map date log) ->
  ascending (map date (log_today today log))
  /\ Forall (fun d => date_le d today) (map date (log_today today log)).
Proof.
  intros S F. rewrite log_today_dates.
  assert (New : (forall e, last_entry log = Some e -> date e <> today) ->
                ascending (map date log ++ [today])
                /\ Forall (fun d => date_le d today) (map date log ++ [today])).
  { intros Hlast. split.
    - apply StronglySorted_snoc; [exact S|].
      destruct (last_entry_cases log) as [[-> _] | [l [e [-> He]]]]; [constructor|].
      rewrite map_app in S, F |- *. simpl in S, F |- *.
      apply StronglySorted_snoc_inv in S as [_ Sl].
      apply Forall_app in F as [_ Fe]. inversion Fe as [| ? ? Le _]; subst.
      assert (Lt : date_lt (date e) today).
      { apply date_le_neq_lt; [exact Le | now apply Hlast]. }
      apply Forall_app. split; [| now constructor].
      eapply Forall_impl; [| exact Sl]. intros d Hd.
      now apply (date_lt_trans d (date e) today).
    - apply Forall_app. split; [exact F|]. constructor; [apply date_le_refl | constructor]. }
  destruct (last_entry log) as [e |] eqn:L.
  - destruct (String.eqb_spec (date e) today) as [E | N].
    + now split.
    + apply New. intros e' He'. injection He' as <-. exact N.
  - apply New. intros e' He'. discriminate.
Qed.

(** In an ascending log whose dates do not pass [today], today's entry is
    the last one. *)
Lemma today_entry_is_last (today : string) (log : list DailyUsageEntry)
    (e : DailyUsageEntry) :
  ascending (map date log) ->
  Forall (fun d => date_le d today) (map date log) ->
  In e log -> date e = today -> last_entry log = Some e.
Proof.
  intros S F Hin Hd.
  destruct (last_entry_cases log) as [[-> _] | [l [x [-> ->]]]]; [contradiction|].
  rewrite map_app in S, F. simpl in S, F.
  apply StronglySorted_snoc_inv in S as [_ Sl].
  apply Forall_app in F as [_ Fx]. inversion Fx as [| ? ? Lx _]; subst.
  apply in_app_or in Hin. destruct Hin as [Hl | [-> | []]]; [| reflexivity].
  exfalso. rewrite Forall_forall in Sl.
  assert (Lt : date_lt (date e) (date x)) by (apply Sl; now apply in_map).
  apply (date_lt_irrefl (date e)).
  now apply (date_lt_le_trans (date e) (date x) (date e)).
Qed.

Lemma ascending_NoDup (dates : list string) : ascending dates -> NoDup dates.
Proof.
  induction 1 as [| d l S IH F]; constructor; [| exact IH].
  intros Hin. rewrite Forall_forall in F.
  exact (date_lt_irrefl d (F d Hin)).
Qed.

Lemma log_today_empty (today : string) :
  log_today today [] = [ {| date := today; count := 1 |} ].
Proof. reflexivity. Qed.

Lemma log_today_same (today : string) (n : Z) :
  log_today today [ {| date := today; count := n |} ]
  = [ {| date := today; count := n + 1 |} ].
Proof.
  unfold log_today. cbn [last_entry rev app date count removelast].
  now rewrite String.eqb_refl.
Qed.

(** A property of logs that the empty log has and [log_today] keeps holds
    for every record of the mapping after [record_model]. *)
Section LogInvariant.
Variables (now_iso today : string) (Q : list DailyUsageEntry -> Prop).
Hypothesis Q_empty : Q [].
Hypothesis Q_step : forall log, Q log -> Q (log_today today log).

Lemma record_model_logs (ms : dict ModelRecord) (m : model) :
  (forall id r, dict_get id ms = Some r -> Q (usage_log r)) ->
  forall id r, dict_get id (record_model now_iso today ms m) = Some r ->
  Q (usage_log r).
Proof.
  intros H id r. rewrite record_model_get.
  destruct (String.eqb id (model_id m)); [| apply H].
  intros E. injection E as <-. simpl. apply Q_step.
  destruct (dict_get (model_id m) ms) as [r0 |] eqn:G.
  - now apply (H (model_id m)).
  - exact Q_empty.
Qed.

Lemma record_models_logs (l : list model) :
  forall ms,
  (forall id r, dict_get id ms = Some r -> Q (usage_log r)) ->
  forall id r, dict_get id (fold_left (record_model now_iso today) l ms) = Some r ->
  Q (usage_log r).
Proof.
  induction l as [| m rest IH]; intros ms H; simpl; [exact H|].
  apply IH. now apply record_model_logs.
Qed.
End LogInvariant.

Lemma date_le_transitive :
  Relations_1.Transitive (fun a b : call => date_le (today_of a) (today_of b)).
Proof. intros a b c. apply date_le_trans. Qed.

Lemma record_calls_logs (t0 : datetime) (calls : list call) :
  dates_nondecreasing calls ->
  forall id r,
  record_of id (record_calls calls (create_empty_data t0)) = Some r ->
  log_invariant calls (usage_log r).
Proof.
  unfold dates_nondecreasing, record_of. intros S.
  apply (Sorted_StronglySorted date_le_transitive) in S.
  induction calls as [| c calls IH] using rev_ind.
  - simpl. discriminate.
  - apply StronglySorted_snoc_inv in S as [S Fc].
    specialize (IH S). rewrite Forall_forall in Fc.
    intros id r. rewrite record_calls_snoc. unfold record_call.
    rewrite db_models_record_usage.
    set (Q := fun log : list DailyUsageEntry =>
                log_invariant (calls ++ [c]) log
                /\ Forall (fun d => date_le d (today_of c)) (map date log)).
    intros G.
    assert (HQ : Q (usage_log r)); [| exact (proj1 HQ)].
    revert id r G. apply (record_models_logs (iso_z (at_time c)) (today_of c) Q).
    + split; [| constructor]. repeat split; constructor.
    + intros log [[A [O P]] B].
      destruct (log_today_ascending (today_of c) log A B) as [A' B'].
      split; [| exact B']. split; [exact A'|]. split; [| now apply log_today_positive].
      rewrite log_today_dates.
      assert (O' : Forall (fun d => exists c0, In c0 (calls ++ [c]) /\ d = today_of c0)
                     (map date log ++ [today_of c])).
      { apply Forall_app. split; [exact O|]. constructor; [| constructor].
        exists c. split; [apply in_or_app; right; now left | reflexivity]. }
      destruct (last_entry log) as [e |]; [| exact O'].
      destruct (String.eqb (date e) (today_of c)); [exact O | exact O'].
    + intros id r G. destruct (IH id r G) as [A [O P]].
      assert (O' : Forall (fun d => exists c0, In c0 calls /\ d = today_of c0)
                     (map date (usage_log r))) by exact O.
      split.
      * split; [exact A|]. split; [| exact P].
        eapply Forall_impl; [| exact O]. intros d [c0 [Hin ->]].
        exists c0. split; [apply in_or_app; now left | reflexivity].
      * eapply Forall_impl; [| exact O]. intros d [c0 [Hin ->]]. now apply Fc.
Qed.

Lemma latest_call_snoc (calls : list call) (c : call) :
  latest_call (calls ++ [c]) = Some c.
Proof. unfold latest_call. now rewrite rev_app_distr. Qed.

Lemma dates_bounded_by_latest (calls : list call) (latest : call) :
  dates_nondecreasing calls ->
  latest_call calls = Some latest ->
  forall c, In c calls -> date_le (today_of c) (today_of latest).
Proof.
  unfold dates_nondecreasing. intros S L c Hin.
  apply (Sorted_StronglySorted date_le_transitive) in S.
  destruct calls as [| x calls'] using rev_ind; [discriminate|].
  rewrite latest_call_snoc in L. injection L as <-.
  apply StronglySorted_snoc_inv in S as [_ F]. rewrite Forall_forall in F.
  apply in_app_or in Hin. destruct Hin as [Hin | [<- | []]].
  - now apply F.
  - apply date_le_refl.
Qed.

(** C2.  After [record_usage] calls on an empty document whose dates never
    go back, the log of every model has strictly ascending dates, hence no
    date twice; every date is the date of one of the calls, none is later
    than the date of the latest call, and an entry of that date is the
    last of the log; counts are positive.  Two calls on one date that each
    pass the model once leave one entry, with count 2.  Dates are compared
    as the code compares them, as text; [dates_nondecreasing_in_days] says
    that for valid dates this is the order of the days. *)
Theorem usage_log_one_entry_per_date (t0 : datetime) (calls : list call) :
  dates_nondecreasing calls ->
  (forall id r,
     record_of id (record_calls calls (create_empty_data t0)) = Some r ->
     ascending (map date (usage_log r))
     /\ NoDup (map date (usage_log r))
     /\ Forall (fun e => 0 < count e) (usage_log r)
     /\ Forall (fun d => exists c, In c calls /\ d = today_of c) (map date (usage_log r))
     /\ forall latest, latest_call calls = Some latest ->
        Forall (fun d => date_le d (today_of latest)) (map date (usage_log r))
        /\ forall e, In e (usage_log r) -> date e = today_of latest ->
           last_entry (usage_log r) = Some e)
  /\ (forall c1 c2 m r,
        refs c1 = [m] -> refs c2 = [m] -> today_of c1 = today_of c2 ->
        record_of (model_id m) (record_calls [c1; c2] (create_empty_data t0)) = Some r ->
        usage_log r = [ {| date := today_of c1; count := 2 |} ]).
Proof.
  intros S. split.
  - intros id r G.
    destruct (record_calls_logs t0 calls S id r G) as [A [O P]].
    split; [exact A|]. split; [now apply ascending_NoDup|]. split; [exact P|].
    split; [exact O|]. intros latest L.
    assert (B : Forall (fun d => date_le d (today_of latest)) (map date (usage_log r))).
    { eapply Forall_impl; [| exact O]. intros d [c [Hin ->]].
      now apply (dates_bounded_by_latest calls). }
    split; [exact B|]. intros e Hin Hd.
    now apply (today_entry_is_last (today_of latest)).
  - intros c1 c2 m r R1 R2 D. unfold record_of, record_calls, record_call.
    cbn [fold_left]. rewrite !db_models_record_usage, R1, R2.
    cbn [fold_left]. fold (today_of c1) (today_of c2). rewrite <- D.
    rewrite record_model_get, String.eqb_refl, record_model_get, String.eqb_refl.
    intros E. injection E as <-.
    cbn [create_empty_data db_models dict_get touch new_record usage_log].
    rewrite log_today_empty, log_today_same. reflexivity.
Qed.

Lemma usage_log_one_entry_per_date_witness :
  let m := reference "checkpoint" "sd15.safetensors" in
  let l := reference "lora" "detail.safetensors" in
  let calls :=
    [ {| at_time := DateTime (Date 2026 10 31) 23 59 58 0;
         saved_at := DateTime (Date 2026 10 31) 23 59 59 0; refs := [m; l] |};
      {| at_time := DateTime (Date 2026 11 3) 9 0 0 0;
         saved_at := DateTime (Date 2026 11 3) 9 0 0 5; refs := [m] |};
      {| at_time := DateTime (Date 2026 11 3) 17 30 0 0;
         saved_at := DateTime (Date 2026 11 3) 17 30 0 5; refs := [m; m] |} ] in
  let data := record_calls calls (create_empty_data (DateTime (Date 2026 10 1) 8 0 0 0)) in
  dates_nondecreasing calls
  /\ (forall id r, record_of id data = Some r -> NoDup (map date (usage_log r)))
  /\ option_map usage_log (record_of "checkpoint/sd15.safetensors" data)
     = Some [ {| date := "2026-10-31"; count := 1 |};
              {| date := "2026-11-03"; count := 3 |} ].
Proof.
  intros m l calls data.
  assert (S : dates_nondecreasing calls) by (repeat constructor).
  split; [exact S|]. split; [| reflexivity].
  intros id r G.
  exact (proj1 (proj2
    (proj1 (usage_log_one_entry_per_date (DateTime (Date 2026 10 1) 8 0 0 0) calls S)
       id r G))).
Defined.

(** The scenario of the design document: the same reference recorded twice
    on one date. *)
Example record_twice_same_date :
  let m := reference "checkpoint" "sd15.safetensors" in
  let t1 := DateTime (Date 2026 11 3) 9 0 0 0 in
  let t2 := DateTime (Date 2026 11 3) 17 30 0 250000 in
  record_of "checkpoint/sd15.safetensors"
    (record_usage t2 t2 [m] (record_usage t1 t1 [m] (create_empty_data t1)))
  = Some {| r_category := "checkpoint"; r_name := "sd15.safetensors";
            path := "checkpoint/sd15.safetensors";
            first_used := "2026-11-03T09:00:00Z";
            last_used := "2026-11-03T17:30:00.250000Z";
            usage_count := 2;
            usage_log := [ {| date := "2026-11-03"; count := 2 |} ] |}.
Proof. reflexivity. Qed.

(** Without the assumption on the dates the log can hold a date twice: a
    clock that goes back makes a second entry for the earlier date. *)
Example clock_going_back_repeats_a_date :
  let m := reference "checkpoint" "sd15.safetensors" in
  let t1 := DateTime (Date 2026 11 3) 9 0 0 0 in
  let t2 := DateTime (Date 2026 11 4) 9 0 0 0 in
  option_map usage_log
    (record_of "checkpoint/sd15.safetensors"
       (record_usage t1 t1 [m]
          (record_usage t2 t2 [m] (record_usage t1 t1 [m] (create_empty_data t1)))))
  = Some [ {| date := "2026-11-03"; count := 1 |};
           {| date := "2026-11-04"; count := 1 |};
           {| date := "2026-11-03"; count := 1 |} ].
Proof. reflexivity. Qed.

(* ================================================================== *)
(** * Properties of queries *)
(* ================================================================== *)

Lemma insert_sorted_perm {A : Type} (before : A -> A -> bool) (x : A) (l : list A) :
  Permutation (insert_sorted before x l) (x :: l).
Proof.
  induction l as [| y rest IH]; simpl; [reflexivity|].
  destruct (before x y); [reflexivity|].
  rewrite IH. apply perm_swap.
Qed.

Lemma stable_sort_perm {A : Type} (before : A -> A -> bool) (l : list A) :
  Permutation (stable_sort before l) l.
Proof.
  induction l as [| x rest IH]; simpl; [reflexivity|].
  rewrite insert_sorted_perm. now constructor.
Qed.

Lemma py_sum_from (l : list Z) : forall acc, fold_left Z.add l acc = acc + fold_left Z.add l 0.
Proof.
  induction l as [| x rest IH]; intros acc; simpl; [lia|].
  rewrite (IH (acc + x)), (IH x). lia.
Qed.

Lemma py_sum_counts (log : list DailyUsageEntry) :
  py_sum (map count log) = total_count log.
Proof.
  unfold py_sum. induction log as [| e rest IH]; simpl; [reflexivity|].
  rewrite py_sum_from, IH. reflexivity.
Qed.

Lemma date_isoformat_nonempty (d : Datetime.date) : String.eqb (date_isoformat d) "" = false.
Proof.
  unfold date_isoformat.
  destruct (fixed_dec 4 (year d)) as [| c s] eqn:E; [| reflexivity].
  pose proof (fixed_dec_length 4 (year d)) as L. rewrite E in L. discriminate.
Qed.

(** The cutoff of a timeframe, when the date it names exists. *)
Lemma cutoff_date_of_window (now : datetime) (timeframe : string) :
  30 < toordinal (date_of now) <= MAXORDINAL ->
  cutoff_date_of now timeframe
  = Ok match window_days timeframe with
       | Some days => Some (cutoff_day now days)
       | None => None
       end.
Proof.
  intros [Lo Hi]. unfold cutoff_date_of, window_days, datetime_sub, date_sub, cutoff_day.
  destruct (String.eqb timeframe "week").
  - simpl.
    replace ((0 <? toordinal (date_of now) - 7) && (toordinal (date_of now) - 7 <=? MAXORDINAL))
      with true; [reflexivity|].
    symmetry. apply andb_true_iff. split; [apply Z.ltb_lt | apply Z.leb_le]; lia.
  - destruct (String.eqb timeframe "month"); [| reflexivity].
    simpl.
    replace ((0 <? toordinal (date_of now) - 30) && (toordinal (date_of now) - 30 <=? MAXORDINAL))
      with true; [reflexivity|].
    symmetry. apply andb_true_iff. split; [apply Z.ltb_lt | apply Z.leb_le]; lia.
Qed.

Lemma timeframe_count_of_expected (now : datetime) (timeframe : string)
    (r : ModelRecord) :
  timeframe_count_of
    match window_days timeframe with
    | Some days => Some (cutoff_day now days)
    | None => None
    end r
  = expected_timeframe_count now timeframe r.
Proof.
  unfold timeframe_count_of, expected_timeframe_count.
  destruct (window_days timeframe) as [days |]; [| reflexivity].
  unfold cutoff_day at 1. rewrite date_isoformat_nonempty. simpl.
  apply py_sum_counts.
Qed.

Lemma summaries_selected (now : datetime) (timeframe : string)
    (category : option string) (items : dict ModelRecord) :
  forall models_list,
  summaries category
    match window_days timeframe with
    | Some days => Some (cutoff_day now days)
    | None => None
    end items models_list
  = models_list ++ map (summary_of now timeframe) (selected category items).
Proof.
  induction items as [| [id r] rest IH]; intros models_list; simpl.
  - now rewrite app_nil_r.
  - destruct (filtered_out category r); simpl.
    + apply IH.
    + rewrite IH, <- app_assoc. simpl.
      unfold summary_of at 2. simpl. now rewrite timeframe_count_of_expected.
Qed.

(** C6.  With the clock on a date from 0001-01-31 on, [get_usage_data]
    returns, and its list holds exactly one summary for each record the
    category filter lets through, in the order the sort gives.  The
    [timeframe_count] of a summary is, for ["week"] and ["month"], the sum
    of the counts of the entries of the log whose date is on or after the
    date 7 and 30 days before the clock's; for any other timeframe it is
    the [usage_count] of the record.  Dates are compared as the code
    compares them, as text; for valid dates that is the order of the
    days. *)
Theorem timeframe_count_by_cutoff (now : datetime) (timeframe sort_by : string)
    (category : option string) (data : UsageDatabase) :
  30 < toordinal (date_of now) <= MAXORDINAL ->
  exists result,
    get_usage_data now timeframe sort_by category data = Ok result
    /\ Permutation (u_models result)
         (map (summary_of now timeframe) (selected category (db_models data)))
    /\ (forall r,
          expected_timeframe_count now "week" r
          = total_count (on_or_after (cutoff_day now 7) (usage_log r))
          /\ expected_timeframe_count now "month" r
             = total_count (on_or_after (cutoff_day now 30) (usage_log r))
          /\ expected_timeframe_count now "all" r = usage_count r)
    /\ (forall e log, In e (on_or_after (cutoff_day now 7) log)
          <-> In e log /\ date_le (cutoff_day now 7) (date e))
    /\ date_sub (date_of now) 7 = Ok (fromordinal (toordinal (date_of now) - 7))
    /\ date_sub (date_of now) 30 = Ok (fromordinal (toordinal (date_of now) - 30))
    /\ (valid_date (date_of now) = true ->
        forall d, valid_date d = true ->
        (date_le (cutoff_day now 7) (date_isoformat d)
         <-> toordinal (date_of now) - 7 <= toordinal d)
        /\ (date_le (cutoff_day now 30) (date_isoformat d)
            <-> toordinal (date_of now) - 30 <= toordinal d)).
Proof.
  intros Hnow. unfold get_usage_data.
  rewrite (cutoff_date_of_window now timeframe Hnow). cbn [Py.bind].
  rewrite summaries_selected. cbn [app].
  eexists. split; [reflexivity|]. split; [| split; [| split; [| split; [| split]]]].
  - cbn [u_models].
    destruct (String.eqb sort_by "usage_count"); [apply stable_sort_perm|].
    destruct (String.eqb sort_by "name"); apply stable_sort_perm.
  - intros r. repeat split.
  - intros e log. unfold on_or_after. rewrite filter_In. reflexivity.
  - unfold date_sub.
    replace ((0 <? toordinal (date_of now) - 7) && (toordinal (date_of now) - 7 <=? MAXORDINAL))
      with true; [reflexivity|].
    symmetry. apply andb_true_iff. split; [apply Z.ltb_lt | apply Z.leb_le]; lia.
  - unfold date_sub.
    replace ((0 <? toordinal (date_of now) - 30) && (toordinal (date_of now) - 30 <=? MAXORDINAL))
      with true; [reflexivity|].
    symmetry. apply andb_true_iff. split; [apply Z.ltb_lt | apply Z.leb_le]; lia.
  - intros Vn d Vd. split; apply cutoff_day_in_days; try assumption; lia.
Qed.

Lemma timeframe_count_by_cutoff_witness :
  (30 < toordinal (date_of sample_now) <= MAXORDINAL)
  /\ exists result,
       get_usage_data sample_now "week" "usage_count" None sample_data = Ok result
       /\ Permutation (u_models result)
            (map (summary_of sample_now "week") (selected None (db_models sample_data)))
       /\ map timeframe_count (u_models result) = [5]
       /\ cutoff_day sample_now 7 = "2026-10-27".
Proof.
  assert (H : 30 < toordinal (date_of sample_now) <= MAXORDINAL)
    by (vm_compute; split; [reflexivity | discriminate]).
  split; [exact H|].
  destruct (timeframe_count_by_cutoff sample_now "week" "usage_count" None sample_data H)
    as [result [E [P _]]].
  exists result. split; [exact E|]. split; [exact P|].
  assert (E' : get_usage_data sample_now "week" "usage_count" None sample_data
               = Ok {| u_models :=
                         [ summary_of sample_now "week"
                             ("checkpoint/sd15.safetensors", sample_record) ];
                       u_metadata := db_metadata sample_data;
                       u_timeframe := "week";
                       u_sort_by := "usage_count" |}) by reflexivity.
  rewrite E' in E. injection E as <-. split; reflexivity.
Defined.

(** The scenarios of the design document, and the other timeframes. *)
Example week_counts_only_recent_entry :
  option_map (fun r => map timeframe_count (u_models r))
    match get_usage_data sample_now "week" "last_used" None sample_data with
    | Ok r => Some r
    | Raise _ => None
    end = Some [5].
Proof. reflexivity. Qed.

Example month_and_all :
  expected_timeframe_count sample_now "month" sample_record = 5
  /\ expected_timeframe_count sample_now "all" sample_record = 8.
Proof. split; reflexivity. Qed.

(* ================================================================== *)
(** * Properties of retention *)
(* ================================================================== *)

Lemma on_or_after_subsequence (cutoff : string) (log : list DailyUsageEntry) :
  subsequence (on_or_after cutoff log) log.
Proof.
  unfold on_or_after. induction log as [| e rest IH]; simpl; [constructor|].
  destruct (String.leb cutoff (date e)); now constructor.
Qed.

Lemma on_or_after_In (cutoff : string) (log : list DailyUsageEntry)
    (e : DailyUsageEntry) :
  In e (on_or_after cutoff log) <-> In e log /\ date_le cutoff (date e).
Proof. unfold on_or_after. rewrite filter_In. reflexivity. Qed.

(** C7, as the code has it.  For a positive [max_days] that does not reach
    back before 0001-01-01, [cleanup_old_usage_logs] returns the document
    with the log of every record cut to its entries on or after the date
    [max_days] days before the clock's, in their order, and with the keys,
    the order and every other field of the records, the version and the
    metadata as they were.  Dates are compared as the code compares them,
    as text; for valid dates that is the order of the days. *)
Theorem cleanup_filters_logs (now : datetime) (data : UsageDatabase) (max_days : Z) :
  0 < max_days ->
  max_days < toordinal (date_of now) <= MAXORDINAL ->
  exists data',
    cleanup_old_usage_logs now data max_days = Ok data'
    /\ db_models data'
       = map (fun item =>
                (fst item,
                 with_log (snd item)
                   (on_or_after (cutoff_day now max_days) (usage_log (snd item)))))
           (db_models data)
    /\ db_version data' = db_version data
    /\ db_metadata data' = db_metadata data
    /\ (forall id r', dict_get id (db_models data') = Some r' ->
          exists r, dict_get id (db_models data) = Some r
            /\ usage_log r' = on_or_after (cutoff_day now max_days) (usage_log r)
            /\ subsequence (usage_log r') (usage_log r)
            /\ (forall e, In e (usage_log r')
                  <-> In e (usage_log r) /\ date_le (cutoff_day now max_days) (date e))
            /\ usage_count r' = usage_count r
            /\ first_used r' = first_used r
            /\ last_used r' = last_used r
            /\ r_category r' = r_category r
            /\ r_name r' = r_name r
            /\ path r' = path r)
    /\ (valid_date (date_of now) = true ->
        forall d, valid_date d = true ->
        date_le (cutoff_day now max_days) (date_isoformat d)
        <-> toordinal (date_of now) - max_days <= toordinal d).
Proof.
  intros Hpos [Hlo Hhi]. unfold cleanup_old_usage_logs, timedelta, date_sub.
  assert (MAX : MAXORDINAL = 3652059) by reflexivity.
  replace (Z.abs max_days >? 999999999) with false
    by (symmetry; rewrite Z.gtb_ltb; apply Z.ltb_ge; lia).
  cbn [Py.bind].
  replace ((0 <? toordinal (date_of now) - max_days)
           && (toordinal (date_of now) - max_days <=? MAXORDINAL)) with true
    by (symmetry; apply andb_true_iff; split; [apply Z.ltb_lt | apply Z.leb_le]; lia).
  cbn [Py.bind]. eexists. split; [reflexivity|]. cbn [db_models db_version db_metadata].
  fold (cutoff_day now max_days).
  split; [reflexivity|]. split; [reflexivity|]. split; [reflexivity|].
  split; [| intros Vn d Vd; apply cutoff_day_in_days; try assumption; lia].
  intros id r'. generalize (db_models data) as items.
  induction items as [| [k r] rest IH]; simpl; [discriminate|].
  destruct (String.eqb id k); [| exact IH].
  intros E. injection E as <-. exists r. cbn [usage_log keep_recent usage_count
    first_used last_used r_category r_name path].
  fold (on_or_after (cutoff_day now max_days) (usage_log r)).
  split; [reflexivity|]. split; [reflexivity|].
  split; [apply on_or_after_subsequence|].
  split; [intros e; apply on_or_after_In|].
  repeat split.
Qed.

(** C7, as it is worded, fails for a [max_days] that reaches back before
    the first date of the calendar: the subtraction raises. *)
Lemma cleanup_raises_on_distant_cutoff :
  cleanup_old_usage_logs sample_now sample_data 1000000 = Raise OverflowError
  /\ toordinal (date_of sample_now) = 739923.
Proof. split; reflexivity. Qed.

Lemma cleanup_filters_logs_witness :
  (0 < 30 /\ 30 < toordinal (date_of sample_now) <= MAXORDINAL)
  /\ exists data',
       cleanup_old_usage_logs sample_now sample_data 30 = Ok data'
       /\ map (fun item => (usage_count (snd item), usage_log (snd item))) (db_models data')
          = [(8, [ {| date := "2026-11-01"; count := 5 |} ])].
Proof.
  assert (H : 30 < toordinal (date_of sample_now) <= MAXORDINAL)
    by (vm_compute; split; [reflexivity | discriminate]).
  split; [split; [reflexivity | exact H]|].
  destruct (cleanup_filters_logs sample_now sample_data 30 eq_refl H)
    as [data' [E [Hm _]]].
  exists data'. split; [exact E|]. rewrite Hm. reflexivity.
Defined.

(* ================================================================== *)
(** * Properties of the storage layer *)
(* ================================================================== *)

(** ** Migration *)

Lemma migrate_schema_current (d : dict pyval) (w : world) :
  integer_version d = Some SCHEMA_VERSION ->
  migrate_schema (VDict d) w = (Ok (VDict d), w).
Proof.
  unfold integer_version, migrate_schema, bindM, lift, py_get.
  destruct (dict_get "version" d) as [[| | z | | | |] |]; try discriminate.
  intros E. injection E as ->. reflexivity.
Qed.



Lemma same_files_refl (w : world) : same_files w w.
Proof. repeat split. Qed.


Lemma utcnow_same_files (w : world) : same_files w (snd (utcnow w)).
Proof. repeat split. Qed.





(** ** The lock *)

Lemma enter_loop_free (fuel : nat) (start : Z) (w : world) :
  files w lock_path = None ->
  enter_loop (S fuel) start w = Some (write_file lock_path (Malformed "") w).
Proof. intros H. cbn [enter_loop]. now rewrite H. Qed.

(** The loop of [__enter__] ends within the rounds it is given: a marker
    that is stale is removed and the next round takes the lock, a marker
    that is not is waited for until the timeout. *)
Lemma enter_loop_fuel (fuel : nat) :
  forall (start : Z) (w : world),
  (Z.to_nat (start + LOCK_TIMEOUT + 1 - time w) + 2 <= fuel)%nat ->
  enter_loop fuel start w <> None.
Proof.
  induction fuel as [| fuel IH]; intros start w Hfuel; [lia|].
  cbn [enter_loop]. destruct (files w lock_path) as [marker |]; [| discriminate].
  destruct (time w - mtime marker >? LOCK_TIMEOUT).
  - destruct fuel as [| fuel']; [lia|].
    rewrite enter_loop_free; [discriminate|].
    cbn. reflexivity.
  - destruct (time w - start >? LOCK_TIMEOUT) eqn:E; [discriminate|].
    apply IH. cbn [sleep_tenth snd time].
    rewrite Z.gtb_ltb in E. apply Z.ltb_ge in E. unfold LOCK_TIMEOUT in *. lia.
Qed.

Lemma FileLock_enter_runs (w : world) :
  enter_loop 104 (time w) w <> None.
Proof. apply enter_loop_fuel. unfold LOCK_TIMEOUT. lia. Qed.

Lemma FileLock_enter_free (w : world) :
  files w lock_path = None ->
  FileLock_enter w = write_file lock_path (Malformed "") w.
Proof.
  intros H. unfold FileLock_enter.
  change 104%nat with (S 103). now rewrite enter_loop_free.
Qed.

(** With the marker free, the body runs between its creation and its
    removal. *)
Lemma with_FileLock_free {A : Type} (body : M A) (w : world) :
  files w lock_path = None ->
  with_FileLock body w
  = (fst (body (snd (write_file lock_path (Malformed "") w))),
     snd (unlink lock_path (snd (body (snd (write_file lock_path (Malformed "") w)))))).
Proof.
  intros H. unfold with_FileLock. rewrite (FileLock_enter_free w H).
  cbn [write_file fst snd]. destruct (body _) as [r w2]. reflexivity.
Qed.

(** ** Saving and loading *)

Lemma save_data_free (data : UsageDatabase) (w : world) :
  files w lock_path = None ->
  save_data data w
  = (Ok (stamp_last_updated (reading w 0) data),
     saved (stamp_last_updated (reading w 0) data) w).
Proof.
  intros H. unfold save_data, bindM at 1. cbn [utcnow].
  unfold try_except, bindM at 1.
  rewrite with_FileLock_free by exact H.
  reflexivity.
Qed.

(** The files after a save with the marker free. *)
Lemma saved_files (data : UsageDatabase) (w : world) :
  files (saved data w) storage_path = Some (File (JsonText (doc_json data)) (time w))
  /\ files (saved data w) temp_path = None
  /\ files (saved data w) lock_path = None
  /\ (forall p, p <> storage_path -> p <> temp_path -> p <> lock_path ->
        files (saved data w) p = files w p)
  /\ printed (saved data w) = printed w
  /\ time (saved data w) = time w.
Proof.
  unfold saved, rename. cbn [utcnow write_file unlink with_files snd fst files time
    printed utc reads].
  change (String.eqb temp_path temp_path) with true. cbn iota.
  cbn [snd with_files files printed time].
  repeat split.
  intros p N1 N2 N3.
  apply String.eqb_neq in N1, N2, N3. now rewrite N1, N2, N3.
Qed.

(** A marker that is not from the future is waited for until it is more
    than ten seconds old and then removed. *)
Lemma enter_loop_old_marker (n : nat) :
  forall (fuel : nat) (start : Z) (w : world) (marker : file),
  files w lock_path = Some marker ->
  mtime marker <= start <= time w ->
  Z.to_nat (mtime marker + LOCK_TIMEOUT + 1 - time w) = n ->
  (n + 2 <= fuel)%nat ->
  exists w',
    enter_loop fuel start w = Some (Ok tt, w')
    /\ time w' = Z.max (time w) (mtime marker + LOCK_TIMEOUT + 1)
    /\ files w' lock_path = Some (File (Malformed "") (time w'))
    /\ (forall p, p <> lock_path -> files w' p = files w p)
    /\ utc w' = utc w /\ reads w' = reads w /\ printed w' = printed w.
Proof.
  unfold LOCK_TIMEOUT.
  induction n as [| n IH]; intros fuel start w marker Hm [Hs Ht] Hn Hfuel.
  - destruct fuel as [| fuel]; [lia|].
    cbn [enter_loop]. rewrite Hm. unfold LOCK_TIMEOUT.
    replace (time w - mtime marker >? 100) with true
      by (symmetry; rewrite Z.gtb_ltb; apply Z.ltb_lt; lia).
    destruct fuel as [| fuel]; [lia|].
    rewrite enter_loop_free by (cbn; reflexivity).
    eexists. split; [reflexivity|]. cbn. split; [lia|].
    split; [reflexivity|]. split; [| repeat split].
    intros p Np. apply String.eqb_neq in Np.
    change (String.eqb p "usage_data.json.lock") with (String.eqb p lock_path).
    now rewrite Np.
  - destruct fuel as [| fuel]; [lia|].
    cbn [enter_loop]. rewrite Hm. unfold LOCK_TIMEOUT.
    replace (time w - mtime marker >? 100) with false
      by (symmetry; rewrite Z.gtb_ltb; apply Z.ltb_ge; lia).
    replace (time w - start >? 100) with false
      by (symmetry; rewrite Z.gtb_ltb; apply Z.ltb_ge; lia).
    destruct (IH fuel start (snd (sleep_tenth w)) marker) as [w' [E [T [L [O [U [R P]]]]]]].
    + exact Hm.
    + cbn. lia.
    + cbn. lia.
    + lia.
    + exists w'. split; [exact E|]. cbn in T. split; [lia|].
      split; [exact L|]. split; [exact O|]. repeat split; assumption.
Qed.

(** A marker from the future is never stale: the wait ends with the
    timeout. *)
Lemma enter_loop_future_marker (n : nat) :
  forall (fuel : nat) (start : Z) (w : world) (marker : file),
  files w lock_path = Some marker ->
  start < mtime marker ->
  start <= time w <= start + LOCK_TIMEOUT + 1 ->
  Z.to_nat (start + LOCK_TIMEOUT + 1 - time w) = n ->
  (n + 1 <= fuel)%nat ->
  exists w',
    enter_loop fuel start w = Some (Raise TimeoutError, w')
    /\ time w' = start + LOCK_TIMEOUT + 1
    /\ files w' = files w
    /\ utc w' = utc w /\ reads w' = reads w /\ printed w' = printed w.
Proof.
  unfold LOCK_TIMEOUT.
  induction n as [| n IH]; intros fuel start w marker Hm Hs Ht Hn Hfuel.
  - destruct fuel as [| fuel]; [lia|].
    cbn [enter_loop]. rewrite Hm. unfold LOCK_TIMEOUT.
    replace (time w - mtime marker >? 100) with false
      by (symmetry; rewrite Z.gtb_ltb; apply Z.ltb_ge; lia).
    replace (time w - start >? 100) with true
      by (symmetry; rewrite Z.gtb_ltb; apply Z.ltb_lt; lia).
    exists w. split; [reflexivity|]. split; [lia|]. repeat split.
  - destruct fuel as [| fuel]; [lia|].
    cbn [enter_loop]. rewrite Hm. unfold LOCK_TIMEOUT.
    replace (time w - mtime marker >? 100) with false
      by (symmetry; rewrite Z.gtb_ltb; apply Z.ltb_ge; lia).
    replace (time w - start >? 100) with false
      by (symmetry; rewrite Z.gtb_ltb; apply Z.ltb_ge; lia).
    destruct (IH fuel start (snd (sleep_tenth w)) marker) as [w' [E [T [F [U [R P]]]]]].
    + exact Hm.
    + exact Hs.
    + cbn. lia.
    + cbn. lia.
    + lia.
    + exists w'. split; [exact E|]. split; [exact T|]. repeat split; assumption.
Qed.

(** [__enter__] with no marker from the future: the lock is taken. *)
Lemma FileLock_enter_takes (w : world) :
  (forall marker, files w lock_path = Some marker -> mtime marker <= time w) ->
  exists w1,
    FileLock_enter w = (Ok tt, w1)
    /\ utc w1 = utc w /\ reads w1 = reads w /\ printed w1 = printed w
    /\ (forall p, p <> lock_path -> files w1 p = files w p)
    /\ files w1 lock_path = Some (File (Malformed "") (time w1))
    /\ time w1 = match files w lock_path with
                 | Some marker => Z.max (time w) (mtime marker + LOCK_TIMEOUT + 1)
                 | None => time w
                 end.
Proof.
  intros Hm. unfold FileLock_enter. destruct (files w lock_path) as [marker |] eqn:M.
  - destruct (enter_loop_old_marker
                (Z.to_nat (mtime marker + LOCK_TIMEOUT + 1 - time w)) 104 (time w) w marker
                M ltac:(pose proof (Hm marker eq_refl); lia) eq_refl)
      as [w' [E [T [L [O [U [R P]]]]]]].
    { pose proof (Hm marker eq_refl). unfold LOCK_TIMEOUT. lia. }
    rewrite E. exists w'. split; [reflexivity|].
    split; [exact U|]. split; [exact R|]. split; [exact P|]. split; [exact O|].
    split; [exact L | exact T].
  - change 104%nat with (S 103). rewrite enter_loop_free by exact M.
    eexists. split; [reflexivity|]. cbn. repeat split.
    intros p Np. apply String.eqb_neq in Np.
    change (String.eqb p "usage_data.json.lock") with (String.eqb p lock_path).
    now rewrite Np.
Qed.

(** [__enter__] with a marker from the future: the timeout. *)
Lemma FileLock_enter_times_out (w : world) (marker : file) :
  files w lock_path = Some marker ->
  time w < mtime marker ->
  exists w1,
    FileLock_enter w = (Raise TimeoutError, w1)
    /\ utc w1 = utc w /\ reads w1 = reads w /\ printed w1 = printed w
    /\ files w1 = files w
    /\ time w1 = time w + LOCK_TIMEOUT + 1.
Proof.
  intros M Future. unfold FileLock_enter.
  destruct (enter_loop_future_marker
              (Z.to_nat (time w + LOCK_TIMEOUT + 1 - time w)) 104 (time w) w marker
              M Future ltac:(unfold LOCK_TIMEOUT; lia) eq_refl)
    as [w' [E [T [F [U [R P]]]]]]; [unfold LOCK_TIMEOUT; lia|].
  rewrite E. exists w'. split; [reflexivity|].
  split; [exact U|]. split; [exact R|]. split; [exact P|]. split; [exact F | exact T].
Qed.

(** [save_data] with no marker from the future: the document is stamped
    and written. *)
Lemma save_data_takes (data : UsageDatabase) (w : world) :
  (forall marker, files w lock_path = Some marker -> mtime marker <= time w) ->
  exists w',
    save_data data w = (Ok (stamp_last_updated (reading w 0) data), w')
    /\ (forall p, p <> storage_path -> p <> temp_path -> p <> lock_path ->
          files w' p = files w p)
    /\ files w' storage_path
       = Some (File (JsonText (doc_json (stamp_last_updated (reading w 0) data))) (time w'))
    /\ files w' temp_path = None
    /\ files w' lock_path = None
    /\ printed w' = printed w
    /\ utc w' = utc w
    /\ reads w' = S (reads w)
    /\ time w' = match files w lock_path with
                 | Some marker => Z.max (time w) (mtime marker + LOCK_TIMEOUT + 1)
                 | None => time w
                 end.
Proof.
  intros Hm.
  destruct (FileLock_enter_takes (snd (utcnow w)) Hm) as [w1 [E [U [R [P [O [_ T]]]]]]].
  cbn [utcnow snd files time utc reads printed] in *.
  unfold save_data, bindM at 1. cbn [utcnow].
  unfold try_except, bindM at 1, with_FileLock. rewrite E.
  unfold bindM at 1. cbn [write_file]. unfold rename.
  cbn [files with_files]. change (String.eqb temp_path temp_path) with true. cbn iota.
  cbn [FileLock_exit unlink snd fst ret]. eexists. split; [reflexivity|].
  cbn [files with_files printed time utc reads].
  split; [| repeat split; assumption].
  intros p N1 N2 N3. rewrite <- (O p N3).
  apply String.eqb_neq in N1, N2, N3. now rewrite N1, N2, N3.
Qed.

Lemma corrupted_path_other (ts p : string) :
  String.prefix "usage_data.corrupted_" p = false ->
  String.eqb p (corrupted_path ts) = false.
Proof.
  intros H. destruct (String.eqb_spec p (corrupted_path ts)) as [-> |]; [| reflexivity].
  unfold corrupted_path in H. destruct ts; simpl in H; discriminate H.
Qed.

Lemma backup_corrupted_file_present (w : world) (f : file) :
  files w storage_path = Some f ->
  backup_corrupted_file w = (Ok tt, quarantined w).
Proof.
  intros H. unfold backup_corrupted_file, bindM at 1, exists_. rewrite H.
  unfold quarantined, bindM, rename. cbn [utcnow snd fst files]. now rewrite H.
Qed.

(** The files after the data file was moved aside: it lies under the new
    name and no longer under its own. *)
Lemma quarantined_world (w : world) (f : file) :
  files w storage_path = Some f ->
  quarantined w
  = {| files :=
         fun q =>
           if String.eqb q (corrupted_path (strftime_compact (reading w 0))) then Some f
           else if String.eqb q storage_path then None
           else files w q;
       utc := utc w;
       reads := S (reads w);
       time := time w;
       printed :=
         printed w
         ++ [BackedUpCorrupted (corrupted_path (strftime_compact (reading w 0)))] |}.
Proof.
  intros H. unfold quarantined, rename. cbn [utcnow snd fst files]. now rewrite H.
Qed.

Lemma load_data_malformed (w : world) (raw : string) (mt : Z) :
  files w storage_path = Some (File (Malformed raw) mt) ->
  files w lock_path = None ->
  load_data w = (Ok (doc_json (recovered w)), after_recovery w).
Proof.
  intros Hs Hl. unfold load_data, bindM at 1, exists_. rewrite Hs. cbn [negb].
  unfold try_except, bindM at 1.
  rewrite with_FileLock_free by exact Hl.
  assert (R : json_load storage_path (snd (write_file lock_path (Malformed "") w))
              = (Raise JSONDecodeError, snd (write_file lock_path (Malformed "") w))).
  { unfold json_load. cbn. rewrite Hs. reflexivity. }
  rewrite R. cbn [fst snd]. fold (read_failed w). cbn [caught_as_corrupted].
  unfold bindM at 1. cbn [print].
  unfold bindM at 1.
  erewrite backup_corrupted_file_present.
  2:{ cbn. rewrite Hs. reflexivity. }
  unfold bindM at 1. cbn [utcnow]. unfold bindM at 1.
  rewrite save_data_free.
  2:{ rewrite (quarantined_world _ (File (Malformed raw) mt)) by (cbn; now rewrite Hs).
      cbn [utcnow snd files]. rewrite corrupted_path_other by reflexivity.
      reflexivity. }
  reflexivity.
Qed.

(** The recovery of [load_data] from the world [w1] in which the lock was
    taken: the read fails, the file is moved aside and a fresh document is
    saved. *)
Lemma load_data_recovers (w w1 : world) (raw : string) (mt : Z) :
  files w storage_path = Some (File (Malformed raw) mt) ->
  FileLock_enter w = (Ok tt, w1) ->
  utc w1 = utc w -> reads w1 = reads w -> printed w1 = printed w ->
  (forall p, p <> lock_path -> files w1 p = files w p) ->
  exists data w',
    load_data w = (Ok (doc_json data), w')
    /\ data = {| db_version := SCHEMA_VERSION;
                 db_models := [];
                 db_metadata := {| tracking_started := iso_z (reading w 1);
                                   last_updated := iso_z (reading w 2) |} |}
    /\ files w' (corrupted_path (strftime_compact (reading w 0)))
       = Some (File (Malformed raw) mt)
    /\ files w' storage_path = Some (File (JsonText (doc_json data)) (time w'))
    /\ files w' lock_path = None
    /\ files w' temp_path = None
    /\ printed w'
       = printed w ++ [WarnCorrupted JSONDecodeError;
                       BackedUpCorrupted (corrupted_path (strftime_compact (reading w 0)))]
    /\ time w' = time w1.
Proof.
  intros Hs E U R P O.
  set (w3 := snd (print (WarnCorrupted JSONDecodeError) (snd (unlink lock_path w1)))).
  assert (S3 : files w3 storage_path = Some (File (Malformed raw) mt)).
  { cbn. rewrite O by discriminate. exact Hs. }
  pose proof (quarantined_world w3 _ S3) as Q.
  assert (L5 : files (snd (utcnow (quarantined w3))) lock_path = None).
  { rewrite Q. cbn [utcnow snd files]. rewrite corrupted_path_other by reflexivity.
    reflexivity. }
  set (d := stamp_last_updated (reading (snd (utcnow (quarantined w3))) 0)
              (create_empty_data (reading (quarantined w3) 0))).
  assert (L : load_data w = (Ok (doc_json d), saved d (snd (utcnow (quarantined w3))))).
  { unfold load_data, bindM at 1, exists_. rewrite Hs. cbn [negb].
    unfold try_except, bindM at 1, with_FileLock. rewrite E.
    assert (J : json_load storage_path w1 = (Raise JSONDecodeError, w1)).
    { unfold json_load. rewrite O by discriminate. rewrite Hs. reflexivity. }
    rewrite J. cbn [fst snd FileLock_exit]. cbn [caught_as_corrupted].
    unfold bindM at 1. cbn [print]. unfold bindM at 1.
    erewrite backup_corrupted_file_present by exact S3.
    unfold bindM at 1. cbn [utcnow]. unfold bindM at 1.
    rewrite save_data_free by exact L5. reflexivity. }
  destruct (saved_files d (snd (utcnow (quarantined w3)))) as [Fs [Ft [Fl [Fo [Pr Tm]]]]].
  exists d, (saved d (snd (utcnow (quarantined w3)))).
  split; [exact L|].
  assert (R0 : reading w3 0 = reading w 0).
  { unfold reading, w3. cbn [print unlink snd utc reads with_files]. now rewrite U, R. }
  split.
  { unfold d, stamp_last_updated, create_empty_data, reading. rewrite Q.
    cbn [utcnow snd utc reads db_version db_models db_metadata tracking_started].
    unfold w3. cbn [print unlink snd utc reads with_files]. rewrite U, R.
    replace (0 + S (S (reads w)))%nat with (2 + reads w)%nat by lia.
    replace (0 + S (reads w))%nat with (1 + reads w)%nat by lia. reflexivity. }
  split.
  { rewrite Fo.
    - rewrite Q. cbn [utcnow snd files]. rewrite R0. now rewrite String.eqb_refl.
    - intros X. pose proof (corrupted_path_other (strftime_compact (reading w 0))
                              storage_path eq_refl) as N.
      rewrite <- X, String.eqb_refl in N. discriminate.
    - intros X. pose proof (corrupted_path_other (strftime_compact (reading w 0))
                              temp_path eq_refl) as N.
      rewrite <- X, String.eqb_refl in N. discriminate.
    - intros X. pose proof (corrupted_path_other (strftime_compact (reading w 0))
                              lock_path eq_refl) as N.
      rewrite <- X, String.eqb_refl in N. discriminate. }
  split; [now rewrite Tm|]. split; [exact Fl|]. split; [exact Ft|].
  split.
  { rewrite Pr, Q. cbn [utcnow snd printed]. rewrite R0. unfold w3.
    cbn [print unlink snd printed with_files]. rewrite P. now rewrite <- app_assoc. }
  rewrite Tm, Q. cbn [utcnow snd time]. unfold w3. reflexivity.
Qed.

(** C8, for text that is not JSON.  When the data file holds text that
    is not JSON and there is no lock marker from the future (none at all,
    or one left behind, which is waited for and removed), [load_data]
    returns a fresh empty document of the current schema version, with no
    models and with the clock's readings as its timestamps; the file it
    found lies under the name with [corrupted_] and the time of the
    clock, the data file holds the fresh document, no marker and no
    temporary file are left, and the two lines of the recovery were
    printed. *)
Theorem load_quarantines_malformed_json (w : world) (raw : string) (mt : Z) :
  files w storage_path = Some (File (Malformed raw) mt) ->
  (forall marker, files w lock_path = Some marker -> mtime marker <= time w) ->
  exists data w',
    load_data w = (Ok (doc_json data), w')
    /\ data = {| db_version := SCHEMA_VERSION;
                 db_models := [];
                 db_metadata := {| tracking_started := iso_z (reading w 1);
                                   last_updated := iso_z (reading w 2) |} |}
    /\ files w' (corrupted_path (strftime_compact (reading w 0)))
       = Some (File (Malformed raw) mt)
    /\ files w' storage_path = Some (File (JsonText (doc_json data)) (time w'))
    /\ files w' lock_path = None
    /\ files w' temp_path = None
    /\ printed w'
       = printed w ++ [WarnCorrupted JSONDecodeError;
                       BackedUpCorrupted (corrupted_path (strftime_compact (reading w 0)))]
    /\ time w <= time w' <= time w + LOCK_TIMEOUT + 1.
Proof.
  intros Hs Hm.
  destruct (FileLock_enter_takes w Hm) as [w1 [E [U [R [P [O [_ T]]]]]]].
  destruct (load_data_recovers w w1 raw mt Hs E U R P O)
    as [data [w' [L [D [C [S [Lk [Tp [Pr Tm]]]]]]]]].
  exists data, w'. split; [exact L|]. split; [exact D|]. split; [exact C|].
  split; [exact S|]. split; [exact Lk|]. split; [exact Tp|]. split; [exact Pr|].
  rewrite Tm, T. unfold LOCK_TIMEOUT.
  destruct (files w lock_path) as [marker |] eqn:M; [| lia].
  pose proof (Hm marker eq_refl). lia.
Qed.

Lemma load_quarantines_malformed_json_witness :
  let w := {| files := fun p =>
                         if String.eqb p storage_path
                         then Some (File (Malformed "{version: 1, ") 0)
                         else if String.eqb p lock_path
                              then Some (File (Malformed "") 20) else None;
              utc := fun _ => DateTime (Date 2026 11 3) 12 0 0 0;
              reads := 0; time := 50; printed := [] |} in
  exists data,
    fst (load_data w) = Ok (doc_json data)
    /\ db_version data = SCHEMA_VERSION
    /\ files (snd (load_data w)) "usage_data.corrupted_20261103_120000.json"
       = Some (File (Malformed "{version: 1, ") 0)
    /\ time (snd (load_data w)) = 121.
Proof.
  intros w.
  destruct (load_quarantines_malformed_json w "{version: 1, " 0 eq_refl)
    as [data [w' [E [D [Q _]]]]].
  { intros marker M. cbn in M. injection M as <-. cbn. lia. }
  exists data. split; [now rewrite E|]. split; [now rewrite D|].
  split; [now rewrite E|]. vm_compute. reflexivity.
Defined.

(** C8 fails on other corrupted files: only text that is not JSON is
    caught.  A file that holds JSON which is no document (here a list),
    and a file that is not UTF-8, make [load_data] raise to its caller,
    and the file stays where it was. *)
Lemma load_raises_on_other_corruption :
  (fst (load_data (only_data_file (JsonText (VList [])))) = Raise AttributeError
   /\ files (snd (load_data (only_data_file (JsonText (VList []))))) storage_path
      = Some (File (JsonText (VList [])) 0))
  /\ (fst (load_data (only_data_file (Undecodable "caf"))) = Raise UnicodeDecodeError
      /\ files (snd (load_data (only_data_file (Undecodable "caf")))) storage_path
         = Some (File (Undecodable "caf") 0)).
Proof. repeat split; vm_compute; reflexivity. Qed.



Example migrate_future_version :
  fst (migrate_schema (VDict [("version", VInt 7); ("models", VDict [])])
         (only_data_file (Malformed "x")))
  = Ok (VDict [("version", VInt 1); ("models", VDict [])]).
Proof. reflexivity. Qed.

Example migrate_missing_version :
  fst (migrate_schema (VDict [("models", VDict [("lora/a", VDict [("last_used", VStr "t")])])])
         (only_data_file (Malformed "x")))
  = Ok (VDict [("models",
                VDict [("lora/a", VDict [("last_used", VStr "t");
                                         ("usage_log", VList []);
                                         ("first_used", VStr "t")])]);
               ("metadata", VDict [("tracking_started", VStr "2026-11-03T12:00:00Z");
                                   ("last_updated", VStr "2026-11-03T12:00:00Z")]);
               ("version", VInt 1)]).
Proof. reflexivity. Qed.

Example migrate_version_text :
  fst (migrate_schema (VDict [("version", VStr "2")]) (only_data_file (Malformed "x")))
  = Raise TypeError.
Proof. reflexivity. Qed.

(* ================================================================== *)
(** * More on recording *)
(* ================================================================== *)

Lemma total_count_app (l1 l2 : list DailyUsageEntry) :
  total_count (l1 ++ l2) = total_count l1 + total_count l2.
Proof. induction l1 as [| e l1 IH]; simpl; [reflexivity | rewrite IH; lia]. Qed.

(** Every recording adds one to the counts of the log. *)
Lemma total_count_log_today (today : string) (log : list DailyUsageEntry) :
  total_count (log_today today log) = total_count log + 1.
Proof.
  unfold log_today.
  destruct (last_entry_cases log) as [[-> ->] | [l [e [-> ->]]]]; [reflexivity|].
  destruct (String.eqb (date e) today).
  - rewrite removelast_last, !total_count_app. simpl. lia.
  - rewrite total_count_app. simpl. lia.
Qed.

(** A property of records that a new record has and [touch] keeps holds
    of every record after any calls on an empty document. *)
Section RecordInvariant.
Variable P : ModelRecord -> Prop.
Hypothesis P_new : forall now_iso m, P (new_record now_iso m).
Hypothesis P_touch : forall now_iso today r, P r -> P (touch now_iso today r).

Lemma record_model_keeps (now_iso today : string) (ms : dict ModelRecord) (m : model) :
  (forall id r, dict_get id ms = Some r -> P r) ->
  forall id r, dict_get id (record_model now_iso today ms m) = Some r -> P r.
Proof.
  intros H id r. rewrite record_model_get.
  destruct (String.eqb id (model_id m)); [| apply H].
  intros E. injection E as <-. apply P_touch.
  destruct (dict_get (model_id m) ms) as [r0 |] eqn:G; [now apply (H (model_id m)) | apply P_new].
Qed.

Lemma record_models_keep (now_iso today : string) (l : list model) :
  forall ms,
  (forall id r, dict_get id ms = Some r -> P r) ->
  forall id r, dict_get id (fold_left (record_model now_iso today) l ms) = Some r -> P r.
Proof.
  induction l as [| m rest IH]; intros ms H; simpl; [exact H|].
  apply IH. now apply record_model_keeps.
Qed.

Lemma record_usage_keeps (now saved : datetime) (l : list model) (data : UsageDatabase) :
  (forall id r, record_of id data = Some r -> P r) ->
  forall id r, record_of id (record_usage now saved l data) = Some r -> P r.
Proof.
  unfold record_of. rewrite db_models_record_usage. apply record_models_keep.
Qed.

Lemma record_calls_keep (calls : list call) :
  forall data,
  (forall id r, record_of id data = Some r -> P r) ->
  forall id r, record_of id (record_calls calls data) = Some r -> P r.
Proof.
  induction calls as [| c rest IH]; intros data H; simpl; [exact H|].
  apply IH. unfold record_call. now apply record_usage_keeps.
Qed.
End RecordInvariant.

(** X1.  After any sequence of [record_usage] calls on an empty document,
    whatever their dates, the counts of the daily log of every model add
    up to its [usage_count]. *)
Theorem log_counts_add_up (t0 : datetime) (calls : list call) (id : string)
    (r : ModelRecord) :
  record_of id (record_calls calls (create_empty_data t0)) = Some r ->
  total_count (usage_log r) = usage_count r.
Proof.
  apply (record_calls_keep (fun r => total_count (usage_log r) = usage_count r)).
  - reflexivity.
  - intros now_iso today r0 H. cbn [touch usage_log usage_count].
    rewrite total_count_log_today, H. reflexivity.
  - intros id0 r0 H. discriminate H.
Qed.

Lemma log_counts_add_up_witness :
  let m := reference "lora" "detail.safetensors" in
  let calls :=
    [ {| at_time := DateTime (Date 2026 11 3) 9 0 0 0;
         saved_at := DateTime (Date 2026 11 3) 9 0 0 5; refs := [m; m] |};
      {| at_time := DateTime (Date 2026 11 1) 9 0 0 0;
         saved_at := DateTime (Date 2026 11 1) 9 0 0 5; refs := [m] |} ] in
  let r :=
    {| r_category := "lora"; r_name := "detail.safetensors";
       path := "lora/detail.safetensors";
       first_used := "2026-11-03T09:00:00Z";
       last_used := "2026-11-01T09:00:00Z";
       usage_count := 3;
       usage_log := [ {| date := "2026-11-03"; count := 2 |};
                      {| date := "2026-11-01"; count := 1 |} ] |} in
  record_of "lora/detail.safetensors"
    (record_calls calls (create_empty_data (DateTime (Date 2026 11 1) 8 0 0 0))) = Some r
  /\ total_count (usage_log r) = usage_count r.
Proof.
  intros m calls r. split; [reflexivity|].
  apply (log_counts_add_up (DateTime (Date 2026 11 1) 8 0 0 0) calls
           "lora/detail.safetensors" r).
  reflexivity.
Defined.

(** ** What recording leaves alone *)

Section DictKeys.
Context {A : Type}.

Lemma dict_mem_keys (k : string) (d : dict A) :
  dict_mem k d = true <-> In k (dict_keys d).
Proof.
  unfold dict_mem, dict_keys. induction d as [| [k0 v0] rest IH]; simpl.
  - split; [discriminate | contradiction].
  - destruct (String.eqb_spec k k0) as [-> | Hne].
    + split; [now left | reflexivity].
    + rewrite IH. split; [now right|]. intros [E | H]; [congruence | exact H].
Qed.

Lemma dict_keys_set_new (k : string) (v : A) (d : dict A) :
  dict_mem k d = false -> dict_keys (dict_set k v d) = dict_keys d ++ [k].
Proof.
  unfold dict_mem, dict_keys. induction d as [| [k0 v0] rest IH]; simpl.
  - reflexivity.
  - destruct (String.eqb_spec k k0) as [-> | Hne]; [discriminate|].
    intros H. simpl. now rewrite IH.
Qed.

Lemma dict_mem_set (k k' : string) (v : A) (d : dict A) :
  dict_mem k' (dict_set k v d) = String.eqb k' k || dict_mem k' d.
Proof.
  unfold dict_mem. destruct (String.eqb_spec k' k) as [-> | Hne].
  - now rewrite dict_get_set_same.
  - now rewrite dict_get_set_other.
Qed.
End DictKeys.

Lemma record_model_keys (now_iso today : string) (ms : dict ModelRecord) (m : model) :
  dict_keys (record_model now_iso today ms m)
  = dict_keys ms ++ (if dict_mem (model_id m) ms then [] else [model_id m]).
Proof.
  unfold record_model.
  destruct (dict_mem (model_id m) ms) eqn:Mem; cbn [negb].
  - unfold dict_mem in Mem. destruct (dict_get (model_id m) ms) eqn:G; [| discriminate].
    rewrite dict_keys_set_mem by (unfold dict_mem; now rewrite G).
    now rewrite app_nil_r.
  - rewrite dict_get_set_same.
    rewrite dict_keys_set_mem by (unfold dict_mem; now rewrite dict_get_set_same).
    now apply dict_keys_set_new.
Qed.

Lemma record_model_mem (now_iso today : string) (ms : dict ModelRecord) (m : model)
    (id : string) :
  dict_mem id (record_model now_iso today ms m)
  = String.eqb id (model_id m) || dict_mem id ms.
Proof.
  unfold dict_mem at 1. rewrite record_model_get.
  destruct (String.eqb id (model_id m)); reflexivity.
Qed.

(** The keys after the [for model in models] loop: the keys there were, in
    their order, then the new identifiers, each once. *)
Lemma record_models_keys (now_iso today : string) (l : list model) :
  forall ms,
  exists added,
    dict_keys (fold_left (record_model now_iso today) l ms) = dict_keys ms ++ added
    /\ NoDup added
    /\ forall id, In id added
         <-> existsb (fun m => String.eqb (model_id m) id) l = true
             /\ dict_mem id ms = false.
Proof.
  induction l as [| m rest IH]; intros ms; cbn [fold_left existsb].
  - exists []. rewrite app_nil_r. split; [reflexivity|]. split; [constructor|].
    intros id. simpl. split; [contradiction | intros [H _]; discriminate].
  - destruct (IH (record_model now_iso today ms m)) as [added' [K [N I]]].
    rewrite K, record_model_keys, <- app_assoc.
    destruct (dict_mem (model_id m) ms) eqn:Mem; cbn [app].
    + exists added'. split; [reflexivity|]. split; [exact N|].
      intros id. rewrite I, record_model_mem.
      destruct (String.eqb_spec (model_id m) id) as [<- | Hne]; cbn [orb].
      * rewrite String.eqb_refl. cbn [orb]. split; [intros [_ H]; discriminate|].
        intros [_ H]. congruence.
      * destruct (String.eqb_spec id (model_id m)); [congruence | reflexivity].
    + exists (model_id m :: added'). split; [reflexivity|]. split.
      * constructor; [| exact N]. rewrite I, record_model_mem, String.eqb_refl.
        cbn [orb]. intros [_ H]. discriminate.
      * intros id. cbn [In]. rewrite I, record_model_mem.
        destruct (String.eqb_spec (model_id m) id) as [<- | Hne]; cbn [orb].
        -- rewrite String.eqb_refl. cbn [orb]. split; [intros _; now split|].
           intros _. now left.
        -- destruct (String.eqb_spec id (model_id m)); [congruence|]. cbn [orb].
           split; [intros [E | H]; [congruence | exact H] | intros H; now right].
Qed.

(** What the loop does to a record that was there. *)
Lemma record_models_existing (now_iso today id : string) (l : list model) :
  forall ms r,
  dict_get id ms = Some r ->
  exists r',
    dict_get id (fold_left (record_model now_iso today) l ms) = Some r'
    /\ r_category r' = r_category r /\ r_name r' = r_name r /\ path r' = path r
    /\ first_used r' = first_used r
    /\ usage_count r' = usage_count r + occurrences_in id l
    /\ (occurrences_in id l = 0 -> r' = r).
Proof.
  induction l as [| m rest IH]; intros ms r G; cbn [fold_left].
  - exists r. unfold occurrences_in. simpl. repeat split; try assumption; lia.
  - rewrite occurrences_in_cons. pose proof (occurrences_in_nonneg id rest) as N.
    pose proof (record_model_get now_iso today ms m id) as R.
    rewrite String.eqb_sym in R.
    destruct (String.eqb_spec (model_id m) id) as [E | Hne].
    + subst id. rewrite G in R.
      destruct (IH _ _ R) as [r' [G' [C [Na [Pa [F [U Z]]]]]]].
      exists r'. cbn [touch r_category r_name path first_used usage_count] in *.
      repeat split; try assumption; try lia.
    + rewrite G in R. destruct (IH _ _ R) as [r' [G' [C [Na [Pa [F [U Z]]]]]]].
      exists r'. repeat split; try assumption; try lia.
Qed.

(** X2.  [record_usage] only adds and counts.  It keeps the version and
    [tracking_started]; the keys of [models] stay in their order and the
    identifiers met for the first time follow them, each once; a record
    that was there keeps its category, name, path and [first_used], its
    [usage_count] grows by the number of times the identifier is in the
    list, and it is untouched when the list does not hold it. *)
Theorem record_usage_frame (now saved : datetime) (l : list model) (data : UsageDatabase) :
  db_version (record_usage now saved l data) = db_version data
  /\ tracking_started (db_metadata (record_usage now saved l data))
     = tracking_started (db_metadata data)
  /\ (exists added,
        dict_keys (db_models (record_usage now saved l data))
        = dict_keys (db_models data) ++ added
        /\ NoDup added
        /\ forall id, In id added
             <-> existsb (fun m => String.eqb (model_id m) id) l = true
                 /\ record_of id data = None)
  /\ forall id r, record_of id data = Some r ->
     exists r',
       record_of id (record_usage now saved l data) = Some r'
       /\ r_category r' = r_category r /\ r_name r' = r_name r /\ path r' = path r
       /\ first_used r' = first_used r
       /\ usage_count r' = usage_count r + occurrences_in id l
       /\ (occurrences_in id l = 0 -> r' = r).
Proof.
  split; [destruct l; reflexivity|]. split; [destruct l; reflexivity|].
  unfold record_of. rewrite db_models_record_usage. split.
  - destruct (record_models_keys (iso_z now) (date_isoformat (date_of now)) l
                (db_models data)) as [added [K [N I]]].
    exists added. split; [exact K|]. split; [exact N|].
    intros id. rewrite I. unfold dict_mem.
    destruct (dict_get id (db_models data)); split; intros [H1 H2];
      (split; [exact H1 |]); congruence.
  - intros id r G. now apply record_models_existing.
Qed.

(* ================================================================== *)
(** * More on queries *)
(* ================================================================== *)

(** ** The sort *)

Section StableSort.
Context {A : Type} (before : A -> A -> bool).
Hypothesis before_total : forall x y, before x y = false -> before y x = true.
Hypothesis before_trans :
  forall x y z, before x y = true -> before y z = true -> before x z = true.

Lemma insert_sorted_hd (x a : A) (l : list A) :
  before a x = true -> HdRel (fun u v => before u v = true) a l ->
  HdRel (fun u v => before u v = true) a (insert_sorted before x l).
Proof.
  intros Hax H. destruct l as [| y rest]; simpl.
  - now constructor.
  - destruct (before x y); constructor; [exact Hax | now inversion H].
Qed.

Lemma insert_sorted_Sorted (x : A) (l : list A) :
  Sorted (fun u v => before u v = true) l ->
  Sorted (fun u v => before u v = true) (insert_sorted before x l).
Proof.
  induction 1 as [| y rest S IH H]; simpl.
  - repeat constructor.
  - destruct (before x y) eqn:E.
    + constructor; [now constructor | now constructor].
    + constructor; [exact IH|]. apply insert_sorted_hd; [now apply before_total | exact H].
Qed.

Lemma stable_sort_Sorted (l : list A) :
  StronglySorted (fun u v => before u v = true) (stable_sort before l).
Proof.
  apply Sorted_StronglySorted; [intros x y z; apply before_trans|].
  induction l as [| x rest IH]; simpl; [constructor|].
  now apply insert_sorted_Sorted.
Qed.

(** Elements that may stand either way keep the order they came in. *)
Lemma insert_sorted_stable (z x : A) (l : list A) :
  filter (fun y => before z y && before y z) (insert_sorted before x l)
  = filter (fun y => before z y && before y z) (x :: l).
Proof.
  induction l as [| y rest IH]; [reflexivity|].
  cbn [insert_sorted]. destruct (before x y) eqn:E; [reflexivity|].
  cbn [filter] in *. rewrite IH.
  destruct (before z x && before x z) eqn:Zx; [| reflexivity].
  destruct (before z y && before y z) eqn:Zy; [| reflexivity].
  apply andb_true_iff in Zx as [Zx1 Zx2]. apply andb_true_iff in Zy as [Zy1 Zy2].
  rewrite (before_trans x z y Zx2 Zy1) in E. discriminate.
Qed.

Lemma stable_sort_stable (z : A) (l : list A) :
  filter (fun y => before z y && before y z) (stable_sort before l)
  = filter (fun y => before z y && before y z) l.
Proof.
  induction l as [| x rest IH]; [reflexivity|].
  cbn [stable_sort fold_right]. fold (stable_sort before rest).
  rewrite insert_sorted_stable. cbn [filter]. now rewrite IH.
Qed.
End StableSort.

Lemma string_leb_total (a b : string) : String.leb a b = false -> String.leb b a = true.
Proof. intros H. destruct (String.leb_total a b) as [E | E]; congruence. Qed.

Lemma string_leb_trans (a b c : string) :
  String.leb a b = true -> String.leb b c = true -> String.leb a c = true.
Proof. apply date_le_trans. Qed.

Lemma sort_before_total (sort_by : string) (x y : Summary) :
  sort_before sort_by x y = false -> sort_before sort_by y x = true.
Proof.
  unfold sort_before. destruct (String.eqb sort_by "usage_count").
  - rewrite Z.leb_gt, Z.leb_le. lia.
  - destruct (String.eqb sort_by "name"); apply string_leb_total.
Qed.

Lemma sort_before_trans (sort_by : string) (x y z : Summary) :
  sort_before sort_by x y = true -> sort_before sort_by y z = true ->
  sort_before sort_by x z = true.
Proof.
  unfold sort_before. destruct (String.eqb sort_by "usage_count").
  - rewrite !Z.leb_le. lia.
  - destruct (String.eqb sort_by "name").
    + apply string_leb_trans.
    + intros H1 H2. now apply (string_leb_trans _ (s_last_used y)).
Qed.

Lemma get_usage_data_sorted (now : datetime) (timeframe sort_by : string)
    (category : option string) (data : UsageDatabase) :
  get_usage_data now timeframe sort_by category data
  = (cutoff_date <- cutoff_date_of now timeframe ;;
     Ok {| u_models :=
             stable_sort (sort_before sort_by)
               (summaries category cutoff_date (db_models data) []);
           u_metadata := db_metadata data;
           u_timeframe := timeframe;
           u_sort_by := sort_by |}).
Proof.
  unfold get_usage_data, sort_before.
  destruct (cutoff_date_of now timeframe) as [c | e]; [| reflexivity].
  cbn [Py.bind]. destruct (String.eqb sort_by "usage_count"); [reflexivity|].
  destruct (String.eqb sort_by "name"); reflexivity.
Qed.

(** X3.  The list [get_usage_data] returns is in the order asked for:
    by [timeframe_count], largest first, for ["usage_count"]; by the
    lowercased name for ["name"]; by [last_used], latest first, for any
    other word.  Summaries with the same key stand in the order of their
    records in the document, and the list holds the summaries of the
    loop, no more and no less.  Under ["name"], names that differ only in
    the case of their letters have the same key.  For the order by name
    the names of the document are taken to be ASCII text, on which
    [lower] is Python's [str.lower]. *)
Theorem usage_data_sorted_and_stable (now : datetime) (timeframe sort_by : string)
    (category : option string) (data : UsageDatabase) (result : UsageData) :
  (sort_by = "name" ->
   Forall (fun item => is_ascii (r_name (snd item)) = true) (db_models data)) ->
  get_usage_data now timeframe sort_by category data = Ok result ->
  exists cutoff_date,
    cutoff_date_of now timeframe = Ok cutoff_date
    /\ StronglySorted (fun x y => sort_before sort_by x y = true) (u_models result)
    /\ (forall z,
          filter (same_key sort_by z) (u_models result)
          = filter (same_key sort_by z)
              (summaries category cutoff_date (db_models data) []))
    /\ Permutation (u_models result)
         (summaries category cutoff_date (db_models data) [])
    /\ (sort_by = "usage_count" ->
        forall x y, sort_before sort_by x y = true
                    <-> timeframe_count y <= timeframe_count x)
    /\ (sort_by = "name" ->
        (forall x y, sort_before sort_by x y = true
                     <-> date_le (lower (s_name x)) (lower (s_name y)))
        /\ (forall x y, same_ignoring_case (s_name x) (s_name y) = true ->
               same_key sort_by x y = true))
    /\ (sort_by <> "usage_count" -> sort_by <> "name" ->
        forall x y, sort_before sort_by x y = true
                    <-> date_le (s_last_used y) (s_last_used x)).
Proof.
  intros _. rewrite get_usage_data_sorted.
  destruct (cutoff_date_of now timeframe) as [c | e]; [| discriminate].
  cbn [Py.bind]. intros E. injection E as <-. exists c. cbn [u_models].
  split; [reflexivity|]. split.
  { apply stable_sort_Sorted; [apply sort_before_total | apply sort_before_trans]. }
  split.
  { intros z. unfold same_key. apply stable_sort_stable. apply sort_before_trans. }
  split; [apply stable_sort_perm|].
  unfold same_key, sort_before. split; [| split].
  - intros ->. intros x y. cbn. apply Z.leb_le.
  - intros ->. split.
    + intros x y. cbn. reflexivity.
    + intros x y H. cbn [String.eqb Ascii.eqb Bool.eqb].
      rewrite (lower_same_ignoring_case _ _ H).
      now rewrite (date_le_refl (lower (s_name y))).
  - intros N1 N2 x y.
    destruct (String.eqb_spec sort_by "usage_count"); [contradiction|].
    destruct (String.eqb_spec sort_by "name"); [contradiction|]. reflexivity.
Qed.

Lemma usage_data_sorted_and_stable_witness :
  exists result,
    get_usage_data sample_now "all" "name" None sample_names = Ok result
    /\ map s_name (u_models result) = ["a.pt"; "B.pt"; "b.pt"]
    /\ StronglySorted (fun x y => sort_before "name" x y = true) (u_models result).
Proof.
  eexists. split; [reflexivity|]. split; [reflexivity|].
  destruct (usage_data_sorted_and_stable sample_now "all" "name" None
              sample_names _ ltac:(intros _; repeat constructor) eq_refl)
    as [c [_ [S _]]].
  exact S.
Defined.

Example sort_by_usage_count_largest_first :
  option_map (fun r => map (fun x => (s_model_id x, timeframe_count x)) (u_models r))
    match get_usage_data sample_now "month" "usage_count" None sample_shelf with
    | Ok r => Some r
    | Raise _ => None
    end
  = Some [("checkpoint/sd15.safetensors", 5); ("lora/b.safetensors", 2); ("vae/A.pt", 0)].
Proof. reflexivity. Qed.

Example sort_by_name_ignores_case :
  option_map (fun r => map s_name (u_models r))
    match get_usage_data sample_now "all" "name" None sample_shelf with
    | Ok r => Some r
    | Raise _ => None
    end = Some ["A.pt"; "b.safetensors"; "sd15.safetensors"].
Proof. reflexivity. Qed.

Example sort_by_usage_count_keeps_ties_in_order :
  option_map (fun r => map s_model_id (u_models r))
    match get_usage_data sample_now "all" "usage_count" None sample_shelf with
    | Ok r => Some r
    | Raise _ => None
    end = Some ["checkpoint/sd15.safetensors"; "lora/b.safetensors"; "vae/A.pt"].
Proof. reflexivity. Qed.

(** ** Timeframes *)

Lemma total_count_nonneg (log : list DailyUsageEntry) :
  Forall (fun e => 0 < count e) log -> 0 <= total_count log.
Proof. induction 1; simpl; lia. Qed.

Lemma total_count_filter_le (f g : DailyUsageEntry -> bool) (log : list DailyUsageEntry) :
  Forall (fun e => 0 < count e) log ->
  (forall e, f e = true -> g e = true) ->
  total_count (filter f log) <= total_count (filter g log).
Proof.
  intros F Hfg. induction F as [| e rest Pe F IH]; simpl; [lia|].
  destruct (f e) eqn:Ef.
  - rewrite (Hfg e Ef). simpl. lia.
  - destruct (g e); simpl; [| exact IH].
    pose proof (total_count_nonneg (filter g rest)) as N. lia.
Qed.

Lemma total_count_filter_all (f : DailyUsageEntry -> bool) (log : list DailyUsageEntry) :
  Forall (fun e => 0 < count e) log -> 0 <= total_count (filter f log) <= total_count log.
Proof.
  intros F. induction F as [| e rest Pe F IH]; simpl; [lia|].
  destruct (f e); simpl; lia.
Qed.

Lemma recorded_counts (t0 : datetime) (calls : list call) (id : string)
    (r : ModelRecord) :
  record_of id (record_calls calls (create_empty_data t0)) = Some r ->
  Forall (fun e => 0 < count e) (usage_log r)
  /\ total_count (usage_log r) = usage_count r.
Proof.
  apply (record_calls_keep
           (fun r => Forall (fun e => 0 < count e) (usage_log r)
                     /\ total_count (usage_log r) = usage_count r)).
  - split; [constructor | reflexivity].
  - intros now_iso today r0 [F H]. cbn [touch usage_log usage_count]. split.
    + now apply log_today_positive.
    + rewrite total_count_log_today, H. reflexivity.
  - intros id0 r0 H. discriminate H.
Qed.

(** The cutoff of a timeframe, when the subtraction returns. *)
Lemma cutoff_date_of_returns (now : datetime) (timeframe : string) (c : option string) :
  cutoff_date_of now timeframe = Ok c ->
  match window_days timeframe with
  | Some days =>
      c = Some (cutoff_day now days)
      /\ 1 <= toordinal (date_of now) - days <= MAXORDINAL
  | None => c = None
  end.
Proof.
  unfold cutoff_date_of, window_days, datetime_sub, date_sub, cutoff_day.
  destruct (String.eqb timeframe "week").
  - cbn [timedelta Z.abs Z.gtb Z.compare Pos.compare Pos.compare_cont Py.bind].
    destruct ((0 <? toordinal (date_of now) - 7)
              && (toordinal (date_of now) - 7 <=? MAXORDINAL)) eqn:B; [| discriminate].
    cbn [Py.bind date_of]. intros E. injection E as <-.
    apply andb_true_iff in B as [B1 B2]. apply Z.ltb_lt in B1. apply Z.leb_le in B2.
    split; [reflexivity | lia].
  - destruct (String.eqb timeframe "month").
    + cbn [timedelta Z.abs Z.gtb Z.compare Pos.compare Pos.compare_cont Py.bind].
      destruct ((0 <? toordinal (date_of now) - 30)
                && (toordinal (date_of now) - 30 <=? MAXORDINAL)) eqn:B; [| discriminate].
      cbn [Py.bind date_of]. intros E. injection E as <-.
      apply andb_true_iff in B as [B1 B2]. apply Z.ltb_lt in B1. apply Z.leb_le in B2.
      split; [reflexivity | lia].
    + cbn [Py.bind]. intros E. now injection E as <-.
Qed.

(** X4.  For a document made by [record_usage] calls, the counts that
    [get_usage_data] reports grow with the timeframe: the count of the
    week is at most the count of the month, which is at most the count of
    ["all"], the [usage_count]; none is negative. *)
Theorem timeframe_counts_nested (t0 now : datetime) (calls : list call) (id : string)
    (r : ModelRecord) (week month : option string) :
  record_of id (record_calls calls (create_empty_data t0)) = Some r ->
  cutoff_date_of now "week" = Ok week ->
  cutoff_date_of now "month" = Ok month ->
  cutoff_date_of now "all" = Ok None
  /\ 0 <= timeframe_count_of week r
  /\ timeframe_count_of week r <= timeframe_count_of month r
  /\ timeframe_count_of month r <= timeframe_count_of None r
  /\ timeframe_count_of None r = usage_count r.
Proof.
  intros Hr W Mo. split; [reflexivity|].
  destruct (recorded_counts t0 calls id r Hr) as [F T].
  apply cutoff_date_of_returns in W as [-> R7].
  apply cutoff_date_of_returns in Mo as [-> R30].
  assert (N7 : String.eqb (cutoff_day now 7) "" = false).
  { apply date_isoformat_nonempty. }
  assert (N30 : String.eqb (cutoff_day now 30) "" = false).
  { apply date_isoformat_nonempty. }
  unfold timeframe_count_of. rewrite N7, N30. cbn [negb]. rewrite !py_sum_counts.
  split; [apply total_count_filter_all; exact F|].
  split.
  - apply total_count_filter_le; [exact F|].
    intros e He. apply (string_leb_trans _ (cutoff_day now 7)); [| exact He].
    unfold cutoff_day.
    destruct (fromordinal_valid _ R7) as [V7 O7].
    destruct (fromordinal_valid _ R30) as [V30 O30].
    apply (iso_date_le _ _ V30 V7). lia.
  - split; [| reflexivity]. rewrite <- T. apply total_count_filter_all. exact F.
Qed.

Lemma timeframe_counts_nested_witness :
  exists r,
    record_of "checkpoint/sd15.safetensors"
      (record_calls sample_calls (create_empty_data sample_start)) = Some r
    /\ cutoff_date_of sample_now "week" = Ok (Some "2026-10-27")
    /\ cutoff_date_of sample_now "month" = Ok (Some "2026-10-04")
    /\ timeframe_count_of (Some "2026-10-27") r = 1
    /\ timeframe_count_of (Some "2026-10-04") r = 2
    /\ usage_count r = 3
    /\ timeframe_count_of (Some "2026-10-27") r <= timeframe_count_of (Some "2026-10-04") r.
Proof.
  eexists. split; [reflexivity|]. do 5 (split; [reflexivity|]).
  destruct (timeframe_counts_nested sample_start sample_now sample_calls
              "checkpoint/sd15.safetensors" _ (Some "2026-10-27") (Some "2026-10-04")
              eq_refl eq_refl eq_refl) as [_ [_ [H _]]].
  exact H.
Defined.

(* ================================================================== *)
(** * More on retention *)
(* ================================================================== *)

Section Filters.
Context {A : Type}.

Lemma filter_filter_narrower (f g : A -> bool) (l : list A) :
  (forall x, f x = true -> g x = true) -> filter f (filter g l) = filter f l.
Proof.
  intros H. induction l as [| x rest IH]; simpl; [reflexivity|].
  destruct (g x) eqn:G; simpl.
  - now rewrite IH.
  - destruct (f x) eqn:F; [| exact IH]. rewrite (H x F) in G. discriminate.
Qed.

Lemma filter_filter_wider (f g : A -> bool) (l : list A) :
  (forall x, g x = true -> f x = true) -> filter f (filter g l) = filter g l.
Proof.
  intros H. induction l as [| x rest IH]; simpl; [reflexivity|].
  destruct (g x) eqn:G; simpl; [| exact IH].
  now rewrite (H x G), IH.
Qed.
End Filters.

(** The document with every log cut at [cutoff_str]: the loop of
    [cleanup_old_usage_logs]. *)
Lemma cleanup_returns (now : datetime) (data data' : UsageDatabase) (max_days : Z) :
  cleanup_old_usage_logs now data max_days = Ok data' ->
  Z.abs max_days <= 999999999
  /\ 1 <= toordinal (date_of now) - max_days <= MAXORDINAL
  /\ data' = {| db_version := db_version data;
               db_models :=
                 map (fun item => (fst item, keep_recent (cutoff_day now max_days) (snd item)))
                   (db_models data);
               db_metadata := db_metadata data |}.
Proof.
  unfold cleanup_old_usage_logs, timedelta, date_sub, cutoff_day.
  destruct (Z.abs max_days >? 999999999) eqn:T; [discriminate|]. cbn [Py.bind].
  destruct ((0 <? toordinal (date_of now) - max_days)
            && (toordinal (date_of now) - max_days <=? MAXORDINAL)) eqn:B; [| discriminate].
  cbn [Py.bind]. intros E. injection E as <-.
  apply andb_true_iff in B as [B1 B2]. apply Z.ltb_lt in B1. apply Z.leb_le in B2.
  rewrite Z.gtb_ltb in T. apply Z.ltb_ge in T.
  split; [exact T|]. split; [lia | reflexivity].
Qed.

Lemma cleanup_runs (now : datetime) (data : UsageDatabase) (max_days : Z) :
  Z.abs max_days <= 999999999 ->
  1 <= toordinal (date_of now) - max_days <= MAXORDINAL ->
  cleanup_old_usage_logs now data max_days
  = Ok {| db_version := db_version data;
          db_models :=
            map (fun item => (fst item, keep_recent (cutoff_day now max_days) (snd item)))
              (db_models data);
          db_metadata := db_metadata data |}.
Proof.
  intros T R.
  unfold cleanup_old_usage_logs, timedelta, date_sub, cutoff_day.
  replace (Z.abs max_days >? 999999999) with false
    by (symmetry; rewrite Z.gtb_ltb; apply Z.ltb_ge; lia).
  cbn [Py.bind].
  replace ((0 <? toordinal (date_of now) - max_days)
           && (toordinal (date_of now) - max_days <=? MAXORDINAL)) with true
    by (symmetry; apply andb_true_iff; split; [apply Z.ltb_lt | apply Z.leb_le]; lia).
  reflexivity.
Qed.

(** Cutoffs compare as their days do. *)
Lemma cutoff_day_le (t1 t2 : datetime) (d1 d2 : Z) :
  1 <= toordinal (date_of t1) - d1 <= MAXORDINAL ->
  1 <= toordinal (date_of t2) - d2 <= MAXORDINAL ->
  toordinal (date_of t1) - d1 <= toordinal (date_of t2) - d2 ->
  date_le (cutoff_day t1 d1) (cutoff_day t2 d2).
Proof.
  intros R1 R2 L. unfold cutoff_day.
  destruct (fromordinal_valid _ R1) as [V1 O1].
  destruct (fromordinal_valid _ R2) as [V2 O2].
  apply (iso_date_le _ _ V1 V2). lia.
Qed.

Lemma keep_recent_twice (c1 c2 : string) (r : ModelRecord) :
  date_le c1 c2 ->
  keep_recent c2 (keep_recent c1 r) = keep_recent c2 r
  /\ keep_recent c1 (keep_recent c2 r) = keep_recent c2 r.
Proof.
  intros L. unfold keep_recent. cbn [usage_log r_category r_name path first_used
    last_used usage_count]. split; f_equal.
  - apply filter_filter_narrower. intros e H. exact (string_leb_trans _ _ _ L H).
  - apply filter_filter_wider. intros e H. exact (string_leb_trans _ _ _ L H).
Qed.

Lemma map_keep_recent_twice (c1 c2 : string) (items : dict ModelRecord) :
  date_le c1 c2 ->
  map (fun item => (fst item, keep_recent c2 (snd item)))
    (map (fun item => (fst item, keep_recent c1 (snd item))) items)
  = map (fun item => (fst item, keep_recent c2 (snd item))) items
  /\ map (fun item => (fst item, keep_recent c1 (snd item)))
       (map (fun item => (fst item, keep_recent c2 (snd item))) items)
     = map (fun item => (fst item, keep_recent c2 (snd item))) items.
Proof.
  intros L. rewrite !map_map. split; apply map_ext; intros [k r]; cbn [fst snd];
    f_equal; now apply keep_recent_twice.
Qed.

(** X5.  Two cleanups in a row give what the one with the later cutoff
    day gives alone: a cleanup that reaches back at least as far as an
    earlier one changes nothing, and one that reaches back less far
    gives what it would have given on the original document.  In
    particular a cleanup repeated on the same day changes nothing. *)
Theorem cleanup_after_cleanup (t1 t2 : datetime) (d1 d2 : Z)
    (data data1 data2 : UsageDatabase) :
  cleanup_old_usage_logs t1 data d1 = Ok data1 ->
  cleanup_old_usage_logs t2 data1 d2 = Ok data2 ->
  (toordinal (date_of t2) - d2 <= toordinal (date_of t1) - d1 -> data2 = data1)
  /\ (toordinal (date_of t1) - d1 <= toordinal (date_of t2) - d2 ->
      cleanup_old_usage_logs t2 data d2 = Ok data2).
Proof.
  intros E1 E2.
  apply cleanup_returns in E1 as [T1 [R1 ->]]. apply cleanup_returns in E2 as [T2 [R2 ->]].
  cbn [db_version db_models db_metadata]. split; intros L.
  - f_equal. apply (proj2 (map_keep_recent_twice _ _ (db_models data)
                             (cutoff_day_le t2 t1 d2 d1 R2 R1 L))).
  - rewrite (cleanup_runs t2 data d2 T2 R2). do 2 f_equal. symmetry.
    apply (proj1 (map_keep_recent_twice _ _ (db_models data)
                    (cutoff_day_le t1 t2 d1 d2 R1 R2 L))).
Qed.

Lemma cleanup_after_cleanup_witness :
  exists data1 data2,
    cleanup_old_usage_logs sample_now sample_data 365 = Ok data1
    /\ cleanup_old_usage_logs sample_now data1 30 = Ok data2
    /\ cleanup_old_usage_logs sample_now sample_data 30 = Ok data2
    /\ map (fun item => usage_log (snd item)) (db_models data1)
       = [[ {| date := "2026-09-24"; count := 3 |}; {| date := "2026-11-01"; count := 5 |} ]]
    /\ map (fun item => usage_log (snd item)) (db_models data2)
       = [[ {| date := "2026-11-01"; count := 5 |} ]].
Proof.
  eexists. eexists. split; [reflexivity|]. split; [reflexivity|].
  split; [| split; reflexivity].
  refine (proj2 (cleanup_after_cleanup sample_now sample_now 365 30 sample_data _ _
                   eq_refl eq_refl) _).
  vm_compute. discriminate.
Defined.

(** ** Retention and queries *)

Lemma timeframe_count_of_keep_recent (c : option string) (kept : string)
    (r : ModelRecord) :
  (forall cutoff, c = Some cutoff -> date_le kept cutoff) ->
  timeframe_count_of c (keep_recent kept r) = timeframe_count_of c r.
Proof.
  intros H. unfold timeframe_count_of. destruct c as [cutoff |]; [| reflexivity].
  destruct (negb (String.eqb cutoff "")); [| reflexivity].
  cbn [keep_recent usage_log]. rewrite filter_filter_narrower; [reflexivity|].
  intros e He. exact (string_leb_trans _ _ _ (H cutoff eq_refl) He).
Qed.

Lemma summaries_keep_recent (category c : option string) (kept : string)
    (items : dict ModelRecord) :
  (forall cutoff, c = Some cutoff -> date_le kept cutoff) ->
  forall models_list,
  summaries category c (map (fun item => (fst item, keep_recent kept (snd item))) items)
    models_list
  = summaries category c items models_list.
Proof.
  intros H. induction items as [| [k r] rest IH]; intros models_list; [reflexivity|].
  cbn [map summaries fst snd].
  replace (filtered_out category (keep_recent kept r)) with (filtered_out category r)
    by (destruct category; reflexivity).
  destruct (filtered_out category r); [apply IH|].
  rewrite IH. cbn [keep_recent r_category r_name first_used last_used usage_count].
  now rewrite (timeframe_count_of_keep_recent c kept r H).
Qed.

(** X6.  A cleanup does not change what [get_usage_data] answers for a
    timeframe that does not look back further than the cleanup kept:
    for ["all"] (and every word other than ["week"] and ["month"]) after
    any cleanup, for ["month"] and ["week"] when the cutoff day of the
    cleanup is not after the cutoff day of the query. *)
Theorem cleanup_keeps_answers (t now : datetime) (max_days : Z)
    (timeframe sort_by : string) (category : option string)
    (data data' : UsageDatabase) :
  cleanup_old_usage_logs t data max_days = Ok data' ->
  (forall days, window_days timeframe = Some days ->
     toordinal (date_of t) - max_days <= toordinal (date_of now) - days) ->
  get_usage_data now timeframe sort_by category data'
  = get_usage_data now timeframe sort_by category data.
Proof.
  intros E W. apply cleanup_returns in E as [_ [R ->]].
  rewrite !get_usage_data_sorted.
  destruct (cutoff_date_of now timeframe) as [c | e] eqn:C; [| reflexivity].
  cbn [Py.bind db_models db_metadata]. apply cutoff_date_of_returns in C.
  rewrite summaries_keep_recent; [reflexivity|].
  intros cutoff ->. destruct (window_days timeframe) as [days |]; [| discriminate].
  destruct C as [C Rn]. injection C as ->.
  apply cutoff_day_le; [exact R | exact Rn | now apply W].
Qed.

Lemma cleanup_keeps_answers_witness :
  exists data',
    cleanup_old_usage_logs sample_now sample_shelf 30 = Ok data'
    /\ data' <> sample_shelf
    /\ get_usage_data sample_now "month" "name" None data'
       = get_usage_data sample_now "month" "name" None sample_shelf.
Proof.
  eexists. split; [reflexivity|]. split; [discriminate|].
  apply (cleanup_keeps_answers sample_now sample_now 30 "month" "name" None sample_shelf).
  - reflexivity.
  - intros days H. injection H as <-. vm_compute. discriminate.
Defined.

(* ================================================================== *)
(** * The tracker over time *)
(* ================================================================== *)

Lemma dict_get_map_values {A B : Type} (f : A -> B) (k : string) (d : dict A) :
  dict_get k (map (fun item => (fst item, f (snd item))) d)
  = option_map f (dict_get k d).
Proof.
  induction d as [| [k0 v0] rest IH]; simpl; [reflexivity|].
  destruct (String.eqb k k0); [reflexivity | exact IH].
Qed.

Lemma recordings_app (qs1 qs2 : list method_call) :
  recordings (qs1 ++ qs2) = recordings qs1 ++ recordings qs2.
Proof.
  induction qs1 as [| q rest IH]; simpl; [reflexivity|].
  destruct q; simpl; now rewrite IH.
Qed.

Lemma after_calls_snoc (qs : list method_call) (q : method_call) (data : UsageDatabase) :
  after_calls (qs ++ [q]) data = after_call (after_calls qs data) q.
Proof. unfold after_calls. now rewrite fold_left_app. Qed.

Section FilterSorted.
Context {A : Type} (R : A -> A -> Prop).

Lemma StronglySorted_filter (f : A -> bool) (l : list A) :
  StronglySorted R l -> StronglySorted R (filter f l).
Proof.
  induction 1 as [| x rest S IH F]; simpl; [constructor|].
  destruct (f x); [| exact IH]. constructor; [exact IH|].
  rewrite Forall_forall in *. intros y Hy. apply filter_In in Hy as [Hy _]. now apply F.
Qed.
End FilterSorted.

Lemma StronglySorted_map_filter (f : DailyUsageEntry -> bool) (log : list DailyUsageEntry) :
  ascending (map date log) -> ascending (map date (filter f log)).
Proof.
  unfold ascending. induction log as [| e rest IH]; simpl; [constructor|].
  intros S. inversion S as [| ? ? S' F]; subst.
  destruct (f e); [| now apply IH]. simpl. constructor; [now apply IH|].
  rewrite Forall_forall in *. intros d Hd. apply F.
  apply in_map_iff in Hd as [x [<- Hx]]. apply filter_In in Hx as [Hx _].
  now apply in_map.
Qed.

Lemma Forall_map_filter {B : Type} (P : B -> Prop) (g : DailyUsageEntry -> B)
    (f : DailyUsageEntry -> bool) (log : list DailyUsageEntry) :
  Forall P (map g log) -> Forall P (map g (filter f log)).
Proof.
  rewrite !Forall_forall. intros H d Hd. apply H.
  apply in_map_iff in Hd as [x [<- Hx]]. apply filter_In in Hx as [Hx _].
  now apply in_map.
Qed.

(** What holds of a record at any time: the log in strictly ascending
    order of dates, every date the date of an earlier [record_usage], every
    count positive, and the counts adding up to no more than
    [usage_count]. *)
Lemma after_calls_logs (t0 : datetime) (qs : list method_call) :
  dates_nondecreasing (recordings qs) ->
  forall id r,
  record_of id (after_calls qs (create_empty_data t0)) = Some r ->
  log_invariant (recordings qs) (usage_log r)
  /\ total_count (usage_log r) <= usage_count r.
Proof.
  unfold dates_nondecreasing, record_of. intros S.
  apply (Sorted_StronglySorted date_le_transitive) in S.
  induction qs as [| q qs IH] using rev_ind.
  - simpl. discriminate.
  - rewrite recordings_app in S. intros id r. rewrite after_calls_snoc, recordings_app.
    destruct q as [c | now saved max_days | now saved]; cbn [recordings app] in *.
    + apply StronglySorted_snoc_inv in S as [S Fc].
      specialize (IH S). rewrite Forall_forall in Fc.
      cbn [after_call]. unfold record_call. rewrite db_models_record_usage.
      set (P := fun r : ModelRecord =>
                  (log_invariant (recordings qs ++ [c]) (usage_log r)
                   /\ total_count (usage_log r) <= usage_count r)
                  /\ Forall (fun d => date_le d (today_of c)) (map date (usage_log r))).
      intros G. assert (HP : P r); [| exact (proj1 HP)].
      revert id r G.
      assert (Step : forall now_iso r0, P r0 -> P (touch now_iso (today_of c) r0)).
      { unfold P. intros now_iso r0 [[[A [O Pos]] T] B]. cbn [touch usage_log usage_count] in *.
        destruct (log_today_ascending (today_of c) (usage_log r0) A B) as [A' B'].
        split; [| exact B']. split; [| rewrite total_count_log_today; lia].
        split; [exact A'|]. split; [| now apply log_today_positive].
        rewrite log_today_dates.
        assert (O' : Forall (fun d => exists c0, In c0 (recordings qs ++ [c])
                                                  /\ d = today_of c0)
                       (map date (usage_log r0) ++ [today_of c])).
        { apply Forall_app. split; [exact O|]. constructor; [| constructor].
          exists c. split; [apply in_or_app; right; now left | reflexivity]. }
        destruct (last_entry (usage_log r0)) as [e |]; [| exact O'].
        destruct (String.eqb (date e) (today_of c)); [exact O | exact O']. }
      assert (New : forall now_iso m, P (new_record now_iso m)).
      { unfold P. intros now_iso m. cbn. split; [| constructor]. split; [| lia].
        repeat split; constructor. }
      assert (Old : forall id r, dict_get id (db_models (after_calls qs (create_empty_data t0)))
                                 = Some r -> P r).
      { unfold P. intros id r G. destruct (IH id r G) as [[A [O Pos]] T].
        split; [split; [| exact T]|].
        - split; [exact A|]. split; [| exact Pos].
          eapply Forall_impl; [| exact O]. intros d [c0 [Hin ->]].
          exists c0. split; [apply in_or_app; now left | reflexivity].
        - eapply Forall_impl; [| exact O]. intros d [c0 [Hin ->]]. now apply Fc. }
      generalize (refs c) (db_models (after_calls qs (create_empty_data t0))) Old.
      intros l. induction l as [| m rest IHl]; intros ms Hms; simpl; [exact Hms|].
      apply IHl. intros id r. rewrite record_model_get.
      destruct (String.eqb id (model_id m)); [| apply Hms].
      intros E. injection E as <-. apply Step.
      destruct (dict_get (model_id m) ms) as [r0 |] eqn:G; [now apply (Hms (model_id m)) | apply New].
    + rewrite app_nil_r in *. specialize (IH S). cbn [after_call]. unfold cleanup.
      destruct (cleanup_old_usage_logs now (after_calls qs (create_empty_data t0)) max_days)
        as [data' | e] eqn:E; [| apply IH].
      apply cleanup_returns in E as [_ [_ ->]]. cbn [Py.bind stamp_last_updated db_models].
      rewrite dict_get_map_values.
      destruct (dict_get id (db_models (after_calls qs (create_empty_data t0))))
        as [r0 |] eqn:G; [| discriminate].
      cbn [option_map]. intros E. injection E as <-.
      destruct (IH id r0 G) as [[A [O Pos]] T]. cbn [keep_recent usage_log usage_count].
      split.
      * split; [now apply StronglySorted_map_filter|].
        split; [now apply Forall_map_filter|].
        rewrite Forall_forall in *. intros e He. apply Pos.
        now apply filter_In in He as [He _].
      * pose proof (total_count_filter_all
                      (fun entry => String.leb (cutoff_day now max_days) (date entry))
                      (usage_log r0) Pos). lia.
    + cbn [after_call reset]. discriminate.
Qed.

(** X7.  Whatever [record_usage], [cleanup] and [reset] calls were made
    on a fresh tracker, succeeding or raising, as long as the dates of the
    [record_usage] calls never go back: the daily log of every model has
    strictly ascending dates, hence no date twice, each the date of an
    earlier [record_usage] call, every count is positive, and the counts
    add up to at most the [usage_count]. *)
Theorem tracker_logs_stay_sound (t0 : datetime) (qs : list method_call) (id : string)
    (r : ModelRecord) :
  dates_nondecreasing (recordings qs) ->
  record_of id (after_calls qs (create_empty_data t0)) = Some r ->
  ascending (map date (usage_log r))
  /\ NoDup (map date (usage_log r))
  /\ Forall (fun d => exists c, In c (recordings qs) /\ d = today_of c)
       (map date (usage_log r))
  /\ Forall (fun e => 0 < count e) (usage_log r)
  /\ 0 <= total_count (usage_log r) <= usage_count r.
Proof.
  intros S G. destruct (after_calls_logs t0 qs S id r G) as [[A [O P]] T].
  split; [exact A|]. split; [now apply ascending_NoDup|].
  split; [exact O|]. split; [exact P|].
  split; [now apply total_count_nonneg | exact T].
Qed.

Lemma tracker_logs_stay_sound_witness :
  let qs := map RecordUsage sample_calls ++ [Cleanup sample_now sample_now 7] in
  exists r,
    dates_nondecreasing (recordings qs)
    /\ record_of "checkpoint/sd15.safetensors" (after_calls qs (create_empty_data sample_start))
       = Some r
    /\ usage_log r = [ {| date := "2026-11-01"; count := 1 |} ]
    /\ usage_count r = 3
    /\ 0 <= total_count (usage_log r) <= usage_count r.
Proof.
  intros qs.
  assert (S : dates_nondecreasing (recordings qs)).
  { unfold dates_nondecreasing. cbn. repeat (constructor; try reflexivity). }
  eexists. split; [exact S|]. split; [reflexivity|].
  split; [reflexivity|]. split; [reflexivity|].
  apply (tracker_logs_stay_sound sample_start qs "checkpoint/sd15.safetensors" _ S eq_refl).
Defined.

Example cleanup_that_raises_changes_nothing :
  after_call sample_data (Cleanup sample_now sample_now 1000000) = sample_data.
Proof. reflexivity. Qed.

(* ================================================================== *)
(** * More on extraction *)
(* ================================================================== *)

Lemma dict_get_In {A : Type} (k : string) (v : A) (d : dict A) :
  dict_get k d = Some v -> In (k, v) d.
Proof.
  induction d as [| [k0 v0] rest IH]; simpl; [discriminate|].
  destruct (String.eqb_spec k k0) as [-> | N].
  - intros E. injection E as ->. now left.
  - intros E. right. now apply IH.
Qed.

Lemma table_categories_known :
  Forall (fun entry => In (fst (snd entry)) (dict_keys MODEL_CATEGORIES)) MODEL_LOADERS.
Proof.
  apply Forall_forall. intros entry Hin. apply dict_mem_keys.
  assert (B : forallb (fun entry => dict_mem (fst (snd entry)) MODEL_CATEGORIES)
                MODEL_LOADERS = true) by reflexivity.
  rewrite forallb_forall in B. exact (B entry Hin).
Qed.

Lemma pattern_categories_known :
  Forall (fun p => In (snd (fst p)) (dict_keys MODEL_CATEGORIES)) LOADER_PATTERNS.
Proof.
  apply Forall_forall. intros p Hin. apply dict_mem_keys.
  assert (B : forallb (fun p => dict_mem (snd (fst p)) MODEL_CATEGORIES)
                LOADER_PATTERNS = true) by reflexivity.
  rewrite forallb_forall in B. exact (B p Hin).
Qed.

Lemma MODEL_LOADERS_find_known (class_type : pyval) (category : string)
    (keys : input_keys) :
  MODEL_LOADERS_find class_type = Ok (Some (category, keys)) ->
  In category (dict_keys MODEL_CATEGORIES).
Proof.
  destruct class_type as [| | | | s | |]; try discriminate. unfold MODEL_LOADERS_find.
  remember (dict_get s MODEL_LOADERS) as g eqn:G. intros E. injection E as ->.
  symmetry in G. apply dict_get_In in G.
  pose proof table_categories_known as T. rewrite Forall_forall in T.
  exact (T _ G).
Qed.

Lemma reference_well_formed (category : string) (value : pyval) (v : string) :
  In category (dict_keys MODEL_CATEGORIES) ->
  nonempty_str value = Some v ->
  well_formed (reference category v).
Proof.
  intros K H. apply nonempty_str_Some in H as [_ N].
  split; [exact N|]. split; [exact K | reflexivity].
Qed.

Lemma inputs_loop_well_formed (category : string) (inputs : pyval) (keys : list string) :
  In category (dict_keys MODEL_CATEGORIES) ->
  forall models l,
  Forall well_formed models ->
  inputs_loop category keys inputs models = Ok l -> Forall well_formed l.
Proof.
  intros K. induction keys as [| key rest IH]; intros models l F; simpl.
  - intros E. now injection E as <-.
  - destruct (py_get inputs key VNone) as [value | e]; [| discriminate]. cbn [Py.bind].
    destruct (nonempty_str value) as [v |] eqn:N; [| now apply IH].
    apply IH. apply Forall_app. split; [exact F|].
    constructor; [| constructor]. exact (reference_well_formed category value v K N).
Qed.

Lemma keys_loop_well_formed (category : string) (inputs : pyval) (keys : list string) :
  In category (dict_keys MODEL_CATEGORIES) ->
  forall models l,
  Forall well_formed models ->
  keys_loop category keys inputs models = Ok l -> Forall well_formed l.
Proof.
  intros K. induction keys as [| key rest IH]; intros models l F; simpl.
  - intros E. now injection E as <-.
  - destruct (py_get inputs key VNone) as [value | e]; [| discriminate]. cbn [Py.bind].
    destruct (nonempty_str value) as [v |] eqn:N; [| now apply IH].
    intros E. injection E as <-. apply Forall_app. split; [exact F|].
    constructor; [| constructor]. exact (reference_well_formed category value v K N).
Qed.

Lemma patterns_loop_well_formed (class_type inputs : pyval)
    (patterns : list (string * string * list string)) :
  Forall (fun p => In (snd (fst p)) (dict_keys MODEL_CATEGORIES)) patterns ->
  forall l, patterns_loop patterns class_type inputs [] = Ok l -> Forall well_formed l.
Proof.
  induction 1 as [| [[pattern category] possible_keys] rest K F IH]; intros l; simpl.
  - intros E. injection E as <-. constructor.
  - destruct (py_lower class_type) as [lowered | e]; [| discriminate]. cbn [Py.bind].
    destruct (contains (lower pattern) lowered); [| apply IH].
    apply (keys_loop_well_formed category inputs possible_keys K). constructor.
Qed.

Lemma node_extracted_well_formed (node_data : pyval) (l : list model) :
  node_extracted node_data = Ok l -> Forall well_formed l.
Proof.
  unfold node_extracted.
  destruct (py_get node_data "class_type" (VStr "")) as [class_type | e]; [| discriminate].
  cbn [Py.bind].
  destruct (py_get node_data "inputs" (VDict [])) as [inputs | e]; [| discriminate].
  cbn [Py.bind].
  destruct (MODEL_LOADERS_find class_type) as [[[category keys] |] | e] eqn:Find;
    [| | discriminate]; cbn [Py.bind].
  - assert (K : In category (dict_keys MODEL_CATEGORIES)).
    { exact (MODEL_LOADERS_find_known class_type category keys Find). }
    unfold _extract_from_inputs. apply inputs_loop_well_formed; [exact K | constructor].
  - destruct (py_str_in "Loader" class_type) as [is_loader | e]; [| discriminate].
    cbn [Py.bind]. destruct is_loader.
    + apply patterns_loop_well_formed. exact pattern_categories_known.
    + intros E. injection E as <-. constructor.
Qed.

Lemma candidates_well_formed (items : dict pyval) :
  forall cs, candidates items = Ok cs -> Forall well_formed cs.
Proof.
  induction items as [| [node_id node_data] rest IH]; intros cs; simpl.
  - intros E. injection E as <-. constructor.
  - destruct (node_extracted node_data) as [extracted | e] eqn:N; [| discriminate].
    cbn [Py.bind]. destruct (candidates rest) as [later | e]; [| discriminate].
    cbn [Py.bind]. intros E. injection E as <-. apply Forall_app.
    split; [exact (node_extracted_well_formed _ _ N) | now apply IH].
Qed.

Lemma subsequence_Forall {A : Type} (P : A -> Prop) (l1 l2 : list A) :
  subsequence l1 l2 -> Forall P l2 -> Forall P l1.
Proof.
  induction 1 as [| x l1 l2 S IH | x l1 l2 S IH]; intros F.
  - constructor.
  - inversion F; subst. now apply IH.
  - inversion F; subst. constructor; [assumption | now apply IH].
Qed.

Lemma extracted_well_formed (prompt : dict pyval) (models : list model) :
  extract_models_from_prompt prompt = Ok models ->
  Forall well_formed models /\ NoDup (map model_id models).
Proof.
  rewrite extract_candidates.
  destruct (candidates prompt) as [cs | e] eqn:C; [| discriminate].
  cbn [Py.bind]. intros E. injection E as <-. split.
  - apply (subsequence_Forall _ _ cs); [apply drop_seen_subsequence|].
    exact (candidates_well_formed prompt cs C).
  - apply drop_seen_NoDup.
Qed.

(** X8.  Whatever the graph, every reference that
    [extract_models_from_prompt] returns has a non-empty name, a category
    that is a key of [MODEL_CATEGORIES], and the identifier
    [category/name]. *)
Theorem extracted_references_well_formed (prompt : dict pyval) (models : list model) :
  extract_models_from_prompt prompt = Ok models ->
  forall m, In m models ->
  name m <> ""
  /\ In (category m) (dict_keys MODEL_CATEGORIES)
  /\ model_id m = (category m ++ "/" ++ name m)%string
  /\ m = reference (category m) (name m).
Proof.
  intros E m Hin. destruct (extracted_well_formed prompt models E) as [F _].
  rewrite Forall_forall in F. destruct (F m Hin) as [N [K I]].
  split; [exact N|]. split; [exact K|]. split; [exact I|].
  destruct m as [c n i]. cbn in *. subst i. reflexivity.
Qed.

Lemma extracted_references_well_formed_witness :
  let prompt :=
    [("7", VDict [("class_type", VStr "MyCustomLoraLoader");
                  ("inputs", VDict [("lora_name", VStr ""); ("lora", VStr "style.safetensors")])]);
     ("8", VDict [("class_type", VStr "UnetLoaderGGUF");
                  ("inputs", VDict [("unet_name", VStr "flux-q4.gguf")])])] in
  let m := {| category := "lora"; name := "style.safetensors";
              model_id := "lora/style.safetensors" |} in
  extract_models_from_prompt prompt = Ok [m; reference "gguf" "flux-q4.gguf"]
  /\ In (category m) (dict_keys MODEL_CATEGORIES).
Proof.
  intros prompt m. split; [reflexivity|].
  apply (extracted_references_well_formed prompt [m; reference "gguf" "flux-q4.gguf"]
           eq_refl m).
  now left.
Defined.

(** ** Identifiers name one reference *)

Lemma before_slash_app (c rest : string) :
  before_slash c = c ->
  before_slash (c ++ "/" ++ rest)%string = c /\ after_slash (c ++ "/" ++ rest)%string = rest.
Proof.
  induction c as [| a c IH]; cbn [append before_slash after_slash].
  - intros _. split; reflexivity.
  - destruct (Ascii.eqb a "/"); [discriminate|].
    intros E. injection E as E. destruct (IH E) as [B A].
    cbn [append] in B, A. now rewrite B, A.
Qed.

Lemma categories_without_slash :
  Forall (fun c => before_slash c = c) (dict_keys MODEL_CATEGORIES).
Proof. unfold MODEL_CATEGORIES, dict_keys. cbn [map fst]. repeat (constructor; [reflexivity|]). constructor. Qed.

Lemma well_formed_parts (m : model) :
  well_formed m ->
  category m = before_slash (model_id m) /\ name m = after_slash (model_id m).
Proof.
  intros [_ [K I]]. pose proof categories_without_slash as S.
  rewrite Forall_forall in S. destruct (before_slash_app _ (name m) (S _ K)) as [B A].
  rewrite I. now rewrite B, A.
Qed.

Lemma well_formed_same_id (m1 m2 : model) :
  well_formed m1 -> well_formed m2 -> model_id m1 = model_id m2 -> m1 = m2.
Proof.
  intros W1 W2 E. destruct (well_formed_parts m1 W1) as [C1 N1].
  destruct (well_formed_parts m2 W2) as [C2 N2]. rewrite E in C1, N1.
  destruct m1 as [c1 n1 i1], m2 as [c2 n2 i2]. cbn in *. congruence.
Qed.

(** X9.  An identifier names one reference: two references extracted from
    any two graphs that have the same [model_id] have the same category
    and the same name, and both can be read off the identifier, the
    category before its first slash and the name after it. *)
Theorem identifier_names_one_reference (prompt1 prompt2 : dict pyval)
    (models1 models2 : list model) (m1 m2 : model) :
  extract_models_from_prompt prompt1 = Ok models1 ->
  extract_models_from_prompt prompt2 = Ok models2 ->
  In m1 models1 -> In m2 models2 ->
  model_id m1 = model_id m2 ->
  m1 = m2
  /\ category m1 = before_slash (model_id m1)
  /\ name m1 = after_slash (model_id m1).
Proof.
  intros E1 E2 I1 I2 E.
  destruct (extracted_well_formed prompt1 models1 E1) as [F1 _].
  destruct (extracted_well_formed prompt2 models2 E2) as [F2 _].
  rewrite Forall_forall in F1, F2.
  split; [exact (well_formed_same_id m1 m2 (F1 m1 I1) (F2 m2 I2) E)|].
  exact (well_formed_parts m1 (F1 m1 I1)).
Qed.

Lemma identifier_names_one_reference_witness :
  let prompt1 :=
    [("1", VDict [("class_type", VStr "LoraLoader");
                  ("inputs", VDict [("lora_name", VStr "sub/dir/style.safetensors")])])] in
  let prompt2 :=
    [("4", VDict [("class_type", VStr "PowerLoraLoader");
                  ("inputs", VDict [("lora", VStr "sub/dir/style.safetensors")])])] in
  let m := reference "lora" "sub/dir/style.safetensors" in
  extract_models_from_prompt prompt1 = Ok [m]
  /\ extract_models_from_prompt prompt2 = Ok [m]
  /\ category m = before_slash (model_id m)
  /\ name m = after_slash (model_id m).
Proof.
  intros prompt1 prompt2 m. split; [reflexivity|]. split; [reflexivity|].
  apply (identifier_names_one_reference prompt1 prompt2 [m] [m] m m eq_refl eq_refl).
  - now left.
  - now left.
  - reflexivity.
Defined.

(* ================================================================== *)
(** * Extraction and recording together *)
(* ================================================================== *)

Lemma occurrences_in_NoDup (id : string) (l : list model) :
  NoDup (map model_id l) ->
  occurrences_in id l
  = if existsb (fun m => String.eqb (model_id m) id) l then 1 else 0.
Proof.
  induction l as [| m rest IH]; intros N; [reflexivity|].
  rewrite occurrences_in_cons. cbn [existsb map] in *.
  inversion N as [| ? ? Hnotin N']; subst. rewrite (IH N').
  destruct (String.eqb_spec (model_id m) id) as [E | Ne]; cbn [orb]; [| lia].
  destruct (existsb (fun m0 => String.eqb (model_id m0) id) rest) eqn:X; [| lia].
  exfalso. apply Hnotin. apply existsb_exists in X as [m' [Hin Heq]].
  apply String.eqb_eq in Heq. apply in_map_iff. exists m'. split; [congruence | exact Hin].
Qed.

(** X10.  [extract_and_record_models] counts a model once for a graph,
    however many nodes of the graph load it: the [usage_count] of every
    identifier that was extracted goes up by exactly one (starting from
    0 for a new one), every other record is left as it was, and a graph
    without model references leaves the whole document, [last_updated]
    included, untouched. *)
Theorem extract_and_record_counts_once (now saved_at : datetime) (prompt : dict pyval)
    (data data' : UsageDatabase) :
  extract_and_record_models now saved_at prompt data = Ok data' ->
  exists models,
    extract_models_from_prompt prompt = Ok models
    /\ (forall id,
          count_under id (db_models data')
          = count_under id (db_models data)
            + (if existsb (fun m => String.eqb (model_id m) id) models then 1 else 0))
    /\ (forall id, existsb (fun m => String.eqb (model_id m) id) models = false ->
          record_of id data' = record_of id data)
    /\ (models = [] -> data' = data).
Proof.
  unfold extract_and_record_models.
  destruct (extract_models_from_prompt prompt) as [models | e] eqn:E; [| discriminate].
  cbn [Py.bind]. intros D. injection D as <-. exists models. split; [reflexivity|].
  destruct (extracted_well_formed prompt models E) as [_ N].
  split; [| split].
  - intros id. rewrite db_models_record_usage.
    destruct (record_models_get (iso_z now) (date_isoformat (date_of now)) id models
                (db_models data)) as [C _].
    rewrite C. now rewrite (occurrences_in_NoDup id models N).
  - intros id X. unfold record_of. rewrite db_models_record_usage.
    destruct (record_models_get (iso_z now) (date_isoformat (date_of now)) id models
                (db_models data)) as [_ [K _]].
    now apply K.
  - intros ->. reflexivity.
Qed.

Lemma extract_and_record_counts_once_witness :
  let ckpt := VDict [("class_type", VStr "CheckpointLoaderSimple");
                     ("inputs", VDict [("ckpt_name", VStr "sd15.safetensors")])] in
  let prompt := [("1", ckpt); ("2", ckpt); ("3", ckpt)] in
  exists data',
    extract_and_record_models sample_now sample_now prompt sample_data = Ok data'
    /\ count_under "checkpoint/sd15.safetensors" (db_models sample_data) = 8
    /\ count_under "checkpoint/sd15.safetensors" (db_models data') = 8 + 1.
Proof.
  intros ckpt prompt. eexists. split; [reflexivity|]. split; [reflexivity|].
  destruct (extract_and_record_counts_once sample_now sample_now prompt sample_data _ eq_refl)
    as [models [E [C _]]].
  vm_compute in E. injection E as <-.
  exact (C "checkpoint/sd15.safetensors").
Defined.

(** ** Records and their keys *)

Section KeyedInvariant.
Variable K : string -> ModelRecord -> Prop.
Hypothesis K_touch : forall id now_iso today r, K id r -> K id (touch now_iso today r).

Lemma record_models_keyed (now_iso today : string) (l : list model) :
  Forall (fun m => K (model_id m) (new_record now_iso m)) l ->
  forall ms,
  (forall id r, dict_get id ms = Some r -> K id r) ->
  forall id r, dict_get id (fold_left (record_model now_iso today) l ms) = Some r -> K id r.
Proof.
  induction 1 as [| m rest Km F IH]; intros ms H; simpl; [exact H|].
  apply IH. intros id r. rewrite record_model_get.
  destruct (String.eqb_spec id (model_id m)) as [-> | Ne]; [| apply H].
  intros E. injection E as <-. apply K_touch.
  destruct (dict_get (model_id m) ms) as [r0 |] eqn:G; [now apply H | exact Km].
Qed.

Lemma record_calls_keyed (calls : list call) :
  Forall (fun c => forall now_iso,
            Forall (fun m => K (model_id m) (new_record now_iso m)) (refs c)) calls ->
  forall data,
  (forall id r, record_of id data = Some r -> K id r) ->
  forall id r, record_of id (record_calls calls data) = Some r -> K id r.
Proof.
  induction 1 as [| c rest Kc F IH]; intros data H; simpl; [exact H|].
  apply IH. unfold record_call, record_of. rewrite db_models_record_usage.
  apply record_models_keyed; [apply Kc | exact H].
Qed.
End KeyedInvariant.

(** X11.  When every list recorded came from [extract_models_from_prompt],
    the key of every record of the document is its [category], a slash
    and its [name]; [path] repeats the key, the name is not empty and the
    category is one that [MODEL_CATEGORIES] lists. *)
Theorem records_match_their_keys (t0 : datetime) (calls : list call) (id : string)
    (r : ModelRecord) :
  Forall (fun c => exists prompt, extract_models_from_prompt prompt = Ok (refs c)) calls ->
  record_of id (record_calls calls (create_empty_data t0)) = Some r ->
  id = (r_category r ++ "/" ++ r_name r)%string
  /\ path r = id
  /\ r_name r <> ""
  /\ In (r_category r) (dict_keys MODEL_CATEGORIES).
Proof.
  intros F.
  apply (record_calls_keyed
           (fun id r => id = (r_category r ++ "/" ++ r_name r)%string
                        /\ path r = id /\ r_name r <> ""
                        /\ In (r_category r) (dict_keys MODEL_CATEGORIES))).
  - intros id0 now_iso today r0 H. exact H.
  - eapply Forall_impl; [| exact F]. intros c [prompt E] now_iso.
    destruct (extracted_well_formed prompt (refs c) E) as [W _].
    eapply Forall_impl; [| exact W]. intros m [N [C I]].
    cbn [new_record r_category r_name path]. repeat split; assumption.
  - intros id0 r0 H. discriminate H.
Qed.

Lemma records_match_their_keys_witness :
  let prompt :=
    [("1", VDict [("class_type", VStr "VAELoader");
                  ("inputs", VDict [("vae_name", VStr "kl-f8.pt")])])] in
  let c := {| at_time := sample_now; saved_at := sample_now;
              refs := [reference "vae" "kl-f8.pt"] |} in
  exists r,
    extract_models_from_prompt prompt = Ok (refs c)
    /\ record_of "vae/kl-f8.pt" (record_calls [c] (create_empty_data sample_start)) = Some r
    /\ path r = "vae/kl-f8.pt".
Proof.
  intros prompt c. eexists. split; [reflexivity|]. split; [reflexivity|].
  refine (proj1 (proj2 (records_match_their_keys sample_start [c] "vae/kl-f8.pt" _ _ eq_refl))).
  constructor; [| constructor]. exists prompt. reflexivity.
Defined.

(* ================================================================== *)
(** * More on the data file *)
(* ================================================================== *)

(** ** Saving and loading *)

(** The files after a read under the lock, the marker having been free. *)
Lemma read_failed_files (w : world) :
  files w lock_path = None ->
  (forall p, files (read_failed w) p = files w p)
  /\ printed (read_failed w) = printed w
  /\ time (read_failed w) = time w
  /\ utc (read_failed w) = utc w
  /\ reads (read_failed w) = reads w.
Proof.
  intros H. unfold read_failed. cbn. repeat split.
  intros p. destruct (String.eqb_spec p lock_path) as [-> | N]; [now rewrite H | reflexivity].
Qed.

(** [load_data] of a file that holds a document of the current version. *)
Lemma load_data_current (w : world) (d : dict pyval) (mt : Z) :
  files w storage_path = Some (File (JsonText (VDict d)) mt) ->
  files w lock_path = None ->
  integer_version d = Some SCHEMA_VERSION ->
  load_data w = (Ok (VDict d), read_failed w).
Proof.
  intros Hs Hl V. unfold load_data, bindM at 1, exists_. rewrite Hs. cbn [negb].
  unfold try_except, bindM at 1.
  rewrite with_FileLock_free by exact Hl.
  assert (R : json_load storage_path (snd (write_file lock_path (Malformed "") w))
              = (Ok (VDict d), snd (write_file lock_path (Malformed "") w))).
  { unfold json_load. cbn. rewrite Hs. reflexivity. }
  rewrite R. cbn [fst snd]. fold (read_failed w).
  now rewrite (migrate_schema_current d (read_failed w) V).
Qed.

Lemma doc_json_version (data : UsageDatabase) :
  exists d, doc_json data = VDict d /\ integer_version d = Some (db_version data).
Proof. eexists. split; reflexivity. Qed.

(** X12.  Saving and loading round-trip: when there is no lock marker
    from the future (none at all, or one left behind), [save_data] of a
    document of the current version returns it stamped with the clock's
    reading and leaves the data file holding exactly that document, no
    temporary file and no marker, every other file as it was;
    [load_data] then returns that document, changes no file and prints
    nothing. *)
Theorem save_then_load (data : UsageDatabase) (w : world) :
  (forall marker, files w lock_path = Some marker -> mtime marker <= time w) ->
  db_version data = SCHEMA_VERSION ->
  exists data1 w1 w2,
    save_data data w = (Ok data1, w1)
    /\ data1 = stamp_last_updated (reading w 0) data
    /\ files w1 storage_path = Some (File (JsonText (doc_json data1)) (time w1))
    /\ files w1 temp_path = None
    /\ files w1 lock_path = None
    /\ (forall p, p <> storage_path -> p <> temp_path -> p <> lock_path ->
          files w1 p = files w p)
    /\ load_data w1 = (Ok (doc_json data1), w2)
    /\ (forall p, files w2 p = files w1 p)
    /\ printed w2 = printed w.
Proof.
  intros Hm V.
  destruct (save_data_takes data w Hm) as [w1 [S [Fo [Fs [Ft [Fl [Pr _]]]]]]].
  set (data1 := stamp_last_updated (reading w 0) data) in *.
  exists data1, w1, (read_failed w1).
  split; [exact S|]. split; [reflexivity|]. split; [exact Fs|].
  split; [exact Ft|]. split; [exact Fl|]. split; [exact Fo|].
  destruct (doc_json_version data1) as [d [Ed Vd]].
  destruct (read_failed_files w1 Fl) as [Rf [Rp _]].
  split; [| split; [exact Rf | now rewrite Rp]].
  rewrite Ed in *. apply (load_data_current _ d (time w1) Fs Fl).
  rewrite Vd. cbn [data1 stamp_last_updated db_version]. now rewrite V.
Qed.

Lemma save_then_load_witness :
  let w := only_data_file (Malformed "x") in
  exists data1 w1,
    save_data sample_data w = (Ok data1, w1)
    /\ last_updated (db_metadata data1) = "2026-11-03T12:00:00Z"
    /\ fst (load_data w1) = Ok (doc_json data1).
Proof.
  intros w.
  destruct (save_then_load sample_data w) as [data1 [w1 [w2 [S [D [_ [_ [_ [_ [L _]]]]]]]]]].
  { intros marker M. discriminate M. }
  { reflexivity. }
  exists data1, w1. split; [exact S|]. split; [now rewrite D|].
  now rewrite L.
Defined.

(** X13.  The first load: when there is no data file and no lock marker
    from the future, [load_data] returns an empty document of the current
    version whose [tracking_started] is the first reading of the clock
    and whose [last_updated] the second, and writes it to the data file;
    a second load returns the same document and changes no file. *)
Theorem first_load_creates_the_file (w : world) :
  files w storage_path = None ->
  (forall marker, files w lock_path = Some marker -> mtime marker <= time w) ->
  exists data w1 w2,
    load_data w = (Ok (doc_json data), w1)
    /\ data = {| db_version := SCHEMA_VERSION;
                 db_models := [];
                 db_metadata := {| tracking_started := iso_z (reading w 0);
                                   last_updated := iso_z (reading w 1) |} |}
    /\ files w1 storage_path = Some (File (JsonText (doc_json data)) (time w1))
    /\ files w1 temp_path = None
    /\ files w1 lock_path = None
    /\ load_data w1 = (Ok (doc_json data), w2)
    /\ (forall p, files w2 p = files w1 p).
Proof.
  intros Hs Hm.
  set (data := stamp_last_updated (reading w 1) (create_empty_data (reading w 0))).
  destruct (save_data_takes (create_empty_data (reading w 0)) (snd (utcnow w)) Hm)
    as [w1 [S [_ [Fs [Ft [Fl _]]]]]].
  change (stamp_last_updated (reading (snd (utcnow w)) 0) (create_empty_data (reading w 0)))
    with data in S, Fs.
  assert (L : load_data w = (Ok (doc_json data), w1)).
  { unfold load_data, bindM at 1, exists_. rewrite Hs. cbn [negb].
    unfold bindM at 1. cbn [utcnow]. unfold bindM at 1.
    cbn [utcnow snd] in S. unfold reading in S. cbn [Nat.add] in S.
    unfold reading. cbn [Nat.add]. rewrite S. reflexivity. }
  exists data, w1, (read_failed w1).
  split; [exact L|]. split; [reflexivity|]. split; [exact Fs|].
  split; [exact Ft|]. split; [exact Fl|].
  destruct (read_failed_files _ Fl) as [Rf _]. split; [| exact Rf].
  destruct (doc_json_version data) as [d [Ed Vd]]. rewrite Ed in *.
  exact (load_data_current _ d _ Fs Fl Vd).
Qed.

Lemma first_load_creates_the_file_witness :
  let w := {| files := fun p => if String.eqb p lock_path
                                then Some (File (Malformed "") 0) else None;
              utc := fun n => DateTime (Date 2026 11 3) 12 0 (Z.of_nat n) 0;
              reads := 0; time := 50; printed := [] |} in
  exists data w1,
    load_data w = (Ok (doc_json data), w1)
    /\ db_metadata data = {| tracking_started := "2026-11-03T12:00:00Z";
                             last_updated := "2026-11-03T12:00:01Z" |}
    /\ fst (load_data w1) = Ok (doc_json data).
Proof.
  intros w.
  destruct (first_load_creates_the_file w eq_refl)
    as [data [w1 [w2 [L [D [_ [_ [_ [L2 _]]]]]]]]].
  { intros marker M. cbn in M. injection M as <-. cbn. lia. }
  exists data, w1. split; [exact L|]. split; [now rewrite D|]. now rewrite L2.
Defined.

(** ** Migration *)

Lemma migrate_schema_of_stamped (x d' : pyval) (w : world) :
  py_setitem x "version" (VInt SCHEMA_VERSION) = Ok d' ->
  migrate_schema d' w = (Ok d', w).
Proof.
  destruct x as [| | | | | | d]; try discriminate. cbn [py_setitem].
  intros E. injection E as <-. apply migrate_schema_current.
  unfold integer_version. now rewrite dict_get_set_same.
Qed.

(** X14.  [migrate_schema] is idempotent: whatever document it was given,
    when it returns, running it again on what it returned returns the
    same document and touches nothing, neither the backup nor the
    clock. *)
Theorem migrate_schema_idempotent (data data' : pyval) (w w' : world) :
  migrate_schema data w = (Ok data', w') ->
  migrate_schema data' w' = (Ok data', w').
Proof.
  unfold migrate_schema at 1. unfold bindM at 1. unfold lift at 1.
  destruct (py_get data "version" (VInt 0)) as [cv | e] eqn:G; [| discriminate].
  destruct (py_eq_int cv SCHEMA_VERSION) eqn:Q.
  - unfold ret. intros E. injection E as <- <-.
    unfold migrate_schema, bindM, lift. rewrite G, Q. reflexivity.
  - unfold bindM at 1. cbn [write_file]. unfold bindM at 1. cbn [print].
    unfold bindM at 1. unfold lift at 1.
    destruct (py_lt_int cv 1) as [below_1 | e]; [| discriminate].
    unfold bindM at 1.
    match goal with
    | |- context [(if below_1 then migrate_to_v1 data else ret data) ?w0] =>
        destruct ((if below_1 then migrate_to_v1 data else ret data) w0) as [[x | e] w1]
    end; [| discriminate].
    unfold lift.
    destruct (py_setitem x "version" (VInt SCHEMA_VERSION)) as [d1 | e] eqn:S; [| discriminate].
    intros E. injection E as <- <-. exact (migrate_schema_of_stamped x d1 w1 S).
Qed.

Lemma migrate_schema_idempotent_witness :
  let d := VDict [("models", VDict [("lora/a", VDict [("last_used", VStr "t")])])] in
  let w := only_data_file (Malformed "x") in
  exists d' w',
    migrate_schema d w = (Ok d', w')
    /\ d' <> d
    /\ migrate_schema d' w' = (Ok d', w').
Proof.
  intros d w. eexists. eexists. split; [reflexivity|]. split; [discriminate|].
  apply (migrate_schema_idempotent d _ w _). reflexivity.
Defined.

(** The value under [key] of a record read from the file. *)
Lemma dict_set_keeps (rec : dict pyval) (key k : string) (v x : pyval) :
  dict_mem key rec = false ->
  dict_get k rec = Some x -> dict_get k (dict_set key v rec) = Some x.
Proof.
  unfold dict_mem. intros M G. destruct (String.eqb_spec k key) as [-> | N].
  - rewrite G in M. discriminate.
  - now rewrite dict_get_set_other.
Qed.

(** X15.  The migration of a record only adds: every key the record had
    keeps its value; [usage_log] is set to the empty list only when the
    key was missing; [first_used] is set only when it was missing, to the
    record's [last_used] when it has one and to the clock's reading
    otherwise; and no file is touched. *)
Theorem migrate_record_only_adds (rec : dict pyval) (w : world) :
  exists rec' w',
    migrate_record (VDict rec) w = (Ok (VDict rec'), w')
    /\ same_files w w'
    /\ (forall k x, dict_get k rec = Some x -> dict_get k rec' = Some x)
    /\ dict_get "usage_log" rec'
       = Some match dict_get "usage_log" rec with
              | Some x => x
              | None => VList []
              end
    /\ dict_get "first_used" rec'
       = Some match dict_get "first_used" rec with
              | Some x => x
              | None =>
                  match dict_get "last_used" rec with
                  | Some x => x
                  | None => VStr (iso_z (reading w 0))
                  end
              end
    /\ (forall k, dict_mem k rec' = true ->
          dict_mem k rec = true \/ k = "usage_log" \/ k = "first_used").
Proof.
  unfold migrate_record, bindM, lift, ret, py_str_in, py_setitem, py_get, reading.
  unfold dict_mem.
  destruct (dict_get "usage_log" rec) as [ul |] eqn:L; cbn [negb].
  - destruct (dict_get "first_used" rec) as [fu |] eqn:F; cbn [negb].
    + exists rec, w. split; [reflexivity|]. split; [apply same_files_refl|].
      split; [auto|]. split; [exact L|]. split; [exact F|]. auto.
    + cbn [utcnow]. eexists. eexists. split; [reflexivity|].
      split; [repeat split|]. split; [| split; [| split]].
      * intros k x G. apply dict_set_keeps; [unfold dict_mem; now rewrite F | exact G].
      * rewrite dict_get_set_other by discriminate. exact L.
      * now rewrite dict_get_set_same.
      * intros k. destruct (String.eqb_spec k "first_used") as [-> | N]; [auto|].
        rewrite dict_get_set_other by exact N. auto.
  - rewrite (dict_get_set_other "usage_log" "first_used") by discriminate.
    destruct (dict_get "first_used" rec) as [fu |] eqn:F; cbn [negb].
    + eexists. exists w. split; [reflexivity|]. split; [apply same_files_refl|].
      split; [| split; [| split]].
      * intros k x G. apply dict_set_keeps; [unfold dict_mem; now rewrite L | exact G].
      * now rewrite dict_get_set_same.
      * rewrite dict_get_set_other by discriminate. exact F.
      * intros k. destruct (String.eqb_spec k "usage_log") as [-> | N]; [auto|].
        rewrite dict_get_set_other by exact N. auto.
    + cbn [utcnow]. eexists. eexists. split; [reflexivity|].
      split; [repeat split|]. split; [| split; [| split]].
      * intros k x G. apply dict_set_keeps.
        { unfold dict_mem. rewrite dict_get_set_other by discriminate. now rewrite F. }
        apply dict_set_keeps; [unfold dict_mem; now rewrite L | exact G].
      * rewrite dict_get_set_other by discriminate. now rewrite dict_get_set_same.
      * rewrite dict_get_set_same.
        rewrite (dict_get_set_other "usage_log" "last_used") by discriminate.
        replace (Nat.add 0 (reads w)) with (reads w) by reflexivity. reflexivity.
      * intros k. destruct (String.eqb_spec k "first_used") as [-> | N]; [auto|].
        rewrite dict_get_set_other by exact N.
        destruct (String.eqb_spec k "usage_log") as [-> | N']; [auto|].
        rewrite dict_get_set_other by exact N'. auto.
Qed.

(* ================================================================== *)
(** * The lock and the save *)
(* ================================================================== *)

(** ** [FileLock.__enter__] *)

(** X16.  What [FileLock.__enter__] does with a marker it finds.  A marker
    whose modification time is not in the future never makes it fail: it
    waits until the marker is more than ten seconds old, removes it and
    takes the lock, at the latest 10.1 seconds after the call.  A marker
    whose modification time is in the future is never removed: the call
    raises [TimeoutError] after 10.1 seconds and leaves every file as it
    was.  Without a marker the lock is taken at once. *)
Theorem FileLock_enter_outcome (w : world) :
  exists r w',
    FileLock_enter w = (r, w')
    /\ utc w' = utc w /\ reads w' = reads w /\ printed w' = printed w
    /\ (forall p, p <> lock_path -> files w' p = files w p)
    /\ match files w lock_path with
       | None =>
           r = Ok tt /\ time w' = time w
           /\ files w' lock_path = Some (File (Malformed "") (time w'))
       | Some marker =>
           if mtime marker <=? time w then
             r = Ok tt
             /\ time w' = Z.max (time w) (mtime marker + LOCK_TIMEOUT + 1)
             /\ time w' <= time w + LOCK_TIMEOUT + 1
             /\ files w' lock_path = Some (File (Malformed "") (time w'))
           else
             r = Raise TimeoutError
             /\ time w' = time w + LOCK_TIMEOUT + 1
             /\ files w' lock_path = Some marker
       end.
Proof.
  destruct (files w lock_path) as [marker |] eqn:Hm.
  - destruct (Z.leb_spec (mtime marker) (time w)) as [Old | Future].
    + destruct (FileLock_enter_takes w) as [w1 [E [U [R [P [O [L T]]]]]]].
      { intros marker' M. rewrite Hm in M. injection M as <-. exact Old. }
      rewrite Hm in T. exists (Ok tt), w1. split; [exact E|].
      split; [exact U|]. split; [exact R|]. split; [exact P|]. split; [exact O|].
      split; [reflexivity|]. split; [exact T|]. split; [| exact L].
      unfold LOCK_TIMEOUT in *. lia.
    + destruct (FileLock_enter_times_out w marker Hm Future) as [w1 [E [U [R [P [F T]]]]]].
      exists (Raise TimeoutError), w1. split; [exact E|].
      split; [exact U|]. split; [exact R|]. split; [exact P|].
      split; [intros p _; now rewrite F|].
      split; [reflexivity|]. split; [exact T|]. now rewrite F.
  - destruct (FileLock_enter_takes w) as [w1 [E [U [R [P [O [L T]]]]]]].
    { intros marker M. rewrite Hm in M. discriminate. }
    rewrite Hm in T. exists (Ok tt), w1. split; [exact E|].
    split; [exact U|]. split; [exact R|]. split; [exact P|]. split; [exact O|].
    split; [reflexivity|]. split; [exact T | exact L].
Qed.

Example stale_marker_is_removed :
  let w := {| files := fun p => if String.eqb p lock_path
                                then Some (File (Malformed "") 0) else None;
              utc := fun _ => sample_now; reads := 0; time := 40; printed := [] |} in
  fst (FileLock_enter w) = Ok tt /\ time (snd (FileLock_enter w)) = 101.
Proof. split; vm_compute; reflexivity. Qed.

Example future_marker_times_out :
  let w := {| files := fun p => if String.eqb p lock_path
                                then Some (File (Malformed "") 41) else None;
              utc := fun _ => sample_now; reads := 0; time := 40; printed := [] |} in
  fst (FileLock_enter w) = Raise TimeoutError /\ time (snd (FileLock_enter w)) = 141.
Proof. split; vm_compute; reflexivity. Qed.

(** ** [save_data] *)

(** X17.  [save_data] writes all or nothing.  Either it returns, and then
    the data file holds exactly the stamped document, written under the
    lock, and neither a temporary file nor the marker is left; or it
    raises [TimeoutError], and then the data file and the marker are the
    ones that were there and no temporary file is left.  It raises exactly
    when it finds a marker whose modification time is in the future.  No
    other file is touched either way. *)
Theorem save_data_all_or_nothing (data : UsageDatabase) (w : world) :
  exists r w',
    save_data data w = (r, w')
    /\ (forall p, p <> storage_path -> p <> temp_path -> p <> lock_path ->
          files w' p = files w p)
    /\ files w' temp_path = None
    /\ printed w' = printed w
    /\ match files w lock_path with
       | Some marker =>
           if mtime marker <=? time w then
             r = Ok (stamp_last_updated (reading w 0) data)
             /\ files w' storage_path
                = Some (File (JsonText (doc_json (stamp_last_updated (reading w 0) data)))
                          (time w'))
             /\ files w' lock_path = None
           else
             r = Raise TimeoutError
             /\ files w' storage_path = files w storage_path
             /\ files w' lock_path = Some marker
       | None =>
           r = Ok (stamp_last_updated (reading w 0) data)
           /\ files w' storage_path
              = Some (File (JsonText (doc_json (stamp_last_updated (reading w 0) data)))
                        (time w'))
           /\ files w' lock_path = None
       end.
Proof.
  destruct (files w lock_path) as [marker |] eqn:Hm.
  - destruct (Z.leb_spec (mtime marker) (time w)) as [Old | Future].
    + destruct (save_data_takes data w) as [w' [S [F1 [F2 [F3 [F4 [F5 _]]]]]]].
      { intros marker' M. rewrite Hm in M. injection M as <-. exact Old. }
      exists (Ok (stamp_last_updated (reading w 0) data)), w'.
      split; [exact S|]. split; [exact F1|]. split; [exact F3|]. split; [exact F5|].
      split; [reflexivity|]. split; [exact F2 | exact F4].
    + destruct (FileLock_enter_times_out (snd (utcnow w)) marker Hm Future)
        as [w1 [E [_ [_ [P [F _]]]]]].
      cbn [utcnow snd files printed] in E, P, F.
      assert (Failed : exists w',
                save_data data w = (Raise TimeoutError, w')
                /\ (forall p, p <> temp_path -> files w' p = files w p)
                /\ files w' temp_path = None
                /\ printed w' = printed w).
      { unfold save_data, bindM at 1. cbn [utcnow].
        unfold try_except, bindM at 1, with_FileLock. rewrite E.
        unfold bindM at 1, exists_.
        destruct (files w1 temp_path) eqn:T.
        - unfold bindM, unlink, raise. eexists. split; [reflexivity|].
          cbn [files with_files printed]. split; [| split; [reflexivity | exact P]].
          intros p N. apply String.eqb_neq in N. rewrite N. now rewrite F.
        - unfold bindM, ret, raise. exists w1. split; [reflexivity|].
          split; [intros p _; now rewrite F|]. split; [exact T | exact P]. }
      destruct Failed as [w' [S [F1 [F2 F3]]]].
      exists (Raise TimeoutError), w'.
      split; [exact S|]. split; [intros p _ N _; now apply F1|].
      split; [exact F2|]. split; [exact F3|]. split; [reflexivity|].
      split; [apply F1; discriminate|]. rewrite F1 by discriminate. exact Hm.
  - destruct (save_data_takes data w) as [w' [S [F1 [F2 [F3 [F4 [F5 _]]]]]]].
    { intros marker M. rewrite Hm in M. discriminate. }
    exists (Ok (stamp_last_updated (reading w 0) data)), w'.
    split; [exact S|]. split; [exact F1|]. split; [exact F3|]. split; [exact F5|].
    split; [reflexivity|]. split; [exact F2 | exact F4].
Qed.

Example failed_save_leaves_the_data_file :
  let w := {| files := fun p =>
                         if String.eqb p lock_path then Some (File (Malformed "") 41)
                         else if String.eqb p storage_path
                              then Some (File (JsonText (doc_json sample_data)) 7)
                              else if String.eqb p temp_path
                                   then Some (File (Malformed "{") 3) else None;
              utc := fun _ => sample_now; reads := 0; time := 40; printed := [] |} in
  fst (save_data sample_shelf w) = Raise TimeoutError
  /\ files (snd (save_data sample_shelf w)) storage_path
     = Some (File (JsonText (doc_json sample_data)) 7)
  /\ files (snd (save_data sample_shelf w)) temp_path = None.
Proof. repeat split; vm_compute; reflexivity. Qed.

(* ================================================================== *)
(** * The routes *)
(* ================================================================== *)

(** ** [/modelpulse/categories] *)






Example categories_of_the_sample :
  option_map (map (fun c => (c_id c, c_count c)))
    match get_categories sample_now sample_shelf with
    | Ok l => Some l
    | Raise _ => None
    end
  = Some [("checkpoint", 1); ("lora", 1); ("vae", 1); ("controlnet", 0); ("clip", 0);
          ("unet", 0); ("upscaler", 0); ("style_model", 0); ("gligen", 0); ("gguf", 0)].
Proof. reflexivity. Qed.

(** ** [/modelpulse/cleanup] *)

Lemma effective_max_days_positive (max_days : pyval) : 1 <= effective_max_days max_days.
Proof.
  destruct max_days as [| b | z | | | |]; cbn; try lia.
  - destruct b; cbn; lia.
  - destruct (Z.ltb_spec z 1); lia.
Qed.

(** X19.  Whatever the body of the request, [/modelpulse/cleanup] cuts at
    a day before the clock's: the number of days it passes on is the
    body's [max_days] when that is an integer of at least 1 ([true] counts
    as 1), and 365 for any other value, a missing key, a body that is
    not an object or not JSON.  So when it returns, every record is still
    there with its [usage_count], and every log entry dated on the
    clock's day or later is kept. *)
Theorem cleanup_route_keeps_today (now saved_at : datetime) (body : option pyval)
    (data data' : UsageDatabase) :
  valid_date (date_of now) = true ->
  cleanup_old_data now saved_at body data = Ok data' ->
  1 <= effective_max_days (requested_max_days body)
  /\ (forall z, 1 <= z -> requested_max_days body = VInt z ->
        effective_max_days (requested_max_days body) = z)
  /\ (forall b, body = None \/ body = Some b /\ is_dict b = false ->
        effective_max_days (requested_max_days body) = 365)
  /\ dict_keys (db_models data') = dict_keys (db_models data)
  /\ forall id r, record_of id data = Some r ->
     exists r', record_of id data' = Some r'
       /\ usage_count r' = usage_count r
       /\ forall e, In e (usage_log r) ->
            date_le (date_isoformat (date_of now)) (date e) -> In e (usage_log r').
Proof.
  intros V E. pose proof (effective_max_days_positive (requested_max_days body)) as Pos.
  split; [exact Pos|]. split; [| split].
  - intros z Hz ->. cbn. destruct (Z.ltb_spec z 1); [lia | reflexivity].
  - intros b [-> | [-> Hb]]; [reflexivity|].
    destruct b; try reflexivity. discriminate.
  - unfold cleanup_old_data, cleanup in E.
    set (days := effective_max_days (requested_max_days body)) in *.
    destruct (cleanup_old_usage_logs now data days) as [cleaned | e] eqn:C; [| discriminate].
    cbn [Py.bind] in E. injection E as <-.
    apply cleanup_returns in C as [_ [R ->]]. cbn [stamp_last_updated db_models]. split.
    + unfold dict_keys. rewrite map_map. reflexivity.
    + intros id r G. unfold record_of in *. cbn [stamp_last_updated db_models].
      rewrite dict_get_map_values, G. cbn [option_map]. eexists. split; [reflexivity|].
      cbn [keep_recent usage_count usage_log]. split; [reflexivity|].
      intros e Hin Hle. apply filter_In. split; [exact Hin|].
      apply (string_leb_trans _ (date_isoformat (date_of now))); [| exact Hle].
      unfold cutoff_day. destruct (fromordinal_valid _ R) as [Vc Oc].
      apply (iso_date_le _ _ Vc V). lia.
Qed.

Lemma cleanup_route_keeps_today_witness :
  let body := Some (VDict [("max_days", VStr "7")]) in
  exists data',
    cleanup_old_data sample_now sample_now body sample_data = Ok data'
    /\ effective_max_days (requested_max_days body) = 365
    /\ 1 <= effective_max_days (requested_max_days body).
Proof.
  intros body. eexists. split; [reflexivity|]. split; [reflexivity|].
  exact (proj1 (cleanup_route_keeps_today sample_now sample_now body sample_data _
                  eq_refl eq_refl)).
Defined.

Example cleanup_route_bodies :
  map (fun body => effective_max_days (requested_max_days body))
    [ None; Some (VList []); Some (VDict []); Some (VDict [("max_days", VInt 30)]);
      Some (VDict [("max_days", VInt 0)]); Some (VDict [("max_days", VFloat 30 0)]);
      Some (VDict [("max_days", VBool true)]); Some (VDict [("max_days", VNone)]) ]
  = [365; 365; 365; 30; 365; 365; 1; 365].
Proof. reflexivity. Qed.
